(** * Postlogin session service: session initialisation and token renewal

    A shallow embedding of the postlogin core of the FastAPI boilerplate:

    - [app/service/redis_service.py]              (the session store),
    - [app/service/token_verification_service.py] (the external verifier),
    - [app/service/postlogin_service.py]          (the two orchestrated flows),
    - [app/schema/postlogin_dto.py]               (the session record),
    - [app/api/mock_api.py]                       (the mock verification endpoint).

    Python objects are the values of [pyval]; a coroutine is a function of the
    world it runs in that returns a value or raises, together with the world
    it leaves behind.  Log calls have no effect on what the claims observe and
    are left out. *)

From Stdlib Require Import ZArith NArith String Ascii List Bool Lia.
From stdpp Require Import gmap strings.
Import ListNotations.

Set Warnings "-register-all".

Local Open Scope Z_scope.
Local Open Scope string_scope.
Local Open Scope list_scope.

(** ** Python values *)

(** The objects the service handles: what a JSON document decodes to.
    A [dict] keeps its items in insertion order, as Python does. Floats are
    left out: no field of the session record, of the token claims or of the
    verifier's reply that the service reads is one. *)
Inductive pyval : Type :=
| PNone
| PBool (b : bool)
| PInt (z : Z)
| PStr (s : string)
| PList (l : list pyval)
| PDict (d : list (string * pyval)).

Abbreviation dict := (list (string * pyval)).

(** [bool(v)]: the test behind [if not v], [a or b]. *)
Definition truthy (v : pyval) : bool :=
  match v with
  | PNone => false
  | PBool b => b
  | PInt z => negb (z =? 0)%Z
  | PStr s => negb (String.eqb s "")
  | PList l => match l with [] => false | _ => true end
  | PDict d => match d with [] => false | _ => true end
  end.

(** [a or b] *)
Definition py_or (a b : pyval) : pyval := if truthy a then a else b.

(** [d.get(k)] on a dict: [None] when the key is absent. *)
Fixpoint dict_lookup (d : dict) (k : string) : option pyval :=
  match d with
  | [] => None
  | (k', v) :: r => if String.eqb k' k then Some v else dict_lookup r k
  end.

Definition dict_get (d : dict) (k : string) : pyval :=
  match dict_lookup d k with Some v => v | None => PNone end.

(** [d.get(k, default)] *)
Definition dict_get_or (d : dict) (k : string) (default : pyval) : pyval :=
  match dict_lookup d k with Some v => v | None => default end.

(** [d[k] = v]: the item is replaced in place, or appended when new. *)
Fixpoint dict_set (d : dict) (k : string) (v : pyval) : dict :=
  match d with
  | [] => [(k, v)]
  | (k', v') :: r =>
      if String.eqb k' k then (k', v) :: r else (k', v') :: dict_set r k v
  end.

(** [v == s] for a str literal [s]. *)
Definition py_eq_str (v : pyval) (s : string) : bool :=
  match v with PStr t => String.eqb t s | _ => false end.

(** Decimal digits of a number. *)
Fixpoint dec_digits (fuel : nat) (n : N) (acc : string) : string :=
  match fuel with
  | O => acc
  | S f =>
      let acc' := String (ascii_of_N (48 + n mod 10)) acc in
      if (n / 10 =? 0)%N then acc' else dec_digits f (n / 10)%N acc'
  end.

Definition N_to_string (n : N) : string :=
  dec_digits (S (N.to_nat (N.log2 n))) n "".

Definition Z_to_string (z : Z) : string :=
  if (z <? 0)%Z then "-" +:+ N_to_string (Z.abs_N z) else N_to_string (Z.abs_N z).

(** [repr(v)].  The repr of a str is written between single quotes with no
    escaping. *)
Fixpoint py_repr (v : pyval) : string :=
  match v with
  | PNone => "None"
  | PBool true => "True"
  | PBool false => "False"
  | PInt z => Z_to_string z
  | PStr s => "'" +:+ s +:+ "'"
  | PList l =>
      "[" +:+
      (fix items (l : list pyval) : string :=
         match l with
         | [] => ""
         | [x] => py_repr x
         | x :: r => py_repr x +:+ ", " +:+ items r
         end) l +:+ "]"
  | PDict d =>
      "{" +:+
      (fix items (d : dict) : string :=
         match d with
         | [] => ""
         | [(k, x)] => "'" +:+ k +:+ "': " +:+ py_repr x
         | (k, x) :: r => "'" +:+ k +:+ "': " +:+ py_repr x +:+ ", " +:+ items r
         end) d +:+ "}"
  end.

(** [str(v)], what an f-string writes for [{v}]. *)
Definition py_str (v : pyval) : string :=
  match v with PStr s => s | _ => py_repr v end.

(** [s.upper()] on ASCII letters, those of the channel table of the source;
    a letter above code point 127 is left as it is. *)
Definition upper_char (c : ascii) : ascii :=
  let n := N_of_ascii c in
  if ((97 <=? n) && (n <=? 122))%N then ascii_of_N (n - 32) else c.

Fixpoint upper (s : string) : string :=
  match s with
  | EmptyString => EmptyString
  | String c r => String (upper_char c) (upper r)
  end.

(** [s.rstrip('/')] *)
Fixpoint rstrip_slash (s : string) : string :=
  match s with
  | EmptyString => EmptyString
  | String c r =>
      match rstrip_slash r with
      | EmptyString => if Ascii.eqb c "/" then EmptyString else String c EmptyString
      | r' => String c r'
      end
  end.

(** [s.startswith(p)] *)
Definition startswith (s p : string) : bool := String.prefix p s.

(** ** The json library *)

(** [json.dumps] and [json.loads] belong to Python's standard library, not to
    the repository: the service is embedded over any pair of them.
    [json_dumps v = None] stands for the TypeError of a value that cannot be
    serialised, [json_loads s = None] for a JSONDecodeError. A text on which
    [json.loads] raises something else (the ValueError of an integer beyond
    the digit limit, a RecursionError) has no outcome here: what is proved of
    a text that does not parse is proved of one that raises a
    JSONDecodeError. *)
Class Json := {
  json_dumps : pyval -> option string;
  json_loads : string -> option pyval
}.

(** A codec for the documents the service stores and reads, in the layout of
    Python's [json.dumps] (items separated by a comma and a space, keys by a
    colon and a space, non-printable and non-ASCII characters escaped).  The
    characters of a string are code points below 256.  [loads] decodes the
    JSON grammar for the values of [pyval]: a number with a fraction or an
    exponent, and an escape above code point 255, are outside it. *)
Module PyJson.

Definition dquote : ascii := ascii_of_N 34.
Definition backslash : ascii := ascii_of_N 92.

Definition hex_digit (n : N) : ascii :=
  if (n <? 10)%N then ascii_of_N (48 + n) else ascii_of_N (87 + n).

Definition escape_char (c : ascii) : string :=
  let n := N_of_ascii c in
  let esc (e : ascii) := String backslash (String e "") in
  if (n =? 34)%N then esc dquote
  else if (n =? 92)%N then esc backslash
  else if (n =? 10)%N then esc "n"%char
  else if (n =? 13)%N then esc "r"%char
  else if (n =? 9)%N then esc "t"%char
  else if (n =? 8)%N then esc "b"%char
  else if (n =? 12)%N then esc "f"%char
  else if ((n <? 32) || (126 <? n))%N then
    esc "u"%char +:+ "00" +:+ String (hex_digit (n / 16)) (String (hex_digit (n mod 16)) "")
  else String c "".

Fixpoint escape (s : string) : string :=
  match s with
  | EmptyString => EmptyString
  | String c r => escape_char c +:+ escape r
  end.

Definition quote (s : string) : string :=
  String dquote (escape s +:+ String dquote "").

Fixpoint dumps (v : pyval) : string :=
  match v with
  | PNone => "null"
  | PBool true => "true"
  | PBool false => "false"
  | PInt z => Z_to_string z
  | PStr s => quote s
  | PList l =>
      "[" +:+
      (fix items (l : list pyval) : string :=
         match l with
         | [] => ""
         | [x] => dumps x
         | x :: r => dumps x +:+ ", " +:+ items r
         end) l +:+ "]"
  | PDict d =>
      "{" +:+
      (fix members (d : list (string * pyval)) : string :=
         match d with
         | [] => ""
         | [(k, x)] => quote k +:+ ": " +:+ dumps x
         | (k, x) :: r => quote k +:+ ": " +:+ dumps x +:+ ", " +:+ members r
         end) d +:+ "}"
  end.

Definition is_ws (c : ascii) : bool :=
  let n := N_of_ascii c in
  ((n =? 32) || (n =? 9) || (n =? 10) || (n =? 13))%N.

Fixpoint skip_ws (l : list ascii) : list ascii :=
  match l with
  | c :: r => if is_ws c then skip_ws r else l
  | [] => []
  end.

Definition is_digit (c : ascii) : bool :=
  let n := N_of_ascii c in ((48 <=? n) && (n <=? 57))%N.

Definition hex_value (c : ascii) : option N :=
  let n := N_of_ascii c in
  if ((48 <=? n) && (n <=? 57))%N then Some (n - 48)%N
  else if ((97 <=? n) && (n <=? 102))%N then Some (n - 87)%N
  else if ((65 <=? n) && (n <=? 70))%N then Some (n - 55)%N
  else None.

Definition hex4 (a b c d : ascii) : option N :=
  match hex_value a, hex_value b, hex_value c, hex_value d with
  | Some x, Some y, Some z, Some t => Some (((x * 16 + y) * 16 + z) * 16 + t)%N
  | _, _, _, _ => None
  end.

Definition unescape (e : ascii) : option ascii :=
  let n := N_of_ascii e in
  if (n =? 34)%N then Some dquote
  else if (n =? 92)%N then Some backslash
  else if (n =? 47)%N then Some "/"%char
  else if (n =? 110)%N then Some (ascii_of_N 10)
  else if (n =? 114)%N then Some (ascii_of_N 13)
  else if (n =? 116)%N then Some (ascii_of_N 9)
  else if (n =? 98)%N then Some (ascii_of_N 8)
  else if (n =? 102)%N then Some (ascii_of_N 12)
  else None.

(** The characters of a string literal, after its opening quote. *)
Fixpoint parse_chars (l acc : list ascii) {struct l} : option (string * list ascii) :=
  match l with
  | [] => None
  | c :: r =>
      if Ascii.eqb c dquote then Some (string_of_list_ascii (rev acc), r)
      else if Ascii.eqb c backslash then
        match r with
        | [] => None
        | e :: r1 =>
            if Ascii.eqb e "u" then
              match r1 with
              | h1 :: h2 :: h3 :: h4 :: r2 =>
                  match hex4 h1 h2 h3 h4 with
                  | Some n => if (n <? 256)%N then parse_chars r2 (ascii_of_N n :: acc) else None
                  | None => None
                  end
              | _ => None
              end
            else
              match unescape e with
              | Some x => parse_chars r1 (x :: acc)
              | None => None
              end
        end
      else if (N_of_ascii c <? 32)%N then None
      else parse_chars r (c :: acc)
  end.

Fixpoint parse_digits (l : list ascii) (acc : N) : N * list ascii :=
  match l with
  | c :: r => if is_digit c then parse_digits r (acc * 10 + (N_of_ascii c - 48))%N else (acc, l)
  | [] => (acc, [])
  end.

Definition ends_number (l : list ascii) : bool :=
  match l with
  | c :: _ => negb (Ascii.eqb c "." || Ascii.eqb c "e" || Ascii.eqb c "E")
  | [] => true
  end.

(** An integer literal: no leading zero, no fraction, no exponent. *)
Definition parse_nat (l : list ascii) : option (N * list ascii) :=
  match l with
  | c :: r =>
      if Ascii.eqb c "0" then
        match r with
        | d :: _ => if is_digit d then None else if ends_number r then Some (0%N, r) else None
        | [] => Some (0%N, [])
        end
      else if is_digit c then
        let '(n, r') := parse_digits l 0%N in
        if ends_number r' then Some (n, r') else None
      else None
  | [] => None
  end.

Fixpoint strip_prefix (p l : list ascii) : option (list ascii) :=
  match p, l with
  | [], _ => Some l
  | a :: p', b :: l' => if Ascii.eqb a b then strip_prefix p' l' else None
  | _ :: _, [] => None
  end.

Fixpoint parse_value (fuel : nat) (l : list ascii) {struct fuel} : option (pyval * list ascii) :=
  match fuel with
  | O => None
  | S f =>
      match skip_ws l with
      | [] => None
      | c :: r =>
          if Ascii.eqb c dquote then
            match parse_chars r [] with
            | Some (s, r') => Some (PStr s, r')
            | None => None
            end
          else if Ascii.eqb c "[" then
            match skip_ws r with
            | c' :: r' =>
                if Ascii.eqb c' "]" then Some (PList [], r')
                else
                  match parse_elems f (c' :: r') [] with
                  | Some (vs, r'') => Some (PList vs, r'')
                  | None => None
                  end
            | [] => None
            end
          else if Ascii.eqb c "{" then
            match skip_ws r with
            | c' :: r' =>
                if Ascii.eqb c' "}" then Some (PDict [], r')
                else
                  match parse_members f (c' :: r') [] with
                  | Some (kvs, r'') => Some (PDict kvs, r'')
                  | None => None
                  end
            | [] => None
            end
          else if Ascii.eqb c "-" then
            match parse_nat r with
            | Some (n, r') => Some (PInt (- Z.of_N n), r')
            | None => None
            end
          else if is_digit c then
            match parse_nat (c :: r) with
            | Some (n, r') => Some (PInt (Z.of_N n), r')
            | None => None
            end
          else
            match strip_prefix (list_ascii_of_string "null") (c :: r) with
            | Some r' => Some (PNone, r')
            | None =>
                match strip_prefix (list_ascii_of_string "true") (c :: r) with
                | Some r' => Some (PBool true, r')
                | None =>
                    match strip_prefix (list_ascii_of_string "false") (c :: r) with
                    | Some r' => Some (PBool false, r')
                    | None => None
                    end
                end
            end
      end
  end
with parse_elems (fuel : nat) (l : list ascii) (acc : list pyval) {struct fuel}
  : option (list pyval * list ascii) :=
  match fuel with
  | O => None
  | S f =>
      match parse_value f l with
      | Some (v, r) =>
          match skip_ws r with
          | c :: r' =>
              if Ascii.eqb c "," then parse_elems f r' (v :: acc)
              else if Ascii.eqb c "]" then Some (rev (v :: acc), r')
              else None
          | [] => None
          end
      | None => None
      end
  end
with parse_members (fuel : nat) (l : list ascii) (acc : list (string * pyval)) {struct fuel}
  : option (list (string * pyval) * list ascii) :=
  match fuel with
  | O => None
  | S f =>
      match skip_ws l with
      | q :: r0 =>
          if Ascii.eqb q dquote then
            match parse_chars r0 [] with
            | Some (k, r1) =>
                match skip_ws r1 with
                | c :: r2 =>
                    if Ascii.eqb c ":" then
                      match parse_value f r2 with
                      | Some (v, r3) =>
                          match skip_ws r3 with
                          | c' :: r4 =>
                              if Ascii.eqb c' "," then parse_members f r4 ((k, v) :: acc)
                              else if Ascii.eqb c' "}" then Some (rev ((k, v) :: acc), r4)
                              else None
                          | [] => None
                          end
                      | None => None
                      end
                    else None
                | [] => None
                end
            | None => None
            end
          else None
      | [] => None
      end
  end.

(** A later item of an object replaces an earlier one with the same key, as
    when Python builds the dict. *)
Fixpoint dedup (v : pyval) : pyval :=
  match v with
  | PList l => PList (map dedup l)
  | PDict d =>
      PDict ((fix go (d acc : list (string * pyval)) : list (string * pyval) :=
                match d with
                | [] => acc
                | (k, x) :: r => go r (dict_set acc k (dedup x))
                end) d [])
  | _ => v
  end.

Definition loads (s : string) : option pyval :=
  let l := list_ascii_of_string s in
  match parse_value (2 * List.length l + 2) l with
  | Some (v, r) => match skip_ws r with [] => Some (dedup v) | _ => None end
  | None => None
  end.

End PyJson.

(** The codec as an instance of the library interface; it serialises every
    value of [pyval]. *)
Definition python_json : Json :=
  {| json_dumps := fun v => Some (PyJson.dumps v); json_loads := PyJson.loads |}.

(** ** Exceptions, the world, coroutines *)

(** What a coroutine raises: FastAPI's [HTTPException], or any other
    exception, known by the name of its class. *)
Inductive exn : Type :=
| HTTPException (status_code : Z) (detail : string)
| Exception (cls : string).

Inductive outcome (A : Type) : Type :=
| Return (a : A)
| Raise (e : exn).
Arguments Return {A} a.
Arguments Raise {A} e.

(** An outbound POST of the verifier (its JSON body is always the empty
    object) and what comes back: a transport failure, a response with its
    status and text, or the refusal of the client library to send the request
    at all (a URL it does not accept, a header value that the HTTP layer
    rejects). The library is not part of the repository: which requests it
    refuses is for the world to say. *)
Record http_request : Type := {
  url : string;
  headers : list (string * string)
}.

(** The value of a header of a request. *)
Fixpoint header (name : string) (h : list (string * string)) : option string :=
  match h with
  | [] => None
  | (k, v) :: r => if String.eqb k name then Some v else header name r
  end.

Inductive http_outcome : Type :=
| TransportError
| Response (status : Z) (text : string)
| Refused.

(** Everything outside a call that the call reads or changes. *)
Record World : Type := {
  (** [redis_service._redis] has been set by [connect] *)
  w_redis : bool;
  (** the keys of the Redis server: the value and the time to live, in
      seconds, given with the last write ([None]: no expiry) *)
  w_db : gmap string (string * option Z);
  (** for each coming Redis command in turn, whether the connection breaks on
      it; a command after the end of the list goes through *)
  w_faults : list bool;
  (** [int(time.time() * 1000)] at the next reading, and at the ones after it;
      after the end of the list the clock stands *)
  w_now : Z;
  w_later : list Z;
  (** how many ids [uuid.uuid4] has handed out *)
  w_uuid : nat;
  (** the endpoint the verifier posts to *)
  w_http : http_request -> http_outcome;
  (** the requests sent so far, the last one first *)
  w_sent : list http_request
}.

Definition with_db (db : gmap string (string * option Z)) (w : World) : World :=
  {| w_redis := w_redis w; w_db := db; w_faults := w_faults w; w_now := w_now w;
     w_later := w_later w; w_uuid := w_uuid w; w_http := w_http w; w_sent := w_sent w |}.

Definition with_faults (f : list bool) (w : World) : World :=
  {| w_redis := w_redis w; w_db := w_db w; w_faults := f; w_now := w_now w;
     w_later := w_later w; w_uuid := w_uuid w; w_http := w_http w; w_sent := w_sent w |}.

Definition with_clock (now : Z) (later : list Z) (w : World) : World :=
  {| w_redis := w_redis w; w_db := w_db w; w_faults := w_faults w; w_now := now;
     w_later := later; w_uuid := w_uuid w; w_http := w_http w; w_sent := w_sent w |}.

Definition with_uuid (n : nat) (w : World) : World :=
  {| w_redis := w_redis w; w_db := w_db w; w_faults := w_faults w; w_now := w_now w;
     w_later := w_later w; w_uuid := n; w_http := w_http w; w_sent := w_sent w |}.

Definition with_sent (l : list http_request) (w : World) : World :=
  {| w_redis := w_redis w; w_db := w_db w; w_faults := w_faults w; w_now := w_now w;
     w_later := w_later w; w_uuid := w_uuid w; w_http := w_http w; w_sent := l |}.

(** A coroutine returning an [A]. An exception leaves the world as it was
    when it was raised: nothing is rolled back. *)
Definition M (A : Type) : Type := World -> outcome A * World.

Definition ret {A : Type} (a : A) : M A := fun w => (Return a, w).

Definition raise {A : Type} (e : exn) : M A := fun w => (Raise e, w).

Definition bind {A B : Type} (m : M A) (k : A -> M B) : M B :=
  fun w =>
    match m w with
    | (Return a, w') => k a w'
    | (Raise e, w') => (Raise e, w')
    end.

(** [try: body / except ...: handler]; the handler is [None] on the
    exceptions that the [except] clause lets through. *)
Definition try_except {A : Type} (body : M A) (handler : exn -> option (M A)) : M A :=
  fun w =>
    match body w with
    | (Return a, w') => (Return a, w')
    | (Raise e, w') =>
        match handler e with
        | Some h => h w'
        | None => (Raise e, w')
        end
    end.

Declare Scope py_scope.
Delimit Scope py_scope with py.
Notation "'await' x ':=' m 'in' k" := (bind m (fun x => k))
  (at level 10, x name, m at level 100, k at level 200) : py_scope.
Notation "'await' ' pat ':=' m 'in' k" := (bind m (fun x => match x with pat => k end))
  (at level 10, pat pattern, m at level 100, k at level 200) : py_scope.
Notation "'exec' m 'in' k" := (bind m (fun _ => k))
  (at level 10, m at level 100, k at level 200) : py_scope.
Local Open Scope py_scope.

(** [except HTTPException] *)
Definition except_HTTPException {A : Type} (h : M A) (e : exn) : option (M A) :=
  match e with
  | HTTPException _ _ => Some h
  | Exception _ => None
  end.

(** [except Exception]: every exception, [HTTPException] among them. *)
Definition except_Exception {A : Type} (h : M A) (e : exn) : option (M A) := Some h.

(** [int(time.time() * 1000)] *)
Definition time_ms : M Z :=
  fun w =>
    (Return (w_now w),
     match w_later w with
     | [] => w
     | t :: l => with_clock t l w
     end).

(** The text of the [n]-th id that [uuid.uuid4] generates: ids are told apart
    by their rank, written in unary. *)
Fixpoint uuid_rank (n : nat) : string :=
  match n with
  | O => EmptyString
  | S m => String "i" (uuid_rank m)
  end.

Definition uuid_of (n : nat) : string := "uuid4-" +:+ uuid_rank n.

(** [str(uuid.uuid4())] *)
Definition uuid4 : M string :=
  fun w => (Return (uuid_of (w_uuid w)), with_uuid (S (w_uuid w)) w).

(** [v.get(k, default)] on any object: only a dict has the method. *)
Definition py_get_or (v : pyval) (k : string) (default : pyval) : M pyval :=
  match v with
  | PDict d => ret (dict_get_or d k default)
  | _ => raise (Exception "AttributeError")
  end.

(** [v.upper()]: only a str has the method. *)
Definition py_upper (v : pyval) : M string :=
  match v with
  | PStr s => ret (upper s)
  | _ => raise (Exception "AttributeError")
  end.

(** ** The Redis client *)

(** The next Redis command finds the connection broken. *)
Definition connection_fails (w : World) : bool :=
  match w_faults w with
  | true :: _ => true
  | _ => false
  end.

(** One command on the connection. A fault is a connection that breaks before
    the command reaches the server: the command raises and the server has not
    run it. A reply that is lost after the server has run the command is not
    among the faults. *)
Definition redis_command {A : Type} (run : M A) : M A :=
  fun w =>
    match w_faults w with
    | true :: r => (Raise (Exception "ConnectionError"), with_faults r w)
    | false :: r => run (with_faults r w)
    | [] => run w
    end.

(** What the client sends for a value: a str as it is, an int in decimal;
    anything else is refused with a DataError. *)
Definition redis_encode (v : pyval) : option string :=
  match v with
  | PStr s => Some s
  | PInt z => Some (Z_to_string z)
  | _ => None
  end.

Definition redis_GET (key : string) : M (option string) :=
  redis_command (fun w => (Return (fst <$> w_db w !! key), w)).

Definition redis_SET (key : string) (value : pyval) : M unit :=
  redis_command
    (match redis_encode value with
     | Some s => fun w => (Return tt, with_db (<[key := (s, None)]> (w_db w)) w)
     | None => raise (Exception "DataError")
     end).

(** The longest time to live, in seconds, whose milliseconds fit a signed
    64-bit integer. *)
Definition setex_max : Z := 9223372036854775.

(** A time to live whose milliseconds, added to a clock that has not passed
    2^62 milliseconds, still fit: no server refuses it for its length. *)
Definition setex_safe : Z := 4611686018427387.

(** [SETEX key seconds value]; the server refuses a time that is not
    positive, and one whose milliseconds do not fit a signed 64-bit integer. *)
Definition redis_SETEX (key : string) (seconds : Z) (value : pyval) : M unit :=
  redis_command
    (match redis_encode value with
     | Some s =>
         if ((0 <? seconds) && (seconds <=? setex_max))%Z
         then fun w => (Return tt, with_db (<[key := (s, Some seconds)]> (w_db w)) w)
         else raise (Exception "ResponseError")
     | None => raise (Exception "DataError")
     end).

(** ** Settings *)

(** What the process reads at start: [RedisSettings.SME_SESSION_TTL], the two
    environment variables of the verifier ([os.getenv]: [None] when unset),
    and the channel table behind [_get_channel_setting], a mock of a database
    query in the source. *)
Class Settings := {
  SME_SESSION_TTL : Z;
  SME_VERIFY_BASE_URL : option string;
  SME_VERIFY_TOKEN_KEY : option string;
  channel_table : gmap string dict;
  (** the token issuer's key and the life of a token, in milliseconds *)
  SECRET_KEY : string;
  TOKEN_LIFETIME : Z
}.

(** The table written in [_get_channel_setting]. *)
Definition mock_channels : gmap string dict :=
  list_to_map
    [ ("1", [("id", PStr "1"); ("postLoginBu", PStr "SME")]);
      ("2", [("id", PStr "2"); ("postLoginBu", PStr "RETAIL")]);
      ("sme", [("id", PStr "sme"); ("postLoginBu", PStr "SME")]);
      ("retail", [("id", PStr "retail"); ("postLoginBu", PStr "RETAIL")]) ].

(** ** The session store: [app/service/redis_service.py] *)
Module RedisService.
Section RedisService.
Context `{!Json}.

Definition is_connected : M bool := fun w => (Return (w_redis w), w).

(** [if not self._redis: raise Exception("Redis not connected")] *)
Definition require_client : M unit :=
  fun w => if w_redis w then (Return tt, w) else (Raise (Exception "Exception"), w).

(** [if isinstance(value, (dict, list)): value = json.dumps(value)]; [None]
    when [json.dumps] raises. *)
Definition stored_value (value : pyval) : option pyval :=
  match value with
  | PDict _ | PList _ =>
      match json_dumps value with
      | Some s => Some (PStr s)
      | None => None
      end
  | _ => Some value
  end.

(** [if ttl: setex(key, ttl, value) / else: set(key, value)] *)
Definition write (key : string) (ttl : option Z) (value : pyval) : M unit :=
  match ttl with
  | Some seconds =>
      if (seconds =? 0)%Z then redis_SET key value else redis_SETEX key seconds value
  | None => redis_SET key value
  end.

Definition set (key : string) (value : pyval) (ttl : option Z) : M bool :=
  try_except
    (exec require_client in
     await value :=
       match stored_value value with
       | Some v => ret v
       | None => raise (Exception "TypeError")
       end in
     exec write key ttl value in
     ret true)
    (except_Exception (ret false)).

Definition get (key : string) : M (option string) :=
  try_except
    (exec require_client in
     redis_GET key)
    (except_Exception (ret None)).

End RedisService.
End RedisService.

(** ** The external verifier: [app/service/token_verification_service.py] *)
Module TokenVerificationService.
Section TokenVerificationService.
Context `{!Json} `{!Settings}.

(** [os.getenv(...)] read as a condition: unset and empty are both false. *)
Definition env_value (v : option string) : option string :=
  match v with
  | Some s => if String.eqb s "" then None else Some s
  | None => None
  end.

Fixpoint is_ascii (s : string) : bool :=
  match s with
  | EmptyString => true
  | String c r => (N_of_ascii c <? 128)%N && is_ascii r
  end.

(** [httpx.AsyncClient().post(url, json={}, headers=headers)]: a header value
    that is not a str (TypeError), or that is not ASCII (UnicodeEncodeError),
    cannot be made a header; a request that the client then refuses to send
    raises too and leaves no trace; a request that is sent is recorded in the
    world. *)
Fixpoint str_headers (h : list (string * pyval)) : option (list (string * string)) :=
  match h with
  | [] => Some []
  | (k, PStr s) :: r =>
      if is_ascii s then
        match str_headers r with
        | Some r' => Some ((k, s) :: r')
        | None => None
        end
      else None
  | _ :: _ => None
  end.

Definition httpx_post (u : string) (h : list (string * pyval)) : M (Z * string) :=
  fun w =>
    match str_headers h with
    | None => (Raise (Exception "TypeError"), w)
    | Some hs =>
        let req := {| url := u; headers := hs |} in
        let w' := with_sent (req :: w_sent w) w in
        match w_http w req with
        | TransportError => (Raise (Exception "ConnectError"), w')
        | Response st body => (Return (st, body), w')
        | Refused => (Raise (Exception "LocalProtocolError"), w)
        end
    end.

(** [response.json()] *)
Definition response_json (text : string) : M pyval :=
  match json_loads text with
  | Some v => ret v
  | None => raise (Exception "JSONDecodeError")
  end.

Definition validate_session_path : string :=
  "/corporate/relationship-management/marketing/v1/customer/validate-session".

(** The [x-request-id] header:
    [payload.get('requestId') or payload.get('userId') or str(uuid.uuid4())] *)
Definition request_id_header_value (payload : dict) : M pyval :=
  let first := py_or (dict_get payload "requestId") (dict_get payload "userId") in
  if truthy first then ret first
  else await u := uuid4 in ret (PStr u).

(** The headers of the outbound call. *)
Definition sme_headers (api_key : string) (request_id : pyval) (payload : dict)
  : list (string * pyval) :=
  [ ("Apikey", PStr api_key);
    ("Content-Type", PStr "application/json");
    ("x-request-id", request_id);
    ("x-session-token", dict_get_or payload "tokenKey" (PStr ""));
    ("x-user-id", dict_get_or payload "userId" (PStr "")) ].

Definition verify_sme_token (payload : dict) : M dict :=
  match env_value SME_VERIFY_BASE_URL with
  | None => raise (HTTPException 500 "SME_VERIFY_BASE_URL is not defined")
  | Some base_url =>
      match env_value SME_VERIFY_TOKEN_KEY with
      | None => raise (HTTPException 500 "SME_VERIFY_TOKEN_KEY is not defined")
      | Some token_key =>
          let u := rstrip_slash base_url +:+ validate_session_path in
          await request_id := request_id_header_value payload in
          let hdrs := sme_headers token_key request_id payload in
          try_except
            (await ' (st, body) := httpx_post u hdrs in
             if negb (st =? 200)%Z then
               ret [("isValid", PBool false); ("message", PStr "Error verify tokenKey")]
             else
               await response_data := response_json body in
               await data := py_get_or response_data "data" (PDict []) in
               await is_expire := py_get_or data "isExpire" (PBool true) in
               let is_valid := negb (truthy is_expire) in
               ret [("isValid", PBool is_valid); ("message", PNone)])
            (except_Exception
               (ret [("isValid", PBool false); ("message", PStr "Error verify tokenKey")]))
      end
  end.

Definition verify_token (bu token_key user_id request_id : pyval) : M pyval :=
  if py_eq_str bu "SME" then
    if negb (truthy user_id) then raise (HTTPException 400 "Missing userId")
    else
      let sme_payload :=
        [ ("userId", user_id);
          ("requestId", py_or request_id (PStr ""));
          ("tokenKey", token_key) ] in
      await result := verify_sme_token sme_payload in
      ret (dict_get_or result "isValid" (PBool false))
  else raise (HTTPException 400 "Missing BU").

End TokenVerificationService.
End TokenVerificationService.

(** ** The token issuer: [app/security/auth_handler] *)

(** Modelled from the spec: the module [app.security.auth_handler]
    ([create_access_token], [_decode_access_token]) is not among the sources.
    Spec 4.2: mint(claims) produces a self-contained, digitally-signed,
    time-bounded token encoding TokenClaims plus standard expiry metadata;
    decoding must fail with a distinct error when the signature is invalid or
    the token is expired, versus when claims are structurally malformed;
    decode(mint(claims)) == claims until expiry.

    A token is a str. The texts that are signed tokens are kept as what they
    encode (the key that signed them, the claims, the expiry in milliseconds),
    every other text as its characters. *)
Inductive Token : Type :=
| Signed (key : string) (claims : dict) (exp : Z)
| Text (s : string).

(** [bool(token)]: false on the empty str only. *)
Definition token_truthy (t : Token) : bool :=
  match t with
  | Signed _ _ _ => true
  | Text s => negb (String.eqb s "")
  end.

Module auth_handler.
Section auth_handler.
Context `{!Settings}.

(** Modelled from the spec: [create_access_token(data)], the spec's mint. *)
Definition create_access_token (data : dict) : M Token :=
  await now := time_ms in
  ret (Signed SECRET_KEY data (now + TOKEN_LIFETIME)).

(** Modelled from the spec: [_decode_access_token(token)], the spec's decode.
    It raises [HTTPException], the class that the caller in
    [renew_postlogin_user_token] catches: one error for a bad signature or an
    expired token, another for a text that is no token. *)
Definition _decode_access_token (token : Token) : M pyval :=
  match token with
  | Text _ => raise (HTTPException 400 "Malformed token")
  | Signed key claims exp =>
      if negb (String.eqb key SECRET_KEY) then
        raise (HTTPException 401 "Could not validate credentials")
      else
        await now := time_ms in
        if (exp <=? now)%Z then raise (HTTPException 401 "Could not validate credentials")
        else ret (PDict claims)
  end.

End auth_handler.
End auth_handler.

(** ** The session record: [app/schema/postlogin_dto.py] *)

Record BasicCustomerInfo : Type := {
  customer_id : option string;
  customer_name : option string;
  customer_type : option string
}.

Record SessionData : Type := {
  cif : string;
  chat_username : string;
  basic_customer_info : BasicCustomerInfo;
  token_key : string;
  bu : string;
  created_at : Z;
  updated_at : Z;
  request_id_header : option string;
  payload : option dict
}.

Definition py_optional_str (o : option string) : pyval :=
  match o with Some s => PStr s | None => PNone end.

(** [model.dict()]: the fields under their own names, sub-models as dicts. *)
Definition BasicCustomerInfo_dict (b : BasicCustomerInfo) : dict :=
  [ ("customer_id", py_optional_str (customer_id b));
    ("customer_name", py_optional_str (customer_name b));
    ("customer_type", py_optional_str (customer_type b)) ].

Definition SessionData_dict (s : SessionData) : dict :=
  [ ("cif", PStr (cif s));
    ("chat_username", PStr (chat_username s));
    ("basic_customer_info", PDict (BasicCustomerInfo_dict (basic_customer_info s)));
    ("token_key", PStr (token_key s));
    ("bu", PStr (bu s));
    ("created_at", PInt (created_at s));
    ("updated_at", PInt (updated_at s));
    ("request_id_header", py_optional_str (request_id_header s));
    ("payload", match payload s with Some d => PDict d | None => PNone end) ].

(** What both flows return: the dict with the keys token, refreshToken and
    message. *)
Record TokenResult : Type := {
  token : Token;
  refreshToken : Token;
  message : string
}.

(** ** The orchestrator: [app/service/postlogin_service.py] *)
Module PostloginService.
Section PostloginService.
Context `{!Json} `{!Settings}.

(** [mock_channels.get(channel_id)]: a list or a dict cannot be a key. *)
Definition _get_channel_setting (channel_id : pyval) : M (option dict) :=
  match channel_id with
  | PStr s => ret (channel_table !! s)
  | PList _ | PDict _ => raise (Exception "TypeError")
  | _ => ret None
  end.

Definition token_data (bu : pyval) (session_data : dict) : dict :=
  [ ("chatUsername", dict_get session_data "chat_username");
    ("bu", bu);
    ("cif", dict_get session_data "cif");
    ("tokenKey", dict_get session_data "token_key") ].

Definition _create_tokens (bu : pyval) (session_data : dict) : M (Token * Token) :=
  await access_token := auth_handler.create_access_token (token_data bu session_data) in
  await refresh_token := auth_handler.create_access_token (token_data bu session_data) in
  ret (access_token, refresh_token).

(** The [try] block of [init_postlogin_user_session] (source lines 66-96). *)
Definition init_try_block
    (cif : string) (basic_customer_info : BasicCustomerInfo) (token_key : string)
    (payload : dict) (request_id_header : string) (bu chat_username : string)
  : M TokenResult :=
  try_except
    (await current_time := time_ms in
     let session_data :=
       {| cif := cif;
          chat_username := chat_username;
          basic_customer_info := basic_customer_info;
          token_key := token_key;
          bu := bu;
          created_at := current_time;
          updated_at := current_time;
          request_id_header := Some request_id_header;
          payload := Some payload |} in
     await ' (token, refresh_token) :=
       _create_tokens (PStr bu) (SessionData_dict session_data) in
     let redis_key := "session:" +:+ chat_username in
     exec RedisService.set redis_key (PDict (SessionData_dict session_data))
            (Some SME_SESSION_TTL) in
     ret {| token := token;
            refreshToken := refresh_token;
            message := bu +:+ " session initialized successfully" |})
    (except_Exception (raise (HTTPException 500 "Internal Server Error"))).

Definition init_postlogin_user_session
    (cif : string) (basic_customer_info : BasicCustomerInfo) (token_key : string)
    (payload : dict) (request_id_header : string) : M TokenResult :=
  let channel_id := dict_get payload "channelId" in
  if negb (truthy channel_id) then raise (HTTPException 400 "Invalid channel id")
  else
    await channel_setting := _get_channel_setting channel_id in
    match channel_setting with
    | None | Some [] =>
        raise (HTTPException 404 ("Cannot find channel with id " +:+ py_str channel_id))
    | Some setting =>
        let post_login_bu := dict_get setting "postLoginBu" in
        if negb (truthy post_login_bu) then
          raise (HTTPException 404 ("Missing BU in channel with id " +:+ py_str channel_id))
        else
          await bu := py_upper post_login_bu in
          let chat_username := "VPB-" +:+ bu +:+ "-" +:+ cif in
          await connected := RedisService.is_connected in
          if negb connected then raise (HTTPException 500 "Internal Server Error")
          else
            init_try_block cif basic_customer_info token_key payload request_id_header
              bu chat_username
    end.

(** The call of the verifier in a renewal (source lines 135-146), from the
    business unit of the claims and the record read from the store. *)
Definition verification (bu : pyval) (parsed_session_data : dict) : M pyval :=
  let token_key := dict_get parsed_session_data "tokenKey" in
  let cif := dict_get parsed_session_data "cif" in
  let request_id_header := dict_get_or parsed_session_data "requestIdHeader" (PStr "") in
  let request_id_payload := py_or request_id_header (PStr "") in
  TokenVerificationService.verify_token bu token_key cif request_id_payload.

(** The [try] block of [renew_postlogin_user_token] (source lines 155-173). *)
Definition renew_try_block (bu : pyval) (redis_key : string) (parsed_session_data : dict)
  : M TokenResult :=
  try_except
    (await now := time_ms in
     let parsed_session_data := dict_set parsed_session_data "updated_at" (PInt now) in
     await ' (token, new_refresh_token) := _create_tokens bu parsed_session_data in
     exec RedisService.set redis_key (PDict parsed_session_data) (Some SME_SESSION_TTL) in
     ret {| token := token;
            refreshToken := new_refresh_token;
            message := py_str bu +:+ " token renewed successfully" |})
    (except_Exception (raise (HTTPException 500 "Internal Server Error"))).

Definition renew_postlogin_user_token (refresh_token : Token) : M TokenResult :=
  if negb (token_truthy refresh_token) then
    raise (HTTPException 400 "Refresh token is required")
  else
    await payload_refresh_token :=
      try_except
        (auth_handler._decode_access_token refresh_token)
        (except_HTTPException (raise (HTTPException 400 "Invalid refresh token"))) in
    await chat_username := py_get_or payload_refresh_token "chatUsername" PNone in
    await bu := py_get_or payload_refresh_token "bu" PNone in
    if negb (truthy chat_username) || negb (truthy bu) then
      raise (HTTPException 400 "Invalid refresh token")
    else
      let redis_key := "session:" +:+ py_str chat_username in
      await session_data_json := RedisService.get redis_key in
      match session_data_json with
      | None => raise (HTTPException 404 "Session not found")
      | Some text =>
          if String.eqb text "" then raise (HTTPException 404 "Session not found")
          else
            await parsed :=
              match json_loads text with
              | Some v => ret v
              | None => raise (HTTPException 500 "Invalid session data")
              end in
            match parsed with
            | PDict parsed_session_data =>
                if negb (truthy (dict_get parsed_session_data "tokenKey")) then
                  raise (HTTPException 400 "Invalid tokenKey")
                else
                  await is_valid_token := verification bu parsed_session_data in
                  if negb (truthy is_valid_token) then
                    raise (HTTPException 401 ("Verify " +:+ py_str bu +:+ " token failed"))
                  else renew_try_block bu redis_key parsed_session_data
            | _ => raise (Exception "AttributeError")
            end
      end.

End PostloginService.
End PostloginService.

(** ** Conditions on the two flows *)
Section Flows.
Context `{!Json} `{!Settings}.

(** The record [init_postlogin_user_session] builds at time [now]. *)
Definition init_record (cif : string) (basic_customer_info : BasicCustomerInfo)
    (token_key : string) (payload : dict) (request_id_header : string)
    (bu : string) (now : Z) : SessionData :=
  {| cif := cif;
     chat_username := "VPB-" +:+ bu +:+ "-" +:+ cif;
     basic_customer_info := basic_customer_info;
     token_key := token_key;
     bu := bu;
     created_at := now;
     updated_at := now;
     request_id_header := Some request_id_header;
     payload := Some payload |}.

(** A payload whose channel id resolves to a channel with a business unit. *)
Definition channel_resolves (payload : dict) (channel_id : string) (post_login_bu : string)
  : Prop :=
  dict_get payload "channelId" = PStr channel_id
  /\ channel_id <> ""
  /\ exists setting,
       channel_table !! channel_id = Some setting
       /\ dict_get setting "postLoginBu" = PStr post_login_bu
       /\ post_login_bu <> "".

(** The record a renewal writes back: the one it read, with the key
    [updated_at] set to the time of the renewal. *)
Definition renewed_record (record : dict) (now : Z) : dict :=
  dict_set record "updated_at" (PInt now).

(** Steps 1 to 4 of a renewal go through: the refresh token decodes to claims
    that name a principal and a business unit [bu], and the store returns,
    under the principal's key [redis_key], a text that parses to a record with
    a credential. [w'] is the world in which the verifier is then called. *)
Definition renewal_loads (refresh_token : Token) (w : World)
    (bu : pyval) (redis_key : string) (record : dict) (w' : World) : Prop :=
  exists (claims : dict) (w1 : World) (text : string),
    token_truthy refresh_token = true
    /\ auth_handler._decode_access_token refresh_token w = (Return (PDict claims), w1)
    /\ truthy (dict_get claims "chatUsername") = true
    /\ bu = dict_get claims "bu"
    /\ truthy bu = true
    /\ redis_key = "session:" +:+ py_str (dict_get claims "chatUsername")
    /\ RedisService.get redis_key w1 = (Return (Some text), w')
    /\ text <> ""
    /\ json_loads text = Some (PDict record)
    /\ truthy (dict_get record "tokenKey") = true.

End Flows.

(** ** The HTTP client of the example deployment *)

(** What the stack under [httpx.AsyncClient] refuses to send, as far as the
    runs of the example need it: a URL that does not start with http:// or
    https:// (in any case of the letters), and a header value that the
    HTTP/1.1 layer rejects. A header value is either empty or made of
    characters other than NUL and white space, with runs of spaces and tabs
    allowed between them only. *)
Module httpx.

(** White space for the header rule: HT, LF, VT, FF, CR and SP. *)
Definition is_space (c : ascii) : bool :=
  let n := N_of_ascii c in ((9 <=? n) && (n <=? 13) || (n =? 32))%N.

Definition field_vchar (c : ascii) : bool :=
  negb (N_of_ascii c =? 0)%N && negb (is_space c).

Definition sp_or_tab (c : ascii) : bool :=
  let n := N_of_ascii c in ((n =? 32) || (n =? 9))%N.

(** Every character may stand in a header value, and the last one is not a
    space or a tab. *)
Fixpoint field_tail (s : string) : bool :=
  match s with
  | EmptyString => true
  | String c EmptyString => field_vchar c
  | String c r => (field_vchar c || sp_or_tab c) && field_tail r
  end.

Definition header_value_ok (s : string) : bool :=
  match s with
  | EmptyString => true
  | String c _ => field_vchar c && field_tail s
  end.

Definition scheme_ok (u : string) : bool :=
  startswith (upper u) "HTTP://" || startswith (upper u) "HTTPS://".

Definition accepts (req : http_request) : bool :=
  scheme_ok (url req) && forallb (fun kv => header_value_ok (snd kv)) (headers req).

(** An endpoint as seen through the client. *)
Definition client (endpoint : http_request -> http_outcome) (req : http_request)
  : http_outcome :=
  if accepts req then endpoint req else Refused.

End httpx.

(** ** The mock verification endpoint: [app/api/mock_api.py] *)
Module mock_api.

(** [JSONResponse(content, status_code)] and the response FastAPI builds from
    a raised [HTTPException]. *)
Definition JSONResponse (content : pyval) (status_code : Z) : http_outcome :=
  Response status_code (PyJson.dumps content).

Definition http_error (status_code : Z) (detail : string) : http_outcome :=
  JSONResponse (PDict [("detail", PStr detail)]) status_code.

(** The four headers are required: FastAPI answers 422 when one is missing
    (the list of validation errors in that body is left out). Bodies are
    written in the layout of [json.dumps]; the verifier only parses them. *)
Definition validate_session (req : http_request) : http_outcome :=
  match header "Apikey" (headers req), header "x-request-id" (headers req),
        header "x-session-token" (headers req), header "x-user-id" (headers req) with
  | Some apikey, Some x_request_id, Some x_session_token, Some x_user_id =>
      if String.eqb apikey "" then http_error 401 "Missing Apikey header"
      else if String.eqb x_session_token "" then http_error 400 "Missing x-session-token header"
      else if String.eqb x_user_id "" then http_error 400 "Missing x-user-id header"
      else if negb (startswith x_session_token "expired")
                && startswith x_session_token "invalid"
      then http_error 401 "Invalid session token"
      else
        let is_expired := startswith x_session_token "expired" in
        JSONResponse
          (PDict
             [ ("status", PStr "success");
               ("data",
                PDict [ ("isExpire", PBool is_expired);
                        ("userId", PStr x_user_id);
                        ("sessionToken", PStr x_session_token);
                        ("validatedAt", PStr "2024-01-01T00:00:00Z") ]);
               ("message", PStr "Session validation completed") ])
          200
  | _, _, _, _ => JSONResponse (PDict [("detail", PList [])]) 422
  end.

End mock_api.

(** ** A deployment to run the flows in *)
Module Demo.

Definition settings : Settings :=
  {| SME_SESSION_TTL := 3600;
     SME_VERIFY_BASE_URL := Some "http://localhost:8000/api/v1/";
     SME_VERIFY_TOKEN_KEY := Some "test-api-key";
     channel_table := mock_channels;
     SECRET_KEY := "demo-signing-key";
     TOKEN_LIFETIME := 1800000 |}.

(** A connected store with no key, the mock endpoint behind the client, a
    clock that ticks. *)
Definition world : World :=
  {| w_redis := true;
     w_db := ∅;
     w_faults := [];
     w_now := 1700000000000;
     w_later := [1700000000001; 1700000000002; 1700000005000; 1700000005001;
                 1700000005002; 1700000005003];
     w_uuid := 0;
     w_http := httpx.client mock_api.validate_session;
     w_sent := [] |}.

Definition customer : BasicCustomerInfo :=
  {| customer_id := Some "CUST123";
     customer_name := Some "John Doe";
     customer_type := Some "SME" |}.

(** An endpoint that answers 200 with a null isExpire item. *)
Definition null_expiry_endpoint (req : http_request) : http_outcome :=
  Response 200 (PyJson.dumps (PDict [("data", PDict [("isExpire", PNone)])])).

Definition with_http (f : http_request -> http_outcome) (w : World) : World :=
  {| w_redis := w_redis w; w_db := w_db w; w_faults := w_faults w; w_now := w_now w;
     w_later := w_later w; w_uuid := w_uuid w; w_http := f; w_sent := w_sent w |}.

Definition verify (token_key user_id request_id : string) (w : World)
  : outcome pyval * World :=
  @TokenVerificationService.verify_token python_json settings
    (PStr "SME") (PStr token_key) (PStr user_id) (PStr request_id) w.

(** The mock table and a channel that has no business unit. *)
Definition settings_with_legacy_channel : Settings :=
  {| SME_SESSION_TTL := 3600;
     SME_VERIFY_BASE_URL := Some "http://localhost:8000/api/v1/";
     SME_VERIFY_TOKEN_KEY := Some "test-api-key";
     channel_table := <["legacy" := [("id", PStr "legacy")]]> mock_channels;
     SECRET_KEY := "demo-signing-key";
     TOKEN_LIFETIME := 1800000 |}.

Definition with_entry (key text : string) (w : World) : World :=
  with_db (<[key := (text, Some 3600)]> (w_db w)) w.

(** The claims of the customer, and a refresh token that the issuer signed
    for them. *)
Definition claims : dict :=
  [ ("chatUsername", PStr "VPB-SME-1234567890"); ("bu", PStr "SME");
    ("cif", PStr "1234567890"); ("tokenKey", PStr "valid_token_key_123") ].

Definition refresh_token : Token := Signed "demo-signing-key" claims 1700001800000.

(** A session record in the other casing of its keys, as JSON text. *)
Definition camel_record (token_key : string) : dict :=
  [ ("cif", PStr "1234567890");
    ("chatUsername", PStr "VPB-SME-1234567890");
    ("tokenKey", PStr token_key);
    ("bu", PStr "SME");
    ("createdAt", PInt 1690000000000);
    ("updatedAt", PInt 1690000000000);
    ("requestIdHeader", PStr "") ].

Definition init (w : World) : outcome TokenResult * World :=
  @PostloginService.init_postlogin_user_session python_json settings
    "1234567890" customer "valid_token_key_123" [("channelId", PStr "sme")]
    "test-request-123" w.

Definition renew (t : Token) (w : World) : outcome TokenResult * World :=
  @PostloginService.renew_postlogin_user_token python_json settings t w.

(** The world an initialisation leaves, and the refresh token it returns. *)
Definition after_init : World := snd (init world).

Definition issued : Token :=
  match fst (init world) with
  | Return r => refreshToken r
  | Raise _ => Text ""
  end.

(** The record of the customer as the initialisation builds it. *)
Definition record : SessionData :=
  init_record "1234567890" customer "valid_token_key_123" [("channelId", PStr "sme")]
    "test-request-123" "SME" 1700000000000.

(** A world whose store holds, under the customer's key, a record with the
    keys in the other casing and the given credential. *)
Definition with_camel_record (token_key : string) : World :=
  with_entry "session:VPB-SME-1234567890" (PyJson.dumps (PDict (camel_record token_key))) world.

End Demo.

(** ** What the verifier sends and how it reads the answer *)
Section Verdict.
Context `{!Json}.

(** The payload [verify_token] builds for the SME path. *)
Definition sme_payload_of (token_key user_id request_id : pyval) : dict :=
  [ ("userId", user_id);
    ("requestId", py_or request_id (PStr ""));
    ("tokenKey", token_key) ].

(** The request that goes out, if one does: none when a header is not a str. *)
Definition outbound (base_url api_key : string) (request_id : pyval) (payload : dict)
  : option http_request :=
  match TokenVerificationService.str_headers
          (TokenVerificationService.sme_headers api_key request_id payload) with
  | Some hs =>
      Some {| url := rstrip_slash base_url +:+ TokenVerificationService.validate_session_path;
              headers := hs |}
  | None => None
  end.

(** The body of a 200 answer says the credential is valid: it is a JSON
    object whose data is an object with a falsy isExpire item. *)
Definition reply_valid (body : string) : bool :=
  match json_loads body with
  | Some (PDict doc) =>
      match dict_get_or doc "data" (PDict []) with
      | PDict data => negb (truthy (dict_get_or data "isExpire" (PBool true)))
      | _ => false
      end
  | _ => false
  end.

(** The verdict on a request in a world. *)
Definition verdict (w : World) (req : option http_request) : bool :=
  match req with
  | Some r =>
      match w_http w r with
      | Response st body => (st =? 200)%Z && reply_valid body
      | TransportError => false
      | Refused => false
      end
  | None => false
  end.

(** The world after the request, if any, has been sent: a request that the
    client refuses is not. *)
Definition sent (req : option http_request) (w : World) : World :=
  match req with
  | Some r =>
      match w_http w r with
      | Refused => w
      | _ => with_sent (r :: w_sent w) w
      end
  | None => w
  end.

End Verdict.

(** ** What a step leaves alone *)

(** [w'] differs from [w] in the clock at most. *)
Definition clock_only (w w' : World) : Prop :=
  w_redis w' = w_redis w /\ w_db w' = w_db w /\ w_faults w' = w_faults w
  /\ w_uuid w' = w_uuid w /\ w_http w' = w_http w /\ w_sent w' = w_sent w.

(** [w'] has the store of [w]: the same keys, values and expiries. *)
Definition same_store (w w' : World) : Prop := w_db w' = w_db w.

(** ** Conditions on a write to the store *)
Section Writes.
Context `{!Json}.

(** The write [set] asks for goes through: the client is connected, the
    connection holds, the value serialises to [text], the time to live is
    neither negative nor so long that a server could refuse it. *)
Definition write_succeeds (value : pyval) (ttl : option Z) (w : World) (text : string) : Prop :=
  w_redis w = true /\ connection_fails w = false
  /\ (exists v, RedisService.stored_value value = Some v /\ redis_encode v = Some text)
  /\ match ttl with Some seconds => (0 <= seconds <= setex_safe)%Z | None => True end.

(** The write is applied: as [write_succeeds], with any time to live whose
    milliseconds fit 64 bits. *)
Definition write_applied (value : pyval) (ttl : option Z) (w : World) (text : string) : Prop :=
  w_redis w = true /\ connection_fails w = false
  /\ (exists v, RedisService.stored_value value = Some v /\ redis_encode v = Some text)
  /\ match ttl with Some seconds => (0 <= seconds <= setex_max)%Z | None => True end.

(** The write fails: no client, a broken connection, a value that does not
    serialise, or a time to live that the server refuses. *)
Definition write_fails (value : pyval) (ttl : option Z) (w : World) : Prop :=
  w_redis w = false \/ connection_fails w = true
  \/ RedisService.stored_value value = None
  \/ (exists v, RedisService.stored_value value = Some v /\ redis_encode v = None)
  \/ match ttl with
     | Some seconds => (seconds < 0 \/ setex_max < seconds)%Z
     | None => False
     end.

(** The expiry recorded with a write. *)
Definition expiry (ttl : option Z) : option Z :=
  match ttl with
  | Some seconds => if (seconds =? 0)%Z then None else Some seconds
  | None => None
  end.

(** The server refuses the time to live. *)
Definition ttl_refused (ttl : option Z) : bool :=
  match ttl with
  | Some seconds => ((seconds <? 0) || (setex_max <? seconds))%Z
  | None => false
  end.

End Writes.

(** ** More of the session store: [RedisService.delete], [RedisService.exists] *)

(** [DEL key]: the number of keys removed. *)
Definition redis_DEL (key : string) : M Z :=
  redis_command
    (fun w =>
       match w_db w !! key with
       | Some _ => (Return 1%Z, with_db (base.delete key (w_db w)) w)
       | None => (Return 0%Z, w)
       end).

(** [EXISTS key]: the number of keys found. *)
Definition redis_EXISTS (key : string) : M Z :=
  redis_command
    (fun w => (Return (match w_db w !! key with Some _ => 1%Z | None => 0%Z end), w)).

(** The two other methods of the class [RedisService]. *)
Module RedisServiceKeys.

Definition delete (key : string) : M bool :=
  try_except
    (exec RedisService.require_client in
     await result := redis_DEL key in
     ret (0 <? result)%Z)
    (except_Exception (ret false)).

Definition exists_ (key : string) : M bool :=
  try_except
    (exec RedisService.require_client in
     await result := redis_EXISTS key in
     ret (0 <? result)%Z)
    (except_Exception (ret false)).

End RedisServiceKeys.

(** The client is connected and the next command finds the connection sound. *)
Definition healthy (w : World) : bool := w_redis w && negb (connection_fails w).

(** ** Other deployments *)

(** The settings with other values of the two environment variables of the
    verifier. *)
Definition with_verifier (base_url api_key : option string) (s : Settings) : Settings :=
  {| SME_SESSION_TTL := @SME_SESSION_TTL s;
     SME_VERIFY_BASE_URL := base_url;
     SME_VERIFY_TOKEN_KEY := api_key;
     channel_table := @channel_table s;
     SECRET_KEY := @SECRET_KEY s;
     TOKEN_LIFETIME := @TOKEN_LIFETIME s |}.

(** An environment variable that is not set, or set to the empty text. *)
Definition undefined (v : option string) : Prop := v = None \/ v = Some "".

(** ** More runs of the example deployment *)
Module Cases.

(** A refresh token that the issuer signed for the customer of the example
    with the business unit of the channels 2 and retail. *)
Definition retail_refresh_token : Token :=
  Signed "demo-signing-key"
    [ ("chatUsername", PStr "VPB-SME-1234567890"); ("bu", PStr "RETAIL");
      ("cif", PStr "1234567890"); ("tokenKey", PStr "valid_token_key_123") ]
    1700001800000.

(** What the renewal of the example returns on a record that has the key
    tokenKey, and the world it leaves. *)
Definition renewed : TokenResult :=
  match fst (Demo.renew Demo.refresh_token (Demo.with_camel_record "valid_token_key_123")) with
  | Return r => r
  | Raise _ => {| token := Text ""; refreshToken := Text ""; message := "" |}
  end.

Definition after_renewal : World :=
  snd (Demo.renew Demo.refresh_token (Demo.with_camel_record "valid_token_key_123")).

(** What the initialisation of the example returns. *)
Definition initialised : TokenResult :=
  match fst (Demo.init Demo.world) with
  | Return r => r
  | Raise _ => {| token := Text ""; refreshToken := Text ""; message := "" |}
  end.

(** The example before [connect] has been called: [_redis] is None. *)
Definition not_connected : World :=
  {| w_redis := false;
     w_db := w_db Demo.world;
     w_faults := w_faults Demo.world;
     w_now := w_now Demo.world;
     w_later := w_later Demo.world;
     w_uuid := w_uuid Demo.world;
     w_http := w_http Demo.world;
     w_sent := w_sent Demo.world |}.

End Cases.

(** ** The errors of the two services *)

(** What a renewal of a non-empty token raises before it calls the
    verifier. *)
Definition errors_before_verifier : list exn :=
  [ HTTPException 400 "Invalid refresh token";
    HTTPException 404 "Session not found";
    HTTPException 500 "Invalid session data";
    Exception "AttributeError";
    HTTPException 400 "Invalid tokenKey" ].

(** What [verify_token] raises. *)
Definition verify_token_errors : list exn :=
  [ HTTPException 400 "Missing BU";
    HTTPException 400 "Missing userId";
    HTTPException 500 "SME_VERIFY_BASE_URL is not defined";
    HTTPException 500 "SME_VERIFY_TOKEN_KEY is not defined" ].

(** ** The request models: [app/schema/postlogin_dto.py] *)
Module postlogin_dto.

(** [c.isspace()] for a code point below 256: what [str.strip()] removes. *)
Definition isspace (c : ascii) : bool :=
  let n := N_of_ascii c in
  ((9 <=? n) && (n <=? 13) || (28 <=? n) && (n <=? 32) || (n =? 133) || (n =? 160))%N.

Fixpoint lstrip (s : string) : string :=
  match s with
  | EmptyString => EmptyString
  | String c r => if isspace c then lstrip r else s
  end.

Fixpoint rstrip (s : string) : string :=
  match s with
  | EmptyString => EmptyString
  | String c r =>
      match rstrip r with
      | EmptyString => if isspace c then EmptyString else String c EmptyString
      | r' => String c r'
      end
  end.

(** [s.strip()] *)
Definition strip (s : string) : string := rstrip (lstrip s).

(** Every character of [s] is white space. *)
Fixpoint blank (s : string) : bool :=
  match s with
  | EmptyString => true
  | String c r => isspace c && blank r
  end.

(** What a pydantic validator gives: the value of the field, or the
    [ValueError] it raises. *)
Inductive validation (A : Type) : Type :=
| Valid (a : A)
| ValueError (msg : string).
Arguments Valid {A} a.
Arguments ValueError {A} msg.

Definition validate_cif (v : string) : validation string :=
  if String.eqb v "" || String.eqb (strip v) "" then ValueError "CIF cannot be empty"
  else Valid (strip v).

Definition validate_token_key (v : string) : validation string :=
  if String.eqb v "" || String.eqb (strip v) "" then ValueError "Token key cannot be empty"
  else Valid (strip v).

Record PostloginPayload : Type := {
  channel_id : string
}.

(** [payload.dict()]: the one field under its own name. *)
Definition PostloginPayload_dict (p : PostloginPayload) : dict :=
  [ ("channel_id", PStr (channel_id p)) ].

Record InitPostloginSessionData : Type := {
  cif : string;
  basic_customer_info : BasicCustomerInfo;
  token_key : string;
  payload : PostloginPayload
}.

(** [RenewTokenData]: its one field, [refresh_token], a str of length 1 at
    least. [None] when the constraint refuses the value. *)
Definition RenewTokenData (refresh_token : Token) : option Token :=
  if token_truthy refresh_token then Some refresh_token else None.

Record TokenResponse : Type := {
  token : Token;
  refresh_token : Token;
  message : string
}.

End postlogin_dto.

(** ** The routes: [app/api/postlogin_api.py] *)
Module postlogin_api.
Section postlogin_api.
Context `{!Json} `{!Settings}.

(** [TokenResponse(token=result["token"], refresh_token=result["refreshToken"],
    message=result["message"])] *)
Definition token_response (result : TokenResult) : postlogin_dto.TokenResponse :=
  {| postlogin_dto.token := token result;
     postlogin_dto.refresh_token := refreshToken result;
     postlogin_dto.message := message result |}.

Definition init_postlogin_user_session
    (data : postlogin_dto.InitPostloginSessionData) (x_request_id : string)
  : M postlogin_dto.TokenResponse :=
  await result :=
    PostloginService.init_postlogin_user_session
      (postlogin_dto.cif data) (postlogin_dto.basic_customer_info data)
      (postlogin_dto.token_key data)
      (postlogin_dto.PostloginPayload_dict (postlogin_dto.payload data))
      x_request_id in
  ret (token_response result).

(** [data] is the field [refresh_token] of the validated request. *)
Definition renew_postlogin_user_token (data : Token) : M postlogin_dto.TokenResponse :=
  await result := PostloginService.renew_postlogin_user_token data in
  ret (token_response result).

End postlogin_api.
End postlogin_api.

(** ** The answer of the mock endpoint *)

(** The content of the 200 answer of [mock_api.validate_session]. *)
Definition mock_reply (is_expired : bool) (x_user_id x_session_token : string) : pyval :=
  PDict
    [ ("status", PStr "success");
      ("data",
       PDict [ ("isExpire", PBool is_expired);
               ("userId", PStr x_user_id);
               ("sessionToken", PStr x_session_token);
               ("validatedAt", PStr "2024-01-01T00:00:00Z") ]);
      ("message", PStr "Session validation completed") ].

(** * Properties *)

(** ** Running coroutines *)

(** Unfolds the operations of the monad. *)
Ltac unfold_monad :=
  unfold bind, ret, raise, try_except, except_Exception, except_HTTPException in *.

(** A run is known by what it returns and by the world it leaves. *)
Lemma run_eta {A : Type} (p : outcome A * World) (r : outcome A) :
  fst p = r -> p = (r, snd p).
Proof. intros <-. destruct p; reflexivity. Qed.

(** Settles a run of closed terms by computing what it returns. *)
Ltac run := apply run_eta; vm_compute; reflexivity.

(** ** The clock *)

(** Reading the clock returns the time and changes the clock at most. *)
Lemma time_ms_spec (w : World) :
  exists w', time_ms w = (Return (w_now w), w')
    /\ w_db w' = w_db w /\ w_redis w' = w_redis w /\ w_faults w' = w_faults w
    /\ w_uuid w' = w_uuid w /\ w_sent w' = w_sent w /\ w_http w' = w_http w.
Proof.
  unfold time_ms. destruct (w_later w) as [|t l]; eexists; repeat split.
Qed.

(** Steps that touch the clock at most compose. *)
Lemma clock_only_trans (w1 w2 w3 : World) :
  clock_only w1 w2 -> clock_only w2 w3 -> clock_only w1 w3.
Proof.
  unfold clock_only. intros (A1 & A2 & A3 & A4 & A5 & A6) (B1 & B2 & B3 & B4 & B5 & B6).
  repeat split; congruence.
Qed.

(** The clock does not break the connection. *)
Lemma connection_fails_clock (w w' : World) :
  clock_only w w' -> connection_fails w' = connection_fails w.
Proof. intros (_ & _ & Hf & _). unfold connection_fails. rewrite Hf. reflexivity. Qed.

(** ** The session store *)

Section StoreFacts.
Context `{!Json} `{!Settings}.

(** What a write raises or returns, and what it leaves in the store: the
    entry is put under the key with its expiry, or the store is untouched. *)
Lemma write_spec (key : string) (ttl : option Z) (v : pyval) (w : World) :
  exists w',
    RedisService.write key ttl v w
    = (match redis_encode v with
       | Some text =>
           if connection_fails w then Raise (Exception "ConnectionError")
           else if ttl_refused ttl
                then Raise (Exception "ResponseError")
                else Return tt
       | None =>
           if connection_fails w then Raise (Exception "ConnectionError")
           else Raise (Exception "DataError")
       end, w')
    /\ w_db w' = (match redis_encode v with
                  | Some text =>
                      if connection_fails w
                         || ttl_refused ttl
                      then w_db w
                      else <[key := (text, expiry ttl)]> (w_db w)
                  | None => w_db w
                  end)
    /\ w_redis w' = w_redis w /\ w_now w' = w_now w /\ w_later w' = w_later w
    /\ w_uuid w' = w_uuid w /\ w_sent w' = w_sent w /\ w_http w' = w_http w.
Proof.
  unfold RedisService.write, redis_SET, redis_SETEX, redis_command, connection_fails, expiry,
    ttl_refused.
  unfold_monad.
  destruct (redis_encode v) as [text|];
    destruct ttl as [seconds|]; simpl;
    try (destruct (Z.eqb_spec seconds 0) as [->|Hz]; simpl);
    try (destruct (Z.ltb_spec 0 seconds); destruct (Z.ltb_spec seconds 0); try lia;
         destruct (Z.leb_spec seconds setex_max); destruct (Z.ltb_spec setex_max seconds);
         try lia; simpl);
    destruct (w_faults w) as [|[] r]; simpl; eexists; repeat split; auto.
Qed.

(** [set] in closed form: False without a client or when the value does not
    serialise, otherwise True or False as the write returns or raises. *)
Lemma set_spec (key : string) (value : pyval) (ttl : option Z) (w : World) :
  RedisService.set key value ttl w =
  if w_redis w then
    match RedisService.stored_value value with
    | Some v =>
        match RedisService.write key ttl v w with
        | (Return _, w') => (Return true, w')
        | (Raise _, w') => (Return false, w')
        end
    | None => (Return false, w)
    end
  else (Return false, w).
Proof.
  unfold RedisService.set, RedisService.require_client. unfold_monad.
  destruct (w_redis w); [| reflexivity].
  destruct (RedisService.stored_value value); [| reflexivity].
  destruct (RedisService.write key ttl p w) as [[[]|e] w']; reflexivity.
Qed.

(** [set] never raises. *)
Lemma set_total (key : string) (value : pyval) (ttl : option Z) (w : World) :
  exists b w', RedisService.set key value ttl w = (Return b, w')
    /\ w_redis w' = w_redis w /\ w_now w' = w_now w /\ w_later w' = w_later w
    /\ w_uuid w' = w_uuid w /\ w_sent w' = w_sent w /\ w_http w' = w_http w.
Proof.
  rewrite set_spec.
  destruct (w_redis w) eqn:Hr; [| exists false, w; repeat split; auto].
  destruct (RedisService.stored_value value) as [v|]; [| exists false, w; repeat split; auto].
  destruct (write_spec key ttl v w) as (w' & Hw & _ & Hframe).
  rewrite Hw.
  destruct (redis_encode v); destruct (connection_fails w);
    try destruct (ttl_refused ttl);
    eexists; exists w'; (split; [reflexivity | rewrite <- Hr; exact Hframe]).
Qed.

(** A write that is applied stores the text with its expiry; [set] is True. *)
Lemma set_applied (key : string) (value : pyval) (ttl : option Z) (w : World) (text : string) :
  write_applied value ttl w text ->
  exists w', RedisService.set key value ttl w = (Return true, w')
    /\ w_db w' = <[key := (text, expiry ttl)]> (w_db w)
    /\ w_redis w' = w_redis w /\ w_now w' = w_now w /\ w_later w' = w_later w
    /\ w_uuid w' = w_uuid w /\ w_sent w' = w_sent w /\ w_http w' = w_http w.
Proof.
  intros (Hr & Hc & (v & Hv & He) & Ht).
  rewrite set_spec, Hr, Hv.
  destruct (write_spec key ttl v w) as (w' & Hw & Hdb & Hframe).
  rewrite Hw, He, Hc. rewrite He, Hc in Hdb. simpl in Hdb.
  assert (Hneg : ttl_refused ttl = false).
  { destruct ttl as [seconds|]; [| reflexivity]. unfold ttl_refused.
    apply orb_false_iff. split; [apply Z.ltb_ge | apply Z.ltb_ge]; lia. }
  rewrite Hneg in *. exists w'. rewrite Hr in Hframe. repeat split; tauto.
Qed.

Lemma write_succeeds_applied (value : pyval) (ttl : option Z) (w : World) (text : string) :
  write_succeeds value ttl w text -> write_applied value ttl w text.
Proof.
  intros (Hr & Hc & Hv & Ht). repeat split; auto; destruct ttl as [seconds|]; auto;
    unfold setex_safe, setex_max in *; lia.
Qed.

(** A write that goes through stores the text with its expiry; [set] is True. *)
Lemma set_succeeds (key : string) (value : pyval) (ttl : option Z) (w : World) (text : string) :
  write_succeeds value ttl w text ->
  exists w', RedisService.set key value ttl w = (Return true, w')
    /\ w_db w' = <[key := (text, expiry ttl)]> (w_db w)
    /\ w_redis w' = w_redis w /\ w_now w' = w_now w /\ w_later w' = w_later w
    /\ w_uuid w' = w_uuid w /\ w_sent w' = w_sent w /\ w_http w' = w_http w.
Proof. intros Hok. apply set_applied, write_succeeds_applied, Hok. Qed.

(** A write that fails changes nothing; [set] is False. *)
Lemma set_fails (key : string) (value : pyval) (ttl : option Z) (w : World) :
  write_fails value ttl w ->
  exists w', RedisService.set key value ttl w = (Return false, w')
    /\ w_db w' = w_db w
    /\ w_redis w' = w_redis w /\ w_now w' = w_now w /\ w_later w' = w_later w
    /\ w_uuid w' = w_uuid w /\ w_sent w' = w_sent w /\ w_http w' = w_http w.
Proof.
  intros Hfail. rewrite set_spec.
  destruct (w_redis w) eqn:Hr; [| exists w; repeat split; auto].
  destruct Hfail as [Hf | Hfail]; [congruence |].
  destruct (RedisService.stored_value value) as [v|] eqn:Hv;
    [| exists w; repeat split; auto].
  destruct (write_spec key ttl v w) as (w' & Hw & Hdb & Hframe).
  rewrite Hw. exists w'. rewrite Hr in Hframe.
  destruct Hfail as [Hc | [Hn | [(v' & Hv' & He) | Ht]]].
  - rewrite Hc in *. destruct (redis_encode v); simpl in *; repeat split; tauto.
  - congruence.
  - inversion Hv'; subst v'. rewrite He in *.
    destruct (connection_fails w); repeat split; tauto.
  - destruct ttl as [seconds|]; [| contradiction].
    assert (Hneg : ttl_refused (Some seconds) = true).
    { unfold ttl_refused. apply orb_true_iff.
      destruct Ht; [left | right]; apply Z.ltb_lt; lia. }
    rewrite Hneg in *. rewrite orb_true_r in Hdb.
    destruct (redis_encode v); destruct (connection_fails w); repeat split; tauto.
Qed.

(** What [get] returns in every world: the value under the key when the client
    is connected and the connection holds, [None] otherwise. It never raises
    and never writes. *)
Lemma get_spec (key : string) (w : World) :
  exists w', RedisService.get key w
             = (Return (if w_redis w && negb (connection_fails w)
                        then fst <$> w_db w !! key else None), w')
    /\ w_db w' = w_db w /\ w_redis w' = w_redis w /\ w_now w' = w_now w
    /\ w_later w' = w_later w /\ w_uuid w' = w_uuid w /\ w_sent w' = w_sent w
    /\ w_http w' = w_http w.
Proof.
  unfold RedisService.get, RedisService.require_client, redis_GET, redis_command,
    connection_fails.
  unfold_monad.
  destruct (w_redis w) eqn:Hr; simpl.
  - destruct (w_faults w) as [|[] r] eqn:Hf; simpl; eexists; repeat split; auto.
  - eexists; repeat split; auto.
Qed.

(** Every write either fails or is applied. *)
Lemma write_fails_or_applied (value : pyval) (ttl : option Z) (w : World) :
  write_fails value ttl w \/ exists text, write_applied value ttl w text.
Proof.
  unfold write_fails, write_applied.
  destruct (w_redis w); [| left; left; reflexivity].
  destruct (connection_fails w); [left; right; left; reflexivity |].
  destruct (RedisService.stored_value value) as [v|];
    [| left; right; right; left; reflexivity].
  destruct (redis_encode v) as [text|] eqn:He;
    [| left; right; right; right; left; exists v; split; [reflexivity | exact He]].
  destruct ttl as [seconds|].
  - destruct (Z.lt_ge_cases seconds 0) as [Hneg|Hpos].
    + left. do 4 right. left. exact Hneg.
    + destruct (Z.lt_ge_cases setex_max seconds) as [Hbig|Hfit].
      * left. do 4 right. right. exact Hbig.
      * right. exists text. repeat split; eauto; lia.
  - right. exists text. repeat split; eauto.
Qed.

(** Whether a write goes through does not depend on the clock. *)
Lemma write_succeeds_clock (value : pyval) (ttl : option Z) (w w' : World) (text : string) :
  clock_only w w' -> write_succeeds value ttl w text -> write_succeeds value ttl w' text.
Proof.
  intros Hc (Hr & Hf & Hrest). pose proof (connection_fails_clock w w' Hc) as Hcf.
  destruct Hc as (Hr' & _). unfold write_succeeds. rewrite Hr', Hcf. tauto.
Qed.

(** Whether a write fails does not depend on the clock. *)
Lemma write_fails_clock (value : pyval) (ttl : option Z) (w w' : World) :
  clock_only w w' -> write_fails value ttl w -> write_fails value ttl w'.
Proof.
  intros Hc Hf. pose proof (connection_fails_clock w w' Hc) as Hcf.
  destruct Hc as (Hr' & _). unfold write_fails in *. rewrite Hr', Hcf. exact Hf.
Qed.

(** C8 (amended). [get] never raises: it returns the value under the key when
    the client is connected and the connection holds, and [None] otherwise,
    so that a missing key and a connectivity failure give the same outcome.
    [set] never raises either: it returns False on every connectivity or
    serialisation failure, which tells it from the True of a write that goes
    through. *)
Theorem store_outcomes (key : string) (value : pyval) (ttl : option Z) (w : World) :
  (exists w', RedisService.get key w
              = (Return (if w_redis w && negb (connection_fails w)
                         then fst <$> w_db w !! key else None), w')
              /\ w_db w' = w_db w)
  /\ (w_db w !! key = None -> fst (RedisService.get key w) = Return None)
  /\ (w_redis w = false \/ connection_fails w = true ->
      fst (RedisService.get key w) = Return None)
  /\ (exists stored w', RedisService.set key value ttl w = (Return stored, w'))
  /\ (w_redis w = false \/ connection_fails w = true ->
      fst (RedisService.set key value ttl w) = Return false)
  /\ (RedisService.stored_value value = None
      \/ (exists v, RedisService.stored_value value = Some v /\ redis_encode v = None) ->
      fst (RedisService.set key value ttl w) = Return false)
  /\ (forall text, write_succeeds value ttl w text ->
      fst (RedisService.set key value ttl w) = Return true).
Proof.
  destruct (get_spec key w) as (w' & Hg & Hdb & _).
  split; [exists w'; split; assumption |].
  split; [intros Habs; rewrite Hg, Habs; simpl; destruct (_ && _); reflexivity |].
  split.
  { intros [Hr | Hc]; rewrite Hg; [rewrite Hr | rewrite Hc, andb_false_r]; reflexivity. }
  split.
  { destruct (set_total key value ttl w) as (stored & w2 & Hs & _). eauto. }
  split.
  { intros Hconn.
    assert (Hfail : write_fails value ttl w) by (unfold write_fails; tauto).
    destruct (set_fails key value ttl w Hfail) as (w2 & Hs & _). rewrite Hs. reflexivity. }
  split.
  { intros Hser.
    assert (Hfail : write_fails value ttl w) by (unfold write_fails; tauto).
    destruct (set_fails key value ttl w Hfail) as (w2 & Hs & _). rewrite Hs. reflexivity. }
  intros text Hok. destruct (set_succeeds key value ttl w text Hok) as (w2 & Hs & _).
  rewrite Hs. reflexivity.
Qed.

End StoreFacts.

(** ** The token issuer *)

Section IssuerFacts.
Context `{!Json} `{!Settings}.

(** Minting returns a token signed with the key, expiring one lifetime from now. *)
Lemma create_access_token_spec (data : dict) (w : World) :
  exists w', auth_handler.create_access_token data w
             = (Return (Signed SECRET_KEY data (w_now w + TOKEN_LIFETIME)), w')
    /\ clock_only w w'.
Proof.
  unfold auth_handler.create_access_token. unfold_monad.
  destruct (time_ms_spec w) as (w' & Ht & Hdb & Hr & Hf & Hu & Hs & Hh).
  rewrite Ht. exists w'. split; [reflexivity | repeat split; auto].
Qed.

(** A token signed with the key decodes to its claims before its expiry. *)
Lemma decode_signed (data : dict) (exp : Z) (w : World) :
  (w_now w < exp)%Z ->
  exists w', auth_handler._decode_access_token (Signed SECRET_KEY data exp) w
             = (Return (PDict data), w')
    /\ clock_only w w'.
Proof.
  intros Hlt. unfold auth_handler._decode_access_token. unfold_monad.
  rewrite String.eqb_refl. cbn [negb].
  destruct (time_ms_spec w) as (w' & Ht & Hdb & Hr & Hf & Hu & Hs & Hh).
  rewrite Ht. assert (Hle : (exp <=? w_now w)%Z = false) by (apply Z.leb_gt; lia).
  rewrite Hle. exists w'. split; [reflexivity | repeat split; auto].
Qed.

(** Whatever a decoding does, it raises nothing but an [HTTPException], returns
    nothing but a dict, and touches nothing but the clock. *)
Lemma decode_cases (t : Token) (w : World) :
  exists w', clock_only w w'
    /\ ((exists claims, auth_handler._decode_access_token t w = (Return (PDict claims), w'))
        \/ (exists code detail,
              auth_handler._decode_access_token t w = (Raise (HTTPException code detail), w'))).
Proof.
  unfold auth_handler._decode_access_token. unfold_monad.
  destruct t as [key claims exp | s].
  - destruct (negb (String.eqb key SECRET_KEY)).
    + exists w. split; [repeat split | right; eauto].
    + destruct (time_ms_spec w) as (w' & Ht & Hdb & Hr & Hf & Hu & Hs & Hh).
      rewrite Ht. exists w'. split; [repeat split; auto |].
      destruct (exp <=? w_now w)%Z; [right | left]; eauto.
  - exists w. split; [repeat split | right; eauto].
Qed.

(** The three ways a decoding fails: a text that is no token, a token signed
    with another key, a token past its expiry. *)
Lemma decode_failures (w : World) :
  (forall s, exists code detail,
      auth_handler._decode_access_token (Text s) w
      = (Raise (HTTPException code detail), w))
  /\ (forall key claims exp, key <> SECRET_KEY ->
      exists code detail,
        auth_handler._decode_access_token (Signed key claims exp) w
        = (Raise (HTTPException code detail), w))
  /\ (forall claims exp, (exp <= w_now w)%Z ->
      exists code detail w',
        auth_handler._decode_access_token (Signed SECRET_KEY claims exp) w
        = (Raise (HTTPException code detail), w')).
Proof.
  unfold auth_handler._decode_access_token. split; [| split].
  - intros s. do 2 eexists. reflexivity.
  - intros key claims exp Hk.
    destruct (String.eqb_spec key SECRET_KEY) as [Heq | _]; [contradiction |].
    do 2 eexists. reflexivity.
  - intros claims exp Hexp. rewrite String.eqb_refl. cbn [negb]. unfold bind.
    destruct (time_ms_spec w) as (w' & Ht & _). rewrite Ht.
    assert (Hle : (exp <=? w_now w)%Z = true) by (apply Z.leb_le; exact Hexp).
    rewrite Hle. do 3 eexists. reflexivity.
Qed.

(** Both tokens come from [create_access_token] on the same claims, one call
    after the other. *)
Lemma create_tokens_spec (bu : pyval) (session_data : dict) (w : World) :
  exists (w1 w2 : World),
    let claims := PostloginService.token_data bu session_data in
    let access := Signed SECRET_KEY claims (w_now w + TOKEN_LIFETIME) in
    let refresh := Signed SECRET_KEY claims (w_now w1 + TOKEN_LIFETIME) in
    auth_handler.create_access_token claims w = (Return access, w1)
    /\ auth_handler.create_access_token claims w1 = (Return refresh, w2)
    /\ PostloginService._create_tokens bu session_data w = (Return (access, refresh), w2)
    /\ clock_only w w1 /\ clock_only w w2.
Proof.
  destruct (create_access_token_spec (PostloginService.token_data bu session_data) w)
    as (w1 & H1 & C1).
  destruct (create_access_token_spec (PostloginService.token_data bu session_data) w1)
    as (w2 & H2 & C2).
  exists w1, w2. simpl. repeat split; auto; try apply C1;
    try (eapply clock_only_trans; eassumption).
  unfold PostloginService._create_tokens, bind. rewrite H1, H2. reflexivity.
Qed.

(** C10. Minting always returns a non-empty token; decoding it at any time
    before its expiry gives back the claims it was minted from, and from the
    expiry on the decoding is refused. The access token and the refresh token
    of [_create_tokens] are two results of the one [create_access_token] on
    the one set of claims. *)
Theorem token_round_trip (data : dict) (w : World) :
  (exists (tok : Token) (w1 : World),
      auth_handler.create_access_token data w = (Return tok, w1)
      /\ token_truthy tok = true
      /\ (forall w2, (w_now w2 < w_now w + TOKEN_LIFETIME)%Z ->
          fst (auth_handler._decode_access_token tok w2) = Return (PDict data))
      /\ (forall w2, (w_now w + TOKEN_LIFETIME <= w_now w2)%Z ->
          exists code detail,
            fst (auth_handler._decode_access_token tok w2)
            = Raise (HTTPException code detail)))
  /\ (forall (bu : pyval) (session_data : dict),
        exists (access refresh : Token) (w1 w2 : World),
          auth_handler.create_access_token (PostloginService.token_data bu session_data) w
          = (Return access, w1)
          /\ auth_handler.create_access_token (PostloginService.token_data bu session_data) w1
             = (Return refresh, w2)
          /\ PostloginService._create_tokens bu session_data w
             = (Return (access, refresh), w2)).
Proof.
  split.
  - destruct (create_access_token_spec data w) as (w1 & Hc & _).
    eexists. exists w1. split; [exact Hc |]. split; [reflexivity |]. split.
    + intros w2 Hlt. destruct (decode_signed data _ w2 Hlt) as (w3 & Hd & _).
      rewrite Hd. reflexivity.
    + intros w2 Hge. unfold auth_handler._decode_access_token.
      rewrite String.eqb_refl. cbn [negb]. unfold bind.
      destruct (time_ms_spec w2) as (w3 & Ht & _). rewrite Ht.
      assert (Hle : (w_now w + TOKEN_LIFETIME <=? w_now w2)%Z = true) by (apply Z.leb_le; lia).
      rewrite Hle. unfold raise. simpl. eauto.
  - intros bu session_data.
    destruct (create_tokens_spec bu session_data w) as (w1 & w2 & H1 & H2 & H3 & _).
    do 2 eexists. exists w1, w2. repeat split; eassumption.
Qed.

End IssuerFacts.

(** ** Fresh ids *)

(** Ranks are told apart by their unary text. *)
Lemma uuid_rank_inj (n m : nat) : uuid_rank n = uuid_rank m -> n = m.
Proof.
  revert m. induction n as [|n IH]; destruct m as [|m]; simpl; intros Heq;
    try reflexivity; try discriminate.
  inversion Heq. f_equal. auto.
Qed.

(** Ids of different ranks are different texts. *)
Lemma uuid_of_inj (n m : nat) : uuid_of n = uuid_of m -> n = m.
Proof.
  unfold uuid_of. simpl. intros Heq. inversion Heq. apply uuid_rank_inj. assumption.
Qed.

(** ** The external verifier *)

Section VerifierFacts.
Context `{!Json} `{!Settings}.

(** The id on the wire: the request id, else the user id, else a new id, and
    only the last one moves the generator. *)
Lemma request_id_header_value_spec (payload : dict) (w : World) :
  let first := py_or (dict_get payload "requestId") (dict_get payload "userId") in
  TokenVerificationService.request_id_header_value payload w
  = if truthy first then (Return first, w)
    else (Return (PStr (uuid_of (w_uuid w))), with_uuid (S (w_uuid w)) w).
Proof.
  unfold TokenVerificationService.request_id_header_value. simpl.
  destruct (truthy _); reflexivity.
Qed.

(** The POST and the reading of its answer, in closed form: the [try] block of
    [verify_sme_token] returns the verdict and never raises. *)
Lemma verify_sme_token_spec (base_url api_key : string) (payload : dict) (w : World) :
  TokenVerificationService.env_value SME_VERIFY_BASE_URL = Some base_url ->
  TokenVerificationService.env_value SME_VERIFY_TOKEN_KEY = Some api_key ->
  exists (request_id : pyval) (w1 : World) (message : pyval),
    TokenVerificationService.request_id_header_value payload w = (Return request_id, w1)
    /\ let req := outbound base_url api_key request_id payload in
       TokenVerificationService.verify_sme_token payload w
       = (Return [("isValid", PBool (verdict w1 req)); ("message", message)], sent req w1).
Proof.
  intros Hb Hk. unfold TokenVerificationService.verify_sme_token. rewrite Hb, Hk.
  rewrite request_id_header_value_spec.
  set (first := py_or _ _).
  assert (Hrid : exists request_id w1,
             (if truthy first then (Return first, w)
              else (Return (PStr (uuid_of (w_uuid w))), with_uuid (S (w_uuid w)) w))
             = (Return request_id, w1)).
  { destruct (truthy first); eauto. }
  destruct Hrid as (request_id & w1 & Hrid).
  exists request_id, w1.
  unfold bind at 1. rewrite request_id_header_value_spec. fold first. rewrite Hrid.
  unfold outbound, verdict, sent, reply_valid, TokenVerificationService.httpx_post,
    TokenVerificationService.response_json, py_get_or.
  unfold_monad.
  destruct (TokenVerificationService.str_headers _) as [hs|]; [| eexists; split; reflexivity].
  simpl.
  destruct (w_http w1 _) as [|st body|];
    [eexists; split; reflexivity | | eexists; split; reflexivity].
  destruct (Z.eqb_spec st 200) as [->|Hst]; simpl; [| eexists; split; reflexivity].
  destruct (json_loads body) as [[| | | | |doc]|]; simpl; try (eexists; split; reflexivity).
  destruct (dict_get_or doc "data" (PDict [])) as [| | | | |data]; simpl;
    eexists; split; reflexivity.
Qed.

(** The verifier writes nothing: it leaves the store, the client, the
    connection and the clock as they were. *)
Lemma verify_sme_token_frame (payload : dict) (w w' : World) (r : outcome dict) :
  TokenVerificationService.verify_sme_token payload w = (r, w') ->
  w_db w' = w_db w /\ w_redis w' = w_redis w /\ w_faults w' = w_faults w
  /\ w_now w' = w_now w /\ w_later w' = w_later w /\ w_http w' = w_http w.
Proof.
  unfold TokenVerificationService.verify_sme_token.
  destruct (TokenVerificationService.env_value SME_VERIFY_BASE_URL) as [base_url|] eqn:Hb;
    [| unfold raise; intros Heq; inversion Heq; subst; repeat split].
  destruct (TokenVerificationService.env_value SME_VERIFY_TOKEN_KEY) as [api_key|] eqn:Hk;
    [| unfold raise; intros Heq; inversion Heq; subst; repeat split].
  intros Hrun.
  destruct (verify_sme_token_spec base_url api_key payload w Hb Hk)
    as (request_id & w1 & message & Hrid & Hspec).
  unfold TokenVerificationService.verify_sme_token in Hspec. rewrite Hb, Hk in Hspec.
  simpl in Hspec. rewrite Hspec in Hrun. inversion Hrun; subst r w'. clear Hrun Hspec.
  rewrite request_id_header_value_spec in Hrid.
  assert (Hw1 : w_db w1 = w_db w /\ w_redis w1 = w_redis w /\ w_faults w1 = w_faults w
                /\ w_now w1 = w_now w /\ w_later w1 = w_later w /\ w_http w1 = w_http w).
  { destruct (truthy _); inversion Hrid; subst; repeat split. }
  destruct (outbound base_url api_key request_id payload) as [r0|]; simpl;
    [destruct (w_http w1 r0); simpl |]; exact Hw1.
Qed.

(** So does [verify_token], whatever it returns or raises. *)
Lemma verify_token_frame (bu token_key user_id request_id : pyval) (w w' : World)
    (r : outcome pyval) :
  TokenVerificationService.verify_token bu token_key user_id request_id w = (r, w') ->
  w_db w' = w_db w /\ w_redis w' = w_redis w /\ w_faults w' = w_faults w
  /\ w_now w' = w_now w /\ w_later w' = w_later w /\ w_http w' = w_http w.
Proof.
  unfold TokenVerificationService.verify_token.
  destruct (py_eq_str bu "SME");
    [| unfold raise; intros Heq; inversion Heq; subst; repeat split].
  destruct (negb (truthy user_id));
    [unfold raise; intros Heq; inversion Heq; subst; repeat split |].
  unfold bind.
  destruct (TokenVerificationService.verify_sme_token _ w) as [[result|e] w1] eqn:Hsme;
    unfold ret; intros Heq; inversion Heq; subst;
    eapply verify_sme_token_frame; exact Hsme.
Qed.

(** [verify_token] on the SME path with a user id, in closed form: the id on
    the wire is the request id when there is one and the user id otherwise. *)
Lemma verify_token_sme (base_url api_key : string) (token_key user_id request_id : pyval)
    (w : World) :
  TokenVerificationService.env_value SME_VERIFY_BASE_URL = Some base_url ->
  TokenVerificationService.env_value SME_VERIFY_TOKEN_KEY = Some api_key ->
  truthy user_id = true ->
  let req := outbound base_url api_key (if truthy request_id then request_id else user_id)
               (sme_payload_of token_key user_id request_id) in
  TokenVerificationService.verify_token (PStr "SME") token_key user_id request_id w
  = (Return (PBool (verdict w req)), sent req w).
Proof.
  intros Hb Hk Hu req.
  unfold TokenVerificationService.verify_token.
  change (py_eq_str (PStr "SME") "SME") with true. cbv iota. rewrite Hu. cbn [negb].
  fold (sme_payload_of token_key user_id request_id).
  destruct (verify_sme_token_spec base_url api_key (sme_payload_of token_key user_id request_id)
              w Hb Hk) as (rid & w1 & message & Hrid & Hspec).
  rewrite request_id_header_value_spec in Hrid.
  assert (Hfirst : py_or (dict_get (sme_payload_of token_key user_id request_id) "requestId")
                         (dict_get (sme_payload_of token_key user_id request_id) "userId")
                   = if truthy request_id then request_id else user_id).
  { unfold sme_payload_of, dict_get. simpl. unfold py_or.
    destruct (truthy request_id) eqn:Hr; simpl; [rewrite Hr; reflexivity | reflexivity]. }
  rewrite Hfirst in Hrid.
  assert (Ht : truthy (if truthy request_id then request_id else user_id) = true).
  { destruct (truthy request_id) eqn:Hr; assumption. }
  rewrite Ht in Hrid. inversion Hrid; subst rid w1.
  unfold bind. simpl in Hspec. rewrite Hspec. reflexivity.
Qed.

(** What makes the body of an answer say valid. *)
Lemma reply_valid_iff (body : string) :
  reply_valid body = true <->
  exists (doc data : dict) (e : pyval),
    json_loads body = Some (PDict doc)
    /\ dict_get_or doc "data" (PDict []) = PDict data
    /\ dict_lookup data "isExpire" = Some e
    /\ truthy e = false.
Proof.
  unfold reply_valid. split.
  - destruct (json_loads body) as [[| | | | |doc]|]; try discriminate.
    destruct (dict_get_or doc "data" (PDict [])) as [| | | | |data] eqn:Hd; try discriminate.
    unfold dict_get_or. destruct (dict_lookup data "isExpire") as [e|] eqn:He;
      [| discriminate].
    intros Hv. exists doc, data, e. repeat split; auto.
    destruct (truthy e); [discriminate | reflexivity].
  - intros (doc & data & e & Hl & Hd & He & Hf).
    rewrite Hl, Hd. unfold dict_get_or. rewrite He, Hf. reflexivity.
Qed.

(** The SME path asks for a user id before it calls out. *)
Lemma verify_token_requires_user (token_key user_id request_id : pyval) (w : World) :
  truthy user_id = false ->
  TokenVerificationService.verify_token (PStr "SME") token_key user_id request_id w
  = (Raise (HTTPException 400 "Missing userId"), w).
Proof.
  intros Hu. unfold TokenVerificationService.verify_token.
  change (py_eq_str (PStr "SME") "SME") with true. cbv iota. rewrite Hu. reflexivity.
Qed.

(** Any business unit but SME is refused. *)
Lemma verify_token_other_bu (bu token_key user_id request_id : pyval) (w : World) :
  py_eq_str bu "SME" = false ->
  TokenVerificationService.verify_token bu token_key user_id request_id w
  = (Raise (HTTPException 400 "Missing BU"), w).
Proof.
  intros Hb. unfold TokenVerificationService.verify_token. rewrite Hb. reflexivity.
Qed.

(** An answer with any status but 200, and a transport failure, make the
    verification false. *)
Lemma verify_token_not_200 (base_url api_key : string) (token_key user_id request_id : pyval)
    (w : World) (r : http_request) :
  TokenVerificationService.env_value SME_VERIFY_BASE_URL = Some base_url ->
  TokenVerificationService.env_value SME_VERIFY_TOKEN_KEY = Some api_key ->
  truthy user_id = true ->
  outbound base_url api_key (if truthy request_id then request_id else user_id)
    (sme_payload_of token_key user_id request_id) = Some r ->
  (w_http w r = TransportError
   \/ exists st body, w_http w r = Response st body /\ st <> 200%Z) ->
  fst (TokenVerificationService.verify_token (PStr "SME") token_key user_id request_id w)
  = Return (PBool false).
Proof.
  intros Hb Hk Hu Hr Hans.
  rewrite (verify_token_sme base_url api_key token_key user_id request_id w Hb Hk Hu).
  rewrite Hr. unfold verdict.
  destruct Hans as [Ht | (st & body & Ha & Hst)].
  - rewrite Ht. reflexivity.
  - rewrite Ha. apply Z.eqb_neq in Hst. rewrite Hst. reflexivity.
Qed.

(** C4 (amended). For business unit SME, with the verifier configured and a
    non-empty user id, [verify_token] returns a boolean and never raises, and
    the boolean is true if and only if a request went out, the answer had
    status 200, and its body is a JSON object whose data item is an object
    with an isExpire item that is falsy (false, but also null, 0 or an empty
    text). Any other status, a transport failure, a request that could not be
    sent, an unreadable body, an absent or a truthy isExpire all give false. *)
Theorem verify_token_sme_verdict
    (base_url api_key : string) (token_key user_id request_id : pyval) (w : World) :
  TokenVerificationService.env_value SME_VERIFY_BASE_URL = Some base_url ->
  TokenVerificationService.env_value SME_VERIFY_TOKEN_KEY = Some api_key ->
  truthy user_id = true ->
  let req := outbound base_url api_key (if truthy request_id then request_id else user_id)
               (sme_payload_of token_key user_id request_id) in
  exists b : bool,
    TokenVerificationService.verify_token (PStr "SME") token_key user_id request_id w
    = (Return (PBool b), sent req w)
    /\ (b = true <->
        exists (r : http_request) (body : string) (doc data : dict) (e : pyval),
          req = Some r
          /\ w_http w r = Response 200 body
          /\ json_loads body = Some (PDict doc)
          /\ dict_get_or doc "data" (PDict []) = PDict data
          /\ dict_lookup data "isExpire" = Some e
          /\ truthy e = false).
Proof.
  intros Hb Hk Hu req.
  exists (verdict w req). split.
  - apply verify_token_sme; assumption.
  - unfold verdict. split.
    + destruct req as [r|]; [| discriminate].
      destruct (w_http w r) as [|st body|] eqn:Hh; [discriminate | | discriminate].
      intros Hv. apply andb_true_iff in Hv. destruct Hv as [Hst Hv].
      apply Z.eqb_eq in Hst. subst st.
      apply reply_valid_iff in Hv. destruct Hv as (doc & data & e & Hv).
      exists r, body, doc, data, e. tauto.
    + intros (r & body & doc & data & e & Hr & Hh & Hrest).
      rewrite Hr, Hh. simpl. apply reply_valid_iff. eauto.
Qed.

(** C9 (amended). When the payload of a verification carries no request id,
    the x-request-id header of the outbound call is the user id if there is
    one, and no id is generated; only when the user id is empty as well is it
    a freshly generated id, different from every id generated before.
    Through [verify_token] the user id is never empty, so the header is the
    user id. *)
Theorem request_id_fallback (base_url api_key : string) (payload : dict) (w : World) :
  TokenVerificationService.env_value SME_VERIFY_BASE_URL = Some base_url ->
  TokenVerificationService.env_value SME_VERIFY_TOKEN_KEY = Some api_key ->
  truthy (dict_get payload "requestId") = false ->
  exists (request_id : pyval) (w1 : World),
    TokenVerificationService.request_id_header_value payload w = (Return request_id, w1)
    /\ snd (TokenVerificationService.verify_sme_token payload w)
       = sent (outbound base_url api_key request_id payload) w1
    /\ (forall r, outbound base_url api_key request_id payload = Some r ->
        exists s, request_id = PStr s /\ header "x-request-id" (headers r) = Some s)
    /\ (truthy (dict_get payload "userId") = true ->
        request_id = dict_get payload "userId" /\ w1 = w)
    /\ (truthy (dict_get payload "userId") = false ->
        request_id = PStr (uuid_of (w_uuid w))
        /\ w_uuid w1 = S (w_uuid w)
        /\ forall n, (n < w_uuid w)%nat -> uuid_of n <> uuid_of (w_uuid w)).
Proof.
  intros Hb Hk Hrid.
  destruct (verify_sme_token_spec base_url api_key payload w Hb Hk)
    as (request_id & w1 & message & Hval & Hspec).
  exists request_id, w1. split; [exact Hval |].
  split; [simpl in Hspec; rewrite Hspec; reflexivity |].
  split.
  { intros r. unfold outbound, TokenVerificationService.sme_headers. simpl.
    destruct (TokenVerificationService.is_ascii api_key); [| discriminate].
    destruct request_id as [| | |s| |]; try discriminate.
    destruct (TokenVerificationService.is_ascii s); [| discriminate].
    destruct (dict_get_or payload "tokenKey" (PStr "")) as [| | |t| |]; try discriminate.
    destruct (TokenVerificationService.is_ascii t); [| discriminate].
    destruct (dict_get_or payload "userId" (PStr "")) as [| | |u| |]; try discriminate.
    destruct (TokenVerificationService.is_ascii u); [| discriminate].
    intros Hr. inversion Hr; subst r. exists s. split; reflexivity. }
  rewrite request_id_header_value_spec in Hval.
  unfold py_or in Hval. rewrite Hrid in Hval.
  split; intros Hu; rewrite Hu in Hval; inversion Hval; subst.
  - split; reflexivity.
  - split; [reflexivity |]. split; [reflexivity |].
    intros n Hn Heq. apply uuid_of_inj in Heq. lia.
Qed.

End VerifierFacts.

(** ** Initialisation *)

Section Initialisation.
Context `{!Json} `{!Settings}.

(** A str is true unless it is empty. *)
Lemma truthy_PStr (s : string) : s <> "" -> truthy (PStr s) = true.
Proof.
  intros Hs. simpl. destruct (String.eqb_spec s ""); [contradiction | reflexivity].
Qed.

(** The entry of the channel sme in the table of the source. *)
Lemma mock_channels_sme :
  mock_channels !! "sme" = Some [("id", PStr "sme"); ("postLoginBu", PStr "SME")].
Proof. vm_compute. reflexivity. Qed.

(** The [try] block of the initialisation always returns: it reads the clock,
    mints, calls [set] once and ignores what [set] returns. *)
Lemma init_try_block_spec (cif : string) (bci : BasicCustomerInfo) (token_key : string)
    (payload : dict) (rid : string) (bu : string) (w : World) :
  let record := SessionData_dict (init_record cif bci token_key payload rid bu (w_now w)) in
  let key := "session:" +:+ "VPB-" +:+ bu +:+ "-" +:+ cif in
  exists (w3 w' : World) (stored : bool) (e1 e2 : Z),
    clock_only w w3
    /\ RedisService.set key (PDict record) (Some SME_SESSION_TTL) w3 = (Return stored, w')
    /\ PostloginService.init_try_block cif bci token_key payload rid bu
         ("VPB-" +:+ bu +:+ "-" +:+ cif) w
       = (Return {| token := Signed SECRET_KEY (PostloginService.token_data (PStr bu) record) e1;
                    refreshToken :=
                      Signed SECRET_KEY (PostloginService.token_data (PStr bu) record) e2;
                    message := bu +:+ " session initialized successfully" |}, w').
Proof.
  intros record key.
  destruct (time_ms_spec w) as (w0 & Ht & Hdb & Hr & Hf & Hu & Hs & Hh).
  assert (C0 : clock_only w w0) by (repeat split; auto).
  destruct (create_tokens_spec (PStr bu) record w0) as (w1 & w3 & _ & _ & Htok & _ & C3).
  destruct (set_total key (PDict record) (Some SME_SESSION_TTL) w3)
    as (stored & w' & Hset & _).
  exists w3, w', stored. do 2 eexists.
  split; [eapply clock_only_trans; eassumption |].
  split; [exact Hset |].
  unfold PostloginService.init_try_block, try_except, bind.
  rewrite Ht. fold (init_record cif bci token_key payload rid bu (w_now w)).
  fold record. rewrite Htok. fold key. rewrite Hset. reflexivity.
Qed.

(** With a channel that resolves and a connected client, the initialisation
    is its [try] block. *)
Lemma init_resolved (cif : string) (bci : BasicCustomerInfo) (token_key : string)
    (payload : dict) (rid : string) (channel_id post_login_bu : string) (w : World) :
  channel_resolves payload channel_id post_login_bu ->
  w_redis w = true ->
  PostloginService.init_postlogin_user_session cif bci token_key payload rid w
  = PostloginService.init_try_block cif bci token_key payload rid (upper post_login_bu)
      ("VPB-" +:+ upper post_login_bu +:+ "-" +:+ cif) w.
Proof.
  intros (Hc & Hne & setting & Ht & Hbu & Hbne) Hr.
  unfold PostloginService.init_postlogin_user_session.
  rewrite Hc. rewrite (truthy_PStr _ Hne). cbn [negb].
  unfold PostloginService._get_channel_setting, bind, ret. rewrite Ht.
  destruct setting as [|item rest]; [discriminate |].
  rewrite Hbu. rewrite (truthy_PStr _ Hbne). cbn [negb].
  unfold py_upper, ret, RedisService.is_connected. cbn beta iota. rewrite Hr. reflexivity.
Qed.

(** C3. An initialisation whose channel id resolves to a channel with a
    business unit, run with a connected store whose write goes through,
    returns a result; the business unit is the channel's value in upper case
    (SME for the channel sme of the mock table), the principal is
    VPB-<business unit>-<cif>, both tokens are non-empty and carry the
    principal, the business unit, the cif and the credential, and the store
    holds under session:<principal> the JSON text of a record whose
    [token_key] is the credential given and whose [created_at] and
    [updated_at] are both the time read at the call. *)
Theorem init_persists_session (cif : string) (bci : BasicCustomerInfo) (credential : string)
    (payload : dict) (rid : string) (channel_id post_login_bu : string) (w : World)
    (text : string) :
  channel_resolves payload channel_id post_login_bu ->
  let bu := upper post_login_bu in
  let principal := "VPB-" +:+ bu +:+ "-" +:+ cif in
  let record := init_record cif bci credential payload rid bu (w_now w) in
  write_succeeds (PDict (SessionData_dict record)) (Some SME_SESSION_TTL) w text ->
  exists (res : TokenResult) (w' : World),
    PostloginService.init_postlogin_user_session cif bci credential payload rid w
    = (Return res, w')
    /\ message res = bu +:+ " session initialized successfully"
    /\ (exists e1 e2,
          let claims := [ ("chatUsername", PStr principal); ("bu", PStr bu);
                          ("cif", PStr cif); ("tokenKey", PStr credential) ] in
          token res = Signed SECRET_KEY claims e1
          /\ refreshToken res = Signed SECRET_KEY claims e2)
    /\ token_truthy (token res) = true
    /\ token_truthy (refreshToken res) = true
    /\ w_db w' !! ("session:" +:+ principal) = Some (text, expiry (Some SME_SESSION_TTL))
    /\ json_dumps (PDict (SessionData_dict record)) = Some text
    /\ dict_get (SessionData_dict record) "token_key" = PStr credential
    /\ dict_get (SessionData_dict record) "created_at" = PInt (w_now w)
    /\ dict_get (SessionData_dict record) "updated_at" = PInt (w_now w)
    /\ (channel_table = mock_channels -> channel_id = "sme" ->
        bu = "SME" /\ principal = "VPB-SME-" +:+ cif).
Proof.
  intros Hres bu principal record Hwrite.
  assert (Hr : w_redis w = true) by apply Hwrite.
  rewrite (init_resolved cif bci credential payload rid channel_id post_login_bu w Hres Hr).
  destruct (init_try_block_spec cif bci credential payload rid bu w)
    as (w3 & w' & stored & e1 & e2 & Hc & Hset & Hrun).
  fold record in Hset, Hrun. fold principal in Hset, Hrun.
  pose proof (write_succeeds_clock _ _ w w3 text Hc Hwrite) as Hwrite3.
  destruct (set_succeeds ("session:" +:+ principal) _ _ w3 text Hwrite3)
    as (w'' & Hset' & Hdb & _).
  rewrite Hset in Hset'. inversion Hset'; subst stored w''.
  eexists. exists w'. split; [exact Hrun |]. simpl.
  split; [reflexivity |].
  split; [exists e1, e2; split; reflexivity |].
  split; [reflexivity |]. split; [reflexivity |].
  split; [rewrite Hdb; apply lookup_insert_eq |].
  split.
  { destruct Hwrite as (_ & _ & (v & Hv & He) & _). simpl in Hv.
    destruct (json_dumps _) as [s|]; [| discriminate].
    inversion Hv; subst v. simpl in He. congruence. }
  split; [reflexivity |]. split; [reflexivity |]. split; [reflexivity |].
  intros Htab Hid. destruct Hres as (_ & _ & setting & Hlook & Hbu & _).
  rewrite Htab, Hid, mock_channels_sme in Hlook. inversion Hlook; subst setting.
  vm_compute in Hbu. inversion Hbu; subst post_login_bu.
  split; reflexivity.
Qed.

(** C6. The initialisation checks the channel before anything else, and each
    failure leaves the world as it was (nothing minted, nothing written): a
    missing or empty channel id raises 400 Invalid channel id; a channel id
    that the table does not have raises 404 with a message that ends with the
    id; a channel whose entry has no business unit raises 404 with another
    message that ends with the id. *)
Theorem init_channel_errors (cif : string) (bci : BasicCustomerInfo) (token_key : string)
    (payload : dict) (rid : string) (w : World) :
  (truthy (dict_get payload "channelId") = false ->
   PostloginService.init_postlogin_user_session cif bci token_key payload rid w
   = (Raise (HTTPException 400 "Invalid channel id"), w))
  /\ (forall channel_id : string,
        dict_get payload "channelId" = PStr channel_id ->
        channel_id <> "" ->
        channel_table !! channel_id = None ->
        PostloginService.init_postlogin_user_session cif bci token_key payload rid w
        = (Raise (HTTPException 404 ("Cannot find channel with id " +:+ channel_id)), w))
  /\ (forall (channel_id : string) (setting : dict),
        dict_get payload "channelId" = PStr channel_id ->
        channel_id <> "" ->
        channel_table !! channel_id = Some setting ->
        setting <> [] ->
        truthy (dict_get setting "postLoginBu") = false ->
        PostloginService.init_postlogin_user_session cif bci token_key payload rid w
        = (Raise (HTTPException 404 ("Missing BU in channel with id " +:+ channel_id)), w))
  /\ (forall channel_id : string,
        "Cannot find channel with id " +:+ channel_id
        <> "Missing BU in channel with id " +:+ channel_id).
Proof.
  unfold PostloginService.init_postlogin_user_session.
  split; [intros Hf; rewrite Hf; reflexivity |].
  split; [| split].
  - intros channel_id Hc Hne Ht. rewrite Hc, (truthy_PStr _ Hne). cbn [negb].
    unfold PostloginService._get_channel_setting, bind, ret. rewrite Ht. reflexivity.
  - intros channel_id setting Hc Hne Ht Hs Hbu. rewrite Hc, (truthy_PStr _ Hne). cbn [negb].
    unfold PostloginService._get_channel_setting, bind, ret. rewrite Ht.
    destruct setting as [|item rest]; [contradiction |].
    rewrite Hbu. reflexivity.
  - intros channel_id Heq. simpl in Heq. discriminate.
Qed.

End Initialisation.

(** ** Renewal *)

(** The first steps of a renewal whose token decodes. *)
Ltac renew_decoded Htok Hdec :=
  unfold PostloginService.renew_postlogin_user_token;
  rewrite Htok; cbn [negb];
  unfold bind at 1; unfold try_except; rewrite Hdec;
  unfold bind at 1; unfold py_get_or at 1; unfold ret at 1;
  unfold bind at 1; unfold py_get_or at 1; unfold ret at 1;
  repeat match goal with
         | |- context [dict_get_or ?c ?k PNone] =>
             change (dict_get_or c k PNone) with (dict_get c k)
         end.

Section Renewal.
Context `{!Json} `{!Settings}.

(** The [try] block of the renewal always returns: it reads the clock, mints,
    calls [set] once and ignores what [set] returns. *)
Lemma renew_try_block_spec (bu : pyval) (key : string) (record : dict) (w : World) :
  let record' := renewed_record record (w_now w) in
  exists (w3 w' : World) (stored : bool) (e1 e2 : Z),
    clock_only w w3
    /\ RedisService.set key (PDict record') (Some SME_SESSION_TTL) w3 = (Return stored, w')
    /\ PostloginService.renew_try_block bu key record w
       = (Return {| token := Signed SECRET_KEY (PostloginService.token_data bu record') e1;
                    refreshToken := Signed SECRET_KEY (PostloginService.token_data bu record') e2;
                    message := py_str bu +:+ " token renewed successfully" |}, w').
Proof.
  intros record'.
  destruct (time_ms_spec w) as (w0 & Ht & Hdb & Hr & Hf & Hu & Hs & Hh).
  assert (C0 : clock_only w w0) by (repeat split; auto).
  destruct (create_tokens_spec bu record' w0) as (w1 & w3 & _ & _ & Htok & _ & C3).
  destruct (set_total key (PDict record') (Some SME_SESSION_TTL) w3)
    as (stored & w' & Hset & _).
  exists w3, w', stored. do 2 eexists.
  split; [eapply clock_only_trans; eassumption |].
  split; [exact Hset |].
  unfold PostloginService.renew_try_block, try_except, bind.
  rewrite Ht. fold (renewed_record record (w_now w)). fold record'.
  rewrite Htok, Hset. reflexivity.
Qed.

(** Once the record is loaded, the renewal is the verification followed by
    the rejection or by the [try] block. *)
Lemma renew_after_load (rt : Token) (w : World) (bu : pyval) (key : string)
    (record : dict) (w1 : World) :
  renewal_loads rt w bu key record w1 ->
  PostloginService.renew_postlogin_user_token rt w
  = bind (PostloginService.verification bu record)
      (fun is_valid_token =>
         if negb (truthy is_valid_token) then
           raise (HTTPException 401 ("Verify " +:+ py_str bu +:+ " token failed"))
         else PostloginService.renew_try_block bu key record) w1.
Proof.
  intros (claims & w0 & text & Htok & Hdec & Hcu & Hbu & Hbut & Hkey & Hget & Hne & Hparse & Htk).
  unfold PostloginService.renew_postlogin_user_token.
  rewrite Htok. cbn [negb].
  unfold bind at 1. unfold try_except. rewrite Hdec.
  unfold bind at 1. unfold py_get_or at 1. unfold ret at 1.
  unfold bind at 1. unfold py_get_or at 1. unfold ret at 1.
  change (dict_get_or claims "chatUsername" PNone) with (dict_get claims "chatUsername").
  change (dict_get_or claims "bu" PNone) with (dict_get claims "bu").
  rewrite Hcu. rewrite <- Hbu. rewrite Hbut. cbn [negb orb].
  rewrite <- Hkey. unfold bind at 1. rewrite Hget.
  destruct (String.eqb_spec text "") as [Heq|_]; [contradiction |].
  unfold bind at 1. rewrite Hparse. unfold ret at 1.
  rewrite Htk. cbn [negb]. reflexivity.
Qed.

(** Loading the record writes nothing and sends nothing. *)
Lemma renewal_loads_frame (rt : Token) (w : World) (bu : pyval) (key : string)
    (record : dict) (w1 : World) :
  renewal_loads rt w bu key record w1 ->
  w_db w1 = w_db w /\ w_sent w1 = w_sent w /\ w_redis w1 = w_redis w
  /\ w_uuid w1 = w_uuid w /\ w_http w1 = w_http w.
Proof.
  intros (claims & w0 & text & _ & Hdec & _ & _ & _ & _ & Hget & _).
  destruct (decode_cases rt w) as (w0' & Hc & [(c & Hd) | (code & detail & Hd)]);
    rewrite Hd in Hdec; inversion Hdec; subst.
  destruct (get_spec key w0) as (w1' & Hg & Hdb & Hr & _ & _ & Hu & Hs & Hh).
  rewrite Hg in Hget. inversion Hget; subst.
  destruct Hc as (C1 & C2 & C3 & C4 & C5 & C6).
  repeat split; congruence.
Qed.

(** A token that does not decode is answered 400 Invalid refresh token. *)
Lemma renew_undecodable (rt : Token) (w w1 : World) (e : exn) :
  token_truthy rt = true ->
  auth_handler._decode_access_token rt w = (Raise e, w1) ->
  PostloginService.renew_postlogin_user_token rt w
  = (Raise (HTTPException 400 "Invalid refresh token"), w1).
Proof.
  intros Htok Hdec.
  destruct (decode_cases rt w) as (w0 & _ & [(c & Hd) | (code & detail & Hd)]);
    rewrite Hd in Hdec; inversion Hdec; subst.
  unfold PostloginService.renew_postlogin_user_token. rewrite Htok. cbn [negb].
  unfold bind at 1. unfold try_except. rewrite Hd. reflexivity.
Qed.

(** Claims without a principal or without a business unit are answered the
    same way. *)
Lemma renew_claims_incomplete (rt : Token) (w w1 : World) (claims : dict) :
  token_truthy rt = true ->
  auth_handler._decode_access_token rt w = (Return (PDict claims), w1) ->
  truthy (dict_get claims "chatUsername") = false \/ truthy (dict_get claims "bu") = false ->
  PostloginService.renew_postlogin_user_token rt w
  = (Raise (HTTPException 400 "Invalid refresh token"), w1).
Proof.
  intros Htok Hdec Hf. renew_decoded Htok Hdec.
  destruct Hf as [Hf | Hf]; rewrite Hf; [| rewrite orb_true_r]; reflexivity.
Qed.

(** Each of them is answered with the one error. *)
Lemma renew_refuses_bad_tokens (w : World) :
  (forall s, s <> "" ->
      fst (PostloginService.renew_postlogin_user_token (Text s) w)
      = Raise (HTTPException 400 "Invalid refresh token"))
  /\ (forall key claims exp, key <> SECRET_KEY ->
      fst (PostloginService.renew_postlogin_user_token (Signed key claims exp) w)
      = Raise (HTTPException 400 "Invalid refresh token"))
  /\ (forall claims exp, (exp <= w_now w)%Z ->
      fst (PostloginService.renew_postlogin_user_token (Signed SECRET_KEY claims exp) w)
      = Raise (HTTPException 400 "Invalid refresh token")).
Proof.
  destruct (decode_failures w) as (Htext & Hkey & Hexp).
  split; [| split].
  - intros s Hs. destruct (Htext s) as (code & detail & Hd).
    rewrite (renew_undecodable (Text s) w w _ (truthy_PStr s Hs) Hd). reflexivity.
  - intros key claims exp Hk. destruct (Hkey key claims exp Hk) as (code & detail & Hd).
    rewrite (renew_undecodable (Signed key claims exp) w w _ eq_refl Hd). reflexivity.
  - intros claims exp He. destruct (Hexp claims exp He) as (code & detail & w' & Hd).
    rewrite (renew_undecodable (Signed SECRET_KEY claims exp) w w' _ eq_refl Hd). reflexivity.
Qed.

(** C5 (amended). In a renewal of a non-empty refresh token: whatever makes
    the decoding fail, the renewal raises 400 Invalid refresh token, and so
    it does when the claims lack a principal or a business unit; when the
    store has no entry under session:<principal> it raises 404 Session not
    found; when the entry is there and its text is not empty but does not
    parse, it raises 500 Invalid session data. An entry whose text is empty
    is taken for an absent one: 404 Session not found. *)
Theorem renew_load_errors (rt : Token) (w : World) :
  token_truthy rt = true ->
  (forall (e : exn) (w1 : World),
      auth_handler._decode_access_token rt w = (Raise e, w1) ->
      PostloginService.renew_postlogin_user_token rt w
      = (Raise (HTTPException 400 "Invalid refresh token"), w1))
  /\ (forall (claims : dict) (w1 : World),
        auth_handler._decode_access_token rt w = (Return (PDict claims), w1) ->
        let key := "session:" +:+ py_str (dict_get claims "chatUsername") in
        (truthy (dict_get claims "chatUsername") = false
         \/ truthy (dict_get claims "bu") = false ->
         PostloginService.renew_postlogin_user_token rt w
         = (Raise (HTTPException 400 "Invalid refresh token"), w1))
        /\ (truthy (dict_get claims "chatUsername") = true ->
            truthy (dict_get claims "bu") = true ->
            (w_db w !! key = None ->
             exists w2, PostloginService.renew_postlogin_user_token rt w
                        = (Raise (HTTPException 404 "Session not found"), w2))
            /\ (forall (text : string) (ttl : option Z),
                  w_db w !! key = Some (text, ttl) ->
                  w_redis w = true ->
                  connection_fails w = false ->
                  (text = "" ->
                   exists w2, PostloginService.renew_postlogin_user_token rt w
                              = (Raise (HTTPException 404 "Session not found"), w2))
                  /\ (text <> "" ->
                      json_loads text = None ->
                      exists w2, PostloginService.renew_postlogin_user_token rt w
                                 = (Raise (HTTPException 500 "Invalid session data"), w2))))).
Proof.
  intros Htok. split.
  - intros e w1 Hdec.
    destruct (decode_cases rt w) as (w0 & _ & [(c & Hd) | (code & detail & Hd)]);
      rewrite Hd in Hdec; inversion Hdec; subst.
    unfold PostloginService.renew_postlogin_user_token. rewrite Htok. cbn [negb].
    unfold bind at 1. unfold try_except. rewrite Hd. reflexivity.
  - intros claims w1 Hdec key.
    assert (Hc : clock_only w w1).
    { destruct (decode_cases rt w) as (w0 & Hc & [(c & Hd) | (code & detail & Hd)]);
        rewrite Hd in Hdec; inversion Hdec; subst; exact Hc. }
    pose proof (connection_fails_clock w w1 Hc) as Hcf.
    destruct Hc as (Hr1 & Hdb1 & _).
    destruct (get_spec key w1) as (w2 & Hg & _).
    rewrite Hdb1, Hr1, Hcf in Hg.
    split.
    + intros Hf. renew_decoded Htok Hdec.
      destruct Hf as [Hf | Hf]; rewrite Hf; [| rewrite orb_true_r]; reflexivity.
    + intros Hcu Hbu. split.
      * intros Habs. rewrite Habs in Hg.
        assert (Hg' : RedisService.get key w1 = (Return None, w2)).
        { rewrite Hg. destruct (w_redis w && negb (connection_fails w)); reflexivity. }
        exists w2. renew_decoded Htok Hdec. rewrite Hcu, Hbu. cbn [negb orb].
        fold key. unfold bind at 1. rewrite Hg'. reflexivity.
      * intros text ttl Hin Hr Hcon. rewrite Hin, Hr, Hcon in Hg. simpl in Hg.
        split.
        -- intros ->. exists w2. renew_decoded Htok Hdec. rewrite Hcu, Hbu. cbn [negb orb].
           fold key. unfold bind at 1. rewrite Hg. reflexivity.
        -- intros Hne Hparse. exists w2. renew_decoded Htok Hdec.
           rewrite Hcu, Hbu. cbn [negb orb].
           fold key. unfold bind at 1. rewrite Hg.
           destruct (String.eqb_spec text "") as [Heq|_]; [contradiction |].
           unfold bind at 1. rewrite Hparse. reflexivity.
Qed.

(** C2. In a renewal that has loaded its record, when the verifier returns a
    false value the renewal raises 401 Verify <business unit> token failed,
    and the store is as it was before the renewal: nothing was written. *)
Theorem renew_rejected_leaves_store (rt : Token) (w : World) (bu : pyval) (key : string)
    (record : dict) (w1 w2 : World) (is_valid_token : pyval) :
  renewal_loads rt w bu key record w1 ->
  PostloginService.verification bu record w1 = (Return is_valid_token, w2) ->
  truthy is_valid_token = false ->
  PostloginService.renew_postlogin_user_token rt w
  = (Raise (HTTPException 401 ("Verify " +:+ py_str bu +:+ " token failed")), w2)
  /\ w_db w2 = w_db w.
Proof.
  intros Hload Hver Hfalse.
  rewrite (renew_after_load rt w bu key record w1 Hload).
  unfold bind. rewrite Hver, Hfalse. cbn [negb]. split; [reflexivity |].
  apply verify_token_frame in Hver. destruct Hver as (Hdb & _).
  apply renewal_loads_frame in Hload. destruct Hload as (Hdb1 & _). congruence.
Qed.

(** The order of a renewal: whatever the renewal does, if it leaves the store
    different from what it found, then it had loaded its record and the
    verifier had returned a true value before the write. *)
Lemma renew_writes_only_after_verification (rt : Token) (w w' : World)
    (out : outcome TokenResult) :
  PostloginService.renew_postlogin_user_token rt w = (out, w') ->
  w_db w' <> w_db w ->
  exists (bu : pyval) (key : string) (record : dict) (w1 w2 : World) (v : pyval),
    renewal_loads rt w bu key record w1
    /\ PostloginService.verification bu record w1 = (Return v, w2)
    /\ truthy v = true.
Proof.
  intros Hrun Hdiff.
  assert (Hstop : forall e wk,
             PostloginService.renew_postlogin_user_token rt w = (Raise e, wk) ->
             w_db wk = w_db w -> False).
  { intros e wk Heq Hdb. rewrite Heq in Hrun. inversion Hrun; subst. contradiction. }
  destruct (token_truthy rt) eqn:Htok.
  2:{ exfalso. apply (Hstop (HTTPException 400 "Refresh token is required") w);
        [| reflexivity].
      unfold PostloginService.renew_postlogin_user_token. rewrite Htok. reflexivity. }
  destruct (decode_cases rt w) as (w0 & Hc & [(claims & Hd) | (code & detail & Hd)]).
  2:{ exfalso. apply (Hstop (HTTPException 400 "Invalid refresh token") w0);
        [| apply Hc].
      apply (renew_undecodable rt w w0 _ Htok Hd). }
  assert (Hdb0 : w_db w0 = w_db w) by apply Hc.
  set (key := "session:" +:+ py_str (dict_get claims "chatUsername")).
  pose proof (renew_claims_incomplete rt w w0 claims Htok Hd) as Hlack.
  destruct (truthy (dict_get claims "chatUsername")) eqn:Hcu;
    [| exfalso; apply (Hstop _ _ (Hlack (or_introl eq_refl)) Hdb0)].
  destruct (truthy (dict_get claims "bu")) eqn:Hbu;
    [| exfalso; apply (Hstop _ _ (Hlack (or_intror eq_refl)) Hdb0)].
  clear Hlack.
  destruct (get_spec key w0) as (w1 & Hg & Hdb1 & _).
  assert (Hdb : w_db w1 = w_db w) by congruence.
  destruct (if w_redis w0 && negb (connection_fails w0) then fst <$> w_db w0 !! key else None)
    as [text|] eqn:Hread.
  2:{ exfalso. apply (Hstop (HTTPException 404 "Session not found") w1); [| exact Hdb].
      renew_decoded Htok Hd. rewrite Hcu, Hbu. cbn [negb orb]. fold key.
      unfold bind at 1. rewrite Hg. reflexivity. }
  destruct (String.eqb_spec text "") as [Hempty | Hne].
  { exfalso. apply (Hstop (HTTPException 404 "Session not found") w1); [| exact Hdb].
    renew_decoded Htok Hd. rewrite Hcu, Hbu. cbn [negb orb]. fold key.
    unfold bind at 1. rewrite Hg. subst text. reflexivity. }
  destruct (json_loads text) as [parsed|] eqn:Hparse.
  2:{ exfalso. apply (Hstop (HTTPException 500 "Invalid session data") w1); [| exact Hdb].
      renew_decoded Htok Hd. rewrite Hcu, Hbu. cbn [negb orb]. fold key.
      unfold bind at 1. rewrite Hg.
      destruct (String.eqb_spec text "") as [Heq|_]; [contradiction |].
      unfold bind at 1. rewrite Hparse. reflexivity. }
  assert (Hnodict : (forall d, parsed <> PDict d) -> False).
  { intros Hnd. apply (Hstop (Exception "AttributeError") w1); [| exact Hdb].
    renew_decoded Htok Hd. rewrite Hcu, Hbu. cbn [negb orb]. fold key.
    unfold bind at 1. rewrite Hg.
    destruct (String.eqb_spec text "") as [Heq|_]; [contradiction |].
    unfold bind at 1. rewrite Hparse. unfold ret at 1.
    destruct parsed; try reflexivity. exfalso. eapply Hnd. reflexivity. }
  destruct parsed as [| | | | |record]; try (exfalso; apply Hnodict; discriminate).
  clear Hnodict.
  destruct (truthy (dict_get record "tokenKey")) eqn:Htk.
  2:{ exfalso. apply (Hstop (HTTPException 400 "Invalid tokenKey") w1); [| exact Hdb].
      renew_decoded Htok Hd. rewrite Hcu, Hbu. cbn [negb orb]. fold key.
      unfold bind at 1. rewrite Hg.
      destruct (String.eqb_spec text "") as [Heq|_]; [contradiction |].
      unfold bind at 1. rewrite Hparse. unfold ret at 1. rewrite Htk. reflexivity. }
  assert (Hload : renewal_loads rt w (dict_get claims "bu") key record w1).
  { exists claims, w0, text. repeat split; auto. }
  pose proof (renew_after_load rt w _ key record w1 Hload) as Hrest.
  destruct (PostloginService.verification (dict_get claims "bu") record w1)
    as [[v|e] w2] eqn:Hver.
  2:{ exfalso. apply (Hstop e w2).
      - rewrite Hrest. unfold bind. rewrite Hver. reflexivity.
      - apply verify_token_frame in Hver. destruct Hver as (Hdb2 & _). congruence. }
  destruct (truthy v) eqn:Hv.
  - exists (dict_get claims "bu"), key, record, w1, w2, v. auto.
  - exfalso.
    apply (Hstop (HTTPException 401 ("Verify " +:+ py_str (dict_get claims "bu")
                                       +:+ " token failed")) w2).
    + rewrite Hrest. unfold bind. rewrite Hver, Hv. reflexivity.
    + apply verify_token_frame in Hver. destruct Hver as (Hdb2 & _). congruence.
Qed.

(** A renewal that is accepted and whose write goes through puts back, under
    the same key and with the full time to live, the record it read with the
    key [updated_at] set to the time of the renewal. *)
Lemma renew_accepted_persists (rt : Token) (w : World) (bu : pyval) (key : string)
    (record : dict) (w1 w2 : World) (is_valid_token : pyval) (text : string) :
  renewal_loads rt w bu key record w1 ->
  PostloginService.verification bu record w1 = (Return is_valid_token, w2) ->
  truthy is_valid_token = true ->
  write_succeeds (PDict (renewed_record record (w_now w2))) (Some SME_SESSION_TTL) w2 text ->
  exists (res : TokenResult) (w' : World),
    PostloginService.renew_postlogin_user_token rt w = (Return res, w')
    /\ token_truthy (token res) = true /\ token_truthy (refreshToken res) = true
    /\ message res = py_str bu +:+ " token renewed successfully"
    /\ w_db w' = <[key := (text, expiry (Some SME_SESSION_TTL))]> (w_db w).
Proof.
  intros Hload Hver Htrue Hwrite.
  rewrite (renew_after_load rt w bu key record w1 Hload).
  unfold bind. rewrite Hver, Htrue. cbn [negb].
  destruct (renew_try_block_spec bu key record w2)
    as (w3 & w' & stored & e1 & e2 & Hc & Hset & Hrun).
  pose proof (write_succeeds_clock _ _ w2 w3 text Hc Hwrite) as Hwrite3.
  destruct (set_succeeds key _ _ w3 text Hwrite3) as (w'' & Hset' & Hdb & _).
  rewrite Hset in Hset'. inversion Hset'; subst stored w''.
  eexists. exists w'. split; [exact Hrun |]. simpl.
  repeat (split; [reflexivity |]).
  rewrite Hdb. f_equal.
  apply verify_token_frame in Hver. destruct Hver as (Hdb2 & _).
  apply renewal_loads_frame in Hload. destruct Hload as (Hdb1 & _).
  destruct Hc as (_ & Hdb3 & _). congruence.
Qed.

(** No record that [init_postlogin_user_session] writes has the key that the
    renewal reads the credential from. *)
Lemma session_record_has_no_tokenKey (sd : SessionData) :
  dict_get (SessionData_dict sd) "tokenKey" = PNone.
Proof. reflexivity. Qed.

(** C1 (what the code does). A renewal that finds in the store the record of
    an initialisation, that is a text that parses to the dict of a
    [SessionData], raises 400 Invalid tokenKey before it calls the verifier:
    it returns no token, sends nothing and writes nothing. *)
Theorem renew_of_init_record_rejected (rt : Token) (w w1 w2 : World) (claims : dict)
    (sd : SessionData) (text : string) :
  token_truthy rt = true ->
  auth_handler._decode_access_token rt w = (Return (PDict claims), w1) ->
  truthy (dict_get claims "chatUsername") = true ->
  truthy (dict_get claims "bu") = true ->
  RedisService.get ("session:" +:+ py_str (dict_get claims "chatUsername")) w1
  = (Return (Some text), w2) ->
  text <> "" ->
  json_loads text = Some (PDict (SessionData_dict sd)) ->
  PostloginService.renew_postlogin_user_token rt w
  = (Raise (HTTPException 400 "Invalid tokenKey"), w2)
  /\ w_db w2 = w_db w /\ w_sent w2 = w_sent w.
Proof.
  intros Htok Hdec Hcu Hbu Hget Hne Hparse.
  split.
  - unfold PostloginService.renew_postlogin_user_token.
    rewrite Htok. cbn [negb].
    unfold bind at 1. unfold try_except. rewrite Hdec.
    unfold bind at 1. unfold py_get_or at 1. unfold ret at 1.
    unfold bind at 1. unfold py_get_or at 1. unfold ret at 1.
    change (dict_get_or claims "chatUsername" PNone) with (dict_get claims "chatUsername").
    change (dict_get_or claims "bu" PNone) with (dict_get claims "bu").
    rewrite Hcu, Hbu. cbn [negb orb].
    unfold bind at 1. rewrite Hget.
    destruct (String.eqb_spec text "") as [Heq|_]; [contradiction |].
    unfold bind at 1. rewrite Hparse. unfold ret at 1.
    rewrite session_record_has_no_tokenKey. reflexivity.
  - destruct (decode_cases rt w) as (w0' & Hc & [(c & Hd) | (code & detail & Hd)]);
      rewrite Hd in Hdec; inversion Hdec; subst.
    destruct (get_spec ("session:" +:+ py_str (dict_get claims "chatUsername")) w1)
      as (w1' & Hg & Hdb & _ & _ & _ & _ & Hs & _).
    rewrite Hg in Hget. inversion Hget; subst.
    destruct Hc as (_ & C2 & _ & _ & _ & C6). split; congruence.
Qed.

End Renewal.

(** ** A write that fails *)

Section PersistFailure.
Context `{!Json} `{!Settings}.

(** A token that the issuer has minted is not empty. *)
Ltac minted Hmint :=
  match type of Hmint with
  | auth_handler.create_access_token ?c ?w0 = (Return ?t, _) =>
      let wx := fresh "wx" in
      let Hx := fresh "Hx" in
      let Heq := fresh "Heq" in
      destruct (create_access_token_spec c w0) as (wx & Hx & _);
      assert (Heq : Return t = Return (Signed SECRET_KEY c (w_now w0 + TOKEN_LIFETIME)))
        by congruence;
      injection Heq as Heq; rewrite Heq; reflexivity
  end.

(** The [try] block of the initialisation, step by step: the clock is read,
    the two tokens are minted from the claims of the record, [set] is called
    once, and the tokens are returned whatever [set] returned. *)
Lemma init_try_block_trace (cif : string) (bci : BasicCustomerInfo) (token_key : string)
    (payload : dict) (rid : string) (bu : string) (w : World) :
  let record := SessionData_dict (init_record cif bci token_key payload rid bu (w_now w)) in
  let claims := PostloginService.token_data (PStr bu) record in
  let key := "session:" +:+ "VPB-" +:+ bu +:+ "-" +:+ cif in
  exists (res : TokenResult) (w1 w2 w3 w' : World) (stored : bool),
    time_ms w = (Return (w_now w), w1)
    /\ auth_handler.create_access_token claims w1 = (Return (token res), w2)
    /\ auth_handler.create_access_token claims w2 = (Return (refreshToken res), w3)
    /\ RedisService.set key (PDict record) (Some SME_SESSION_TTL) w3 = (Return stored, w')
    /\ PostloginService.init_try_block cif bci token_key payload rid bu
         ("VPB-" +:+ bu +:+ "-" +:+ cif) w
       = (Return res, w')
    /\ message res = bu +:+ " session initialized successfully"
    /\ clock_only w w3.
Proof.
  intros record claims key.
  destruct (time_ms_spec w) as (w1 & Ht & Hdb & Hr & Hf & Hu & Hs & Hh).
  assert (C0 : clock_only w w1) by (repeat split; auto).
  destruct (create_tokens_spec (PStr bu) record w1) as (w2 & w3 & H1 & H2 & Htok & _ & C3).
  destruct (set_total key (PDict record) (Some SME_SESSION_TTL) w3)
    as (stored & w' & Hset & _).
  exists {| token := Signed SECRET_KEY claims (w_now w1 + TOKEN_LIFETIME);
            refreshToken := Signed SECRET_KEY claims (w_now w2 + TOKEN_LIFETIME);
            message := bu +:+ " session initialized successfully" |}.
  exists w1, w2, w3, w', stored. cbn [token refreshToken message].
  split; [exact Ht |]. split; [exact H1 |]. split; [exact H2 |]. split; [exact Hset |].
  split; [| split; [reflexivity | eapply clock_only_trans; eassumption]].
  unfold PostloginService.init_try_block, try_except, bind.
  rewrite Ht. fold (init_record cif bci token_key payload rid bu (w_now w)).
  fold record. rewrite Htok. fold key. rewrite Hset. reflexivity.
Qed.

(** The [try] block of the renewal, step by step. *)
Lemma renew_try_block_trace (bu : pyval) (key : string) (record : dict) (w : World) :
  let record' := renewed_record record (w_now w) in
  let claims := PostloginService.token_data bu record' in
  exists (res : TokenResult) (w1 w2 w3 w' : World) (stored : bool),
    time_ms w = (Return (w_now w), w1)
    /\ auth_handler.create_access_token claims w1 = (Return (token res), w2)
    /\ auth_handler.create_access_token claims w2 = (Return (refreshToken res), w3)
    /\ RedisService.set key (PDict record') (Some SME_SESSION_TTL) w3 = (Return stored, w')
    /\ PostloginService.renew_try_block bu key record w = (Return res, w')
    /\ message res = py_str bu +:+ " token renewed successfully"
    /\ clock_only w w3.
Proof.
  intros record' claims.
  destruct (time_ms_spec w) as (w1 & Ht & Hdb & Hr & Hf & Hu & Hs & Hh).
  assert (C0 : clock_only w w1) by (repeat split; auto).
  destruct (create_tokens_spec bu record' w1) as (w2 & w3 & H1 & H2 & Htok & _ & C3).
  destruct (set_total key (PDict record') (Some SME_SESSION_TTL) w3)
    as (stored & w' & Hset & _).
  exists {| token := Signed SECRET_KEY claims (w_now w1 + TOKEN_LIFETIME);
            refreshToken := Signed SECRET_KEY claims (w_now w2 + TOKEN_LIFETIME);
            message := py_str bu +:+ " token renewed successfully" |}.
  exists w1, w2, w3, w', stored. cbn [token refreshToken message].
  split; [exact Ht |]. split; [exact H1 |]. split; [exact H2 |]. split; [exact Hset |].
  split; [| split; [reflexivity | eapply clock_only_trans; eassumption]].
  unfold PostloginService.renew_try_block, try_except, bind.
  rewrite Ht. fold (renewed_record record (w_now w)). fold record'.
  rewrite Htok, Hset. reflexivity.
Qed.

(** C7. Both flows return freshly minted tokens whatever becomes of the write
    of the record. In an initialisation whose channel resolves and whose
    client is connected, and in a renewal that the verifier has accepted, the
    clock is read, the issuer mints the access token and then the refresh
    token from the claims of the record, [set] is called once with the record
    under the key of the session, and the result returned carries exactly
    these two tokens, whether [set] returned True or False. When the write
    fails, [set] returns False, the flow returns its tokens all the same and
    the store holds what it held before: a result is no proof that the record
    was stored. *)
Theorem persist_failure_still_succeeds :
  (forall (cif : string) (bci : BasicCustomerInfo) (token_key : string) (payload : dict)
          (rid : string) (channel_id post_login_bu : string) (w : World),
      channel_resolves payload channel_id post_login_bu ->
      w_redis w = true ->
      let bu := upper post_login_bu in
      let record :=
        SessionData_dict (init_record cif bci token_key payload rid bu (w_now w)) in
      let claims := PostloginService.token_data (PStr bu) record in
      let key := "session:" +:+ "VPB-" +:+ bu +:+ "-" +:+ cif in
      exists (res : TokenResult) (w1 w2 w3 w' : World) (stored : bool),
        time_ms w = (Return (w_now w), w1)
        /\ auth_handler.create_access_token claims w1 = (Return (token res), w2)
        /\ auth_handler.create_access_token claims w2 = (Return (refreshToken res), w3)
        /\ RedisService.set key (PDict record) (Some SME_SESSION_TTL) w3
           = (Return stored, w')
        /\ PostloginService.init_postlogin_user_session cif bci token_key payload rid w
           = (Return res, w')
        /\ token_truthy (token res) = true /\ token_truthy (refreshToken res) = true
        /\ message res = bu +:+ " session initialized successfully"
        /\ (write_fails (PDict record) (Some SME_SESSION_TTL) w ->
            stored = false /\ w_db w' = w_db w))
  /\ (forall (rt : Token) (w : World) (bu : pyval) (key : string) (record : dict)
             (w1 w2 : World) (is_valid_token : pyval),
        renewal_loads rt w bu key record w1 ->
        PostloginService.verification bu record w1 = (Return is_valid_token, w2) ->
        truthy is_valid_token = true ->
        let record' := renewed_record record (w_now w2) in
        let claims := PostloginService.token_data bu record' in
        exists (res : TokenResult) (wa wb wc w' : World) (stored : bool),
          time_ms w2 = (Return (w_now w2), wa)
          /\ auth_handler.create_access_token claims wa = (Return (token res), wb)
          /\ auth_handler.create_access_token claims wb = (Return (refreshToken res), wc)
          /\ RedisService.set key (PDict record') (Some SME_SESSION_TTL) wc
             = (Return stored, w')
          /\ PostloginService.renew_postlogin_user_token rt w = (Return res, w')
          /\ token_truthy (token res) = true /\ token_truthy (refreshToken res) = true
          /\ message res = py_str bu +:+ " token renewed successfully"
          /\ (write_fails (PDict record') (Some SME_SESSION_TTL) w2 ->
              stored = false /\ w_db w' = w_db w)).
Proof.
  split.
  - intros cif bci token_key payload rid channel_id post_login_bu w Hres Hr bu record claims
      key.
    rewrite (init_resolved cif bci token_key payload rid channel_id post_login_bu w Hres Hr).
    destruct (init_try_block_trace cif bci token_key payload rid bu w)
      as (res & w1 & w2 & w3 & w' & stored & Ht & H1 & H2 & Hset & Hrun & Hmsg & Hc).
    exists res, w1, w2, w3, w', stored.
    split; [exact Ht |]. split; [exact H1 |]. split; [exact H2 |]. split; [exact Hset |].
    split; [exact Hrun |].
    split; [minted H1 |]. split; [minted H2 |].
    split; [exact Hmsg |].
    intros Hfail.
    pose proof (write_fails_clock _ _ w w3 Hc Hfail) as Hfail3.
    destruct (set_fails key _ _ w3 Hfail3) as (w'' & Hset' & Hdb & _).
    assert (Heq : (Return stored, w') = (@Return bool false, w''))
      by (rewrite <- Hset; exact Hset').
    inversion Heq; subst stored w''.
    split; [reflexivity |]. destruct Hc as (_ & Hdb3 & _). congruence.
  - intros rt w bu key record w1 w2 is_valid_token Hload Hver Htrue record' claims.
    rewrite (renew_after_load rt w bu key record w1 Hload).
    unfold bind. rewrite Hver, Htrue. cbn [negb].
    destruct (renew_try_block_trace bu key record w2)
      as (res & wa & wb & wc & w' & stored & Ht & H1 & H2 & Hset & Hrun & Hmsg & Hc).
    exists res, wa, wb, wc, w', stored.
    split; [exact Ht |]. split; [exact H1 |]. split; [exact H2 |]. split; [exact Hset |].
    split; [exact Hrun |].
    split; [minted H1 |]. split; [minted H2 |].
    split; [exact Hmsg |].
    intros Hfail.
    pose proof (write_fails_clock _ _ w2 wc Hc Hfail) as Hfail3.
    destruct (set_fails key _ _ wc Hfail3) as (w'' & Hset' & Hdb & _).
    assert (Heq : (Return stored, w') = (@Return bool false, w''))
      by (rewrite <- Hset; exact Hset').
    inversion Heq; subst stored w''.
    split; [reflexivity |].
    apply verify_token_frame in Hver. destruct Hver as (Hdb2 & _).
    apply renewal_loads_frame in Hload. destruct Hload as (Hdb1 & _).
    destruct Hc as (_ & Hdb3 & _). congruence.
Qed.

End PersistFailure.

(** * Runs of the example deployment *)

(** A renewal of the example has loaded its record. *)
Ltac demo_loads token_key w0 :=
  exists Demo.claims, w0, (PyJson.dumps (PDict (Demo.camel_record token_key)));
  split; [vm_compute; reflexivity |]; split; [run |];
  split; [vm_compute; reflexivity |]; split; [vm_compute; reflexivity |];
  split; [vm_compute; reflexivity |]; split; [vm_compute; reflexivity |];
  split; [run |]; split; [discriminate |];
  split; vm_compute; reflexivity.

(** C1, witness: the renewal that follows the initialisation of the example,
    with the refresh token it returned, against the mock endpoint. *)
Lemma renew_of_init_record_rejected_witness :
  fst (Demo.init Demo.world)
  = Return {| token := Signed "demo-signing-key"
                         (PostloginService.token_data (PStr "SME")
                            (SessionData_dict Demo.record)) 1700001800001;
              refreshToken := Demo.issued;
              message := "SME session initialized successfully" |}
  /\ fst (Demo.renew Demo.issued Demo.after_init)
     = Raise (HTTPException 400 "Invalid tokenKey")
  /\ w_db (snd (Demo.renew Demo.issued Demo.after_init)) = w_db Demo.after_init
  /\ w_sent (snd (Demo.renew Demo.issued Demo.after_init)) = w_sent Demo.after_init.
Proof.
  split; [vm_compute; reflexivity |].
  edestruct (@renew_of_init_record_rejected python_json Demo.settings
               Demo.issued Demo.after_init) as (Hrun & Hdb & Hsent).
  - vm_compute. reflexivity.
  - run.
  - vm_compute. reflexivity.
  - vm_compute. reflexivity.
  - run.
  - discriminate.
  - instantiate (1 := Demo.record). vm_compute. reflexivity.
  - unfold Demo.renew. rewrite Hrun. cbn [fst snd].
    split; [reflexivity |]. split; assumption.
Defined.

(** Scenario 6 on a record that has the key [tokenKey]: the renewal is
    accepted and writes back, with the full time to live, the record it read
    with one more key, [updated_at]; the key [updatedAt] keeps its value. *)
Example renew_camel_record :
  let w := Demo.with_camel_record "valid_token_key_123" in
  let w' := snd (Demo.renew Demo.refresh_token w) in
  (exists res, fst (Demo.renew Demo.refresh_token w) = Return res
               /\ message res = "SME token renewed successfully")
  /\ w_db w' !! "session:VPB-SME-1234567890"
     = Some (PyJson.dumps
               (PDict (Demo.camel_record "valid_token_key_123"
                         ++ [("updated_at", PInt 1700000000001)])),
             Some 3600%Z).
Proof.
  split.
  - eexists. split; [vm_compute; reflexivity | reflexivity].
  - vm_compute. reflexivity.
Qed.

(** C2, witness: scenario 5. The store holds a record whose credential the
    mock endpoint refuses with status 401; the renewal raises 401 Verify SME
    token failed and the store is as before. *)
Lemma renew_rejected_leaves_store_witness :
  let w := Demo.with_camel_record "invalid_token_key" in
  fst (Demo.renew Demo.refresh_token w)
  = Raise (HTTPException 401 "Verify SME token failed")
  /\ w_db (snd (Demo.renew Demo.refresh_token w)) = w_db w
  /\ map (fun r => match mock_api.validate_session r with
                   | Response st _ => st
                   | TransportError => 0%Z
                   | Refused => 0%Z
                   end) (w_sent (snd (Demo.renew Demo.refresh_token w))) = [401%Z].
Proof.
  intros w.
  set (w0 := snd (@auth_handler._decode_access_token Demo.settings Demo.refresh_token w)).
  set (w1 := snd (RedisService.get "session:VPB-SME-1234567890" w0)).
  set (w2 := snd (@PostloginService.verification python_json Demo.settings (PStr "SME")
                    (Demo.camel_record "invalid_token_key") w1)).
  assert (Hload : @renewal_loads python_json Demo.settings Demo.refresh_token w (PStr "SME")
                    "session:VPB-SME-1234567890" (Demo.camel_record "invalid_token_key") w1).
  { exists Demo.claims, w0, (PyJson.dumps (PDict (Demo.camel_record "invalid_token_key"))).
    split; [vm_compute; reflexivity |]. split; [subst w0; run |].
    split; [vm_compute; reflexivity |]. split; [vm_compute; reflexivity |].
    split; [vm_compute; reflexivity |]. split; [vm_compute; reflexivity |].
    split; [subst w1; run |]. split; [discriminate |].
    split; vm_compute; reflexivity. }
  assert (Hver : @PostloginService.verification python_json Demo.settings (PStr "SME")
                   (Demo.camel_record "invalid_token_key") w1 = (Return (PBool false), w2)).
  { subst w2; run. }
  destruct (@renew_rejected_leaves_store python_json Demo.settings Demo.refresh_token w
              (PStr "SME") "session:VPB-SME-1234567890"
              (Demo.camel_record "invalid_token_key") w1 w2 (PBool false)
              Hload Hver eq_refl) as (Hrun & Hdb).
  unfold Demo.renew. rewrite Hrun. cbn [fst snd].
  split; [reflexivity |]. split; [exact Hdb |].
  subst w2 w1 w0 w. vm_compute. reflexivity.
Defined.

(** C3, witness: scenario 1, the initialisation of the example. *)
Lemma init_persists_session_witness :
  exists (res : TokenResult) (w' : World),
    Demo.init Demo.world = (Return res, w')
    /\ message res = "SME session initialized successfully"
    /\ token_truthy (token res) = true
    /\ token_truthy (refreshToken res) = true
    /\ w_db w' !! "session:VPB-SME-1234567890"
       = Some (PyJson.dumps (PDict (SessionData_dict Demo.record)), Some 3600%Z).
Proof.
  assert (Hres : @channel_resolves Demo.settings [("channelId", PStr "sme")] "sme" "SME").
  { split; [reflexivity |]. split; [discriminate |].
    eexists. split; [vm_compute; reflexivity |]. split; [reflexivity | discriminate]. }
  assert (Hwrite : @write_succeeds python_json (PDict (SessionData_dict Demo.record))
                     (Some 3600%Z) Demo.world
                     (PyJson.dumps (PDict (SessionData_dict Demo.record)))).
  { split; [reflexivity |]. split; [reflexivity |].
    split; [eexists; split; reflexivity | unfold setex_safe; simpl; lia]. }
  destruct (@init_persists_session python_json Demo.settings "1234567890" Demo.customer
              "valid_token_key_123" [("channelId", PStr "sme")] "test-request-123"
              "sme" "SME" Demo.world _ Hres Hwrite)
    as (res & w' & Hrun & Hmsg & _ & Ht & Hr & Hdb & _).
  exists res, w'. split; [exact Hrun |]. split; [exact Hmsg |].
  split; [exact Ht |]. split; [exact Hr |]. exact Hdb.
Defined.

(** C4, witness: the mock endpoint answers a credential it knows with 200 and
    isExpire false, and [verify_token] returns true. *)
Lemma verify_token_sme_verdict_witness :
  exists b : bool,
    Demo.verify "valid_token_key_123" "1234567890" "" Demo.world
    = (Return (PBool b),
       sent (@outbound "http://localhost:8000/api/v1/" "test-api-key"
               (PStr "1234567890")
               (sme_payload_of (PStr "valid_token_key_123") (PStr "1234567890") (PStr "")))
            Demo.world)
    /\ (b = true <->
        exists (r : http_request) (body : string) (doc data : dict) (e : pyval),
          @outbound "http://localhost:8000/api/v1/" "test-api-key" (PStr "1234567890")
             (sme_payload_of (PStr "valid_token_key_123") (PStr "1234567890") (PStr ""))
          = Some r
          /\ w_http Demo.world r = Response 200 body
          /\ PyJson.loads body = Some (PDict doc)
          /\ dict_get_or doc "data" (PDict []) = PDict data
          /\ dict_lookup data "isExpire" = Some e
          /\ truthy e = false).
Proof.
  exact (@verify_token_sme_verdict python_json Demo.settings
           "http://localhost:8000/api/v1/" "test-api-key"
           (PStr "valid_token_key_123") (PStr "1234567890") (PStr "") Demo.world
           eq_refl eq_refl eq_refl).
Defined.

(** C4, counterexample: an answer with status 200 whose isExpire is null, not
    false, and [verify_token] returns true. *)
Lemma verify_token_null_isExpire :
  let w := Demo.with_http Demo.null_expiry_endpoint Demo.world in
  fst (Demo.verify "valid_token_key_123" "1234567890" "" w) = Return (PBool true)
  /\ (forall r, exists body,
        w_http w r = Response 200 body
        /\ PyJson.loads body = Some (PDict [("data", PDict [("isExpire", PNone)])]))
  /\ PNone <> PBool false.
Proof.
  split; [vm_compute; reflexivity |].
  split; [| discriminate].
  intros r. eexists. split; [reflexivity | vm_compute; reflexivity].
Qed.

(** C5, witness: a text that is no token; scenario 4, a store without the
    session; and an entry whose text is not JSON. *)
Lemma renew_load_errors_witness :
  fst (Demo.renew (Text "not-a-token") Demo.world)
  = Raise (HTTPException 400 "Invalid refresh token")
  /\ fst (Demo.renew Demo.refresh_token Demo.world)
     = Raise (HTTPException 404 "Session not found")
  /\ fst (Demo.renew Demo.refresh_token
            (Demo.with_entry "session:VPB-SME-1234567890" "{not json" Demo.world))
     = Raise (HTTPException 500 "Invalid session data").
Proof.
  split; [| split].
  - destruct (@renew_load_errors python_json Demo.settings (Text "not-a-token") Demo.world
                eq_refl) as (Hbad & _).
    unfold Demo.renew.
    rewrite (Hbad (HTTPException 400 "Malformed token") Demo.world eq_refl). reflexivity.
  - destruct (@renew_load_errors python_json Demo.settings Demo.refresh_token Demo.world
                eq_refl) as (_ & Hok).
    destruct (Hok Demo.claims
                (snd (@auth_handler._decode_access_token Demo.settings Demo.refresh_token
                        Demo.world))) as (_ & Hload); [run |].
    destruct (Hload eq_refl eq_refl) as (Habsent & _).
    destruct Habsent as (w2 & Hrun); [vm_compute; reflexivity |].
    unfold Demo.renew. rewrite Hrun. reflexivity.
  - destruct (@renew_load_errors python_json Demo.settings Demo.refresh_token
                (Demo.with_entry "session:VPB-SME-1234567890" "{not json" Demo.world)
                eq_refl) as (_ & Hok).
    destruct (Hok Demo.claims
                (snd (@auth_handler._decode_access_token Demo.settings Demo.refresh_token
                        (Demo.with_entry "session:VPB-SME-1234567890" "{not json"
                           Demo.world)))) as (_ & Hload); [run |].
    destruct (Hload eq_refl eq_refl) as (_ & Hpresent).
    destruct (Hpresent "{not json" (Some 3600%Z)) as (_ & Hbad);
      [vm_compute; reflexivity | reflexivity | reflexivity |].
    destruct Hbad as (w2 & Hrun); [discriminate | vm_compute; reflexivity |].
    unfold Demo.renew. rewrite Hrun. reflexivity.
Defined.

(** C5, counterexample: the store has an entry under the key of the session,
    its text is empty and does not parse, and the renewal raises 404 Session
    not found, not an internal error. *)
Lemma renew_empty_entry_not_found :
  let w := Demo.with_entry "session:VPB-SME-1234567890" "" Demo.world in
  w_db w !! "session:VPB-SME-1234567890" = Some ("", Some 3600%Z)
  /\ PyJson.loads "" = None
  /\ fst (Demo.renew Demo.refresh_token w) = Raise (HTTPException 404 "Session not found").
Proof. repeat split; vm_compute; reflexivity. Qed.

(** C6, witness: scenarios 2 and 3, and a channel without a business unit. *)
Lemma init_channel_errors_witness :
  @PostloginService.init_postlogin_user_session python_json Demo.settings
    "1234567890" Demo.customer "valid_token_key_123" [] "" Demo.world
  = (Raise (HTTPException 400 "Invalid channel id"), Demo.world)
  /\ @PostloginService.init_postlogin_user_session python_json Demo.settings
       "1234567890" Demo.customer "valid_token_key_123" [("channelId", PStr "unknown")] ""
       Demo.world
     = (Raise (HTTPException 404 "Cannot find channel with id unknown"), Demo.world)
  /\ @PostloginService.init_postlogin_user_session python_json
       Demo.settings_with_legacy_channel
       "1234567890" Demo.customer "valid_token_key_123" [("channelId", PStr "legacy")] ""
       Demo.world
     = (Raise (HTTPException 404 "Missing BU in channel with id legacy"), Demo.world).
Proof.
  split; [| split].
  - apply (proj1 (@init_channel_errors python_json Demo.settings "1234567890" Demo.customer
                    "valid_token_key_123" [] "" Demo.world)).
    reflexivity.
  - apply (proj1 (proj2 (@init_channel_errors python_json Demo.settings "1234567890"
                           Demo.customer "valid_token_key_123"
                           [("channelId", PStr "unknown")] "" Demo.world))
             "unknown").
    + reflexivity.
    + discriminate.
    + vm_compute. reflexivity.
  - apply (proj1 (proj2 (proj2 (@init_channel_errors python_json
                                  Demo.settings_with_legacy_channel "1234567890"
                                  Demo.customer "valid_token_key_123"
                                  [("channelId", PStr "legacy")] "" Demo.world)))
             "legacy" [("id", PStr "legacy")]).
    + reflexivity.
    + discriminate.
    + vm_compute. reflexivity.
    + discriminate.
    + reflexivity.
Defined.

(** C7, witness: an initialisation whose write finds the connection broken,
    and a renewal, accepted by the mock endpoint, whose read goes through
    and whose write finds the connection broken. In both [set] returns False,
    the flow returns the tokens it minted and the store is as it was. *)
Lemma persist_failure_still_succeeds_witness :
  (let w := with_faults [true] Demo.world in
   exists (res : TokenResult) (w3 w' : World),
     @RedisService.set python_json "session:VPB-SME-1234567890"
       (PDict (SessionData_dict
                 (init_record "1234567890" Demo.customer "valid_token_key_123"
                    [("channelId", PStr "sme")] "test-request-123" "SME" (w_now w))))
       (Some 3600%Z) w3 = (Return false, w')
     /\ Demo.init w = (Return res, w')
     /\ token_truthy (token res) = true /\ token_truthy (refreshToken res) = true
     /\ message res = "SME session initialized successfully"
     /\ w_db w' = w_db w)
  /\ (let w := with_faults [false; true] (Demo.with_camel_record "valid_token_key_123") in
      exists (res : TokenResult) (w' : World),
        Demo.renew Demo.refresh_token w = (Return res, w')
        /\ token_truthy (token res) = true /\ token_truthy (refreshToken res) = true
        /\ message res = "SME token renewed successfully"
        /\ w_db w' = w_db w).
Proof.
  split.
  - intros w.
    destruct (proj1 (@persist_failure_still_succeeds python_json Demo.settings)
                "1234567890" Demo.customer "valid_token_key_123" [("channelId", PStr "sme")]
                "test-request-123" "sme" "SME" w)
      as (res & w1 & w2 & w3 & w' & stored & _ & _ & _ & Hset & Hrun & Ht & Hrt & Hmsg
          & Hfail).
    + split; [reflexivity |]. split; [discriminate |].
      eexists. split; [vm_compute; reflexivity |]. split; [reflexivity | discriminate].
    + reflexivity.
    + destruct Hfail as (-> & Hdb); [right; left; reflexivity |].
      exists res, w3, w'. split; [exact Hset |]. split; [exact Hrun |].
      split; [exact Ht |]. split; [exact Hrt |]. split; [exact Hmsg | exact Hdb].
  - intros w.
    set (w0 := snd (@auth_handler._decode_access_token Demo.settings Demo.refresh_token w)).
    set (w1 := snd (RedisService.get "session:VPB-SME-1234567890" w0)).
    set (w2 := snd (@PostloginService.verification python_json Demo.settings (PStr "SME")
                      (Demo.camel_record "valid_token_key_123") w1)).
    destruct (proj2 (@persist_failure_still_succeeds python_json Demo.settings)
                Demo.refresh_token w (PStr "SME") "session:VPB-SME-1234567890"
                (Demo.camel_record "valid_token_key_123") w1 w2 (PBool true))
      as (res & wa & wb & wc & w' & stored & _ & _ & _ & _ & Hrun & Ht & Hrt & Hmsg & Hfail).
    + subst w1. demo_loads "valid_token_key_123" w0.
    + subst w2. run.
    + reflexivity.
    + destruct Hfail as (_ & Hdb); [right; left; subst w2 w1 w0 w; vm_compute; reflexivity |].
      exists res, w'. split; [exact Hrun |].
      split; [exact Ht |]. split; [exact Hrt |]. split; [exact Hmsg | exact Hdb].
Defined.

(** C8, witness: a write on a broken connection returns False; the same write
    on a sound one returns True. *)
Lemma store_outcomes_witness :
  fst (@RedisService.set python_json "k" (PDict [("a", PInt 1)]) (Some 60%Z)
         (with_faults [true] Demo.world)) = Return false
  /\ fst (@RedisService.set python_json "k" (PDict [("a", PInt 1)]) (Some 60%Z)
            Demo.world) = Return true.
Proof.
  split.
  - apply (proj1 (proj2 (proj2 (proj2 (proj2
             (@store_outcomes python_json "k" (PDict [("a", PInt 1)]) (Some 60%Z)
                (with_faults [true] Demo.world))))))).
    right. reflexivity.
  - apply (proj2 (proj2 (proj2 (proj2 (proj2 (proj2
             (@store_outcomes python_json "k" (PDict [("a", PInt 1)]) (Some 60%Z)
                Demo.world))))))
           (PyJson.dumps (PDict [("a", PInt 1)]))).
    split; [reflexivity |]. split; [reflexivity |].
    split; [eexists; split; reflexivity | unfold setex_safe; simpl; lia].
Defined.

(** C8, counterexample: a read of a key that the connected store does not
    have, and a read of a key that the store has over a broken connection,
    report the same thing. *)
Lemma get_absent_like_failure :
  let absent := Demo.world in
  let broken := with_faults [true] (Demo.with_entry "session:k" "{}" Demo.world) in
  w_redis absent = true /\ connection_fails absent = false
  /\ w_db absent !! "session:k" = None
  /\ connection_fails broken = true
  /\ w_db broken !! "session:k" = Some ("{}", Some 3600%Z)
  /\ fst (RedisService.get "session:k" absent) = Return None
  /\ fst (RedisService.get "session:k" broken) = Return None.
Proof. repeat split; vm_compute; reflexivity. Qed.

(** C9, witness: a payload with a user id and no request id, sent to the mock
    endpoint. *)
Lemma request_id_fallback_witness :
  exists (request_id : pyval) (w1 : World),
    @TokenVerificationService.request_id_header_value
      (sme_payload_of (PStr "valid_token_key_123") (PStr "1234567890") (PStr "")) Demo.world
    = (Return request_id, w1)
    /\ request_id = PStr "1234567890" /\ w1 = Demo.world.
Proof.
  destruct (@request_id_fallback python_json Demo.settings
              "http://localhost:8000/api/v1/" "test-api-key"
              (sme_payload_of (PStr "valid_token_key_123") (PStr "1234567890") (PStr ""))
              Demo.world eq_refl eq_refl eq_refl)
    as (request_id & w1 & Hval & _ & _ & Huser & _).
  exists request_id, w1. split; [exact Hval |]. exact (Huser eq_refl).
Defined.

(** C9, counterexample: a verification with an empty request id. The header
    of the one request that goes out is the user id, and no id was generated. *)
Lemma verify_token_sends_user_id :
  let w' := snd (Demo.verify "valid_token_key_123" "1234567890" "" Demo.world) in
  map (fun r => header "x-request-id" (headers r)) (w_sent w') = [Some "1234567890"]
  /\ w_uuid w' = w_uuid Demo.world.
Proof. vm_compute. split; reflexivity. Qed.

(** C10, witness: the token minted for the claims of the customer, decoded
    five seconds later. *)
Lemma token_round_trip_witness :
  exists (tok : Token) (w1 : World),
    @auth_handler.create_access_token Demo.settings Demo.claims Demo.world = (Return tok, w1)
    /\ token_truthy tok = true
    /\ fst (@auth_handler._decode_access_token Demo.settings tok
              (with_clock 1700000005000 [] Demo.world))
       = Return (PDict Demo.claims).
Proof.
  destruct (proj1 (@token_round_trip Demo.settings Demo.claims Demo.world))
    as (tok & w1 & Hmint & Hne & Hback & _).
  exists tok, w1. split; [exact Hmint |]. split; [exact Hne |].
  apply Hback. vm_compute. reflexivity.
Defined.

(** * Further properties of the code *)

(** ** The session store: reading back, other keys, deleting *)

Section StoreMore.
Context `{!Json}.

(** [set] returns True only for a write that goes through. *)
Lemma set_true_inv (key : string) (value : pyval) (ttl : option Z) (w w1 : World) :
  RedisService.set key value ttl w = (Return true, w1) ->
  exists text, write_applied value ttl w text.
Proof.
  intros Hset. destruct (write_fails_or_applied value ttl w) as [Hfail | Hok]; [| exact Hok].
  destruct (set_fails key value ttl w Hfail) as (w2 & Hs & _). congruence.
Qed.

(** X1. When [set] returns True, a [get] of the same key that follows, over a
    connection that holds, returns the value as it was serialised: a str as
    it is, an int in decimal, a dict or a list as its JSON text. *)
Theorem set_then_get (key : string) (value : pyval) (ttl : option Z) (w w1 : World) :
  RedisService.set key value ttl w = (Return true, w1) ->
  connection_fails w1 = false ->
  exists (v : pyval) (text : string) (w2 : World),
    RedisService.stored_value value = Some v
    /\ redis_encode v = Some text
    /\ RedisService.get key w1 = (Return (Some text), w2)
    /\ (forall s, value = PStr s -> text = s)
    /\ (forall d, value = PDict d -> json_dumps value = Some text).
Proof.
  intros Hset Hconn.
  destruct (set_true_inv key value ttl w w1 Hset) as (text & Hok).
  destruct (set_applied key value ttl w text Hok) as (w1' & Hs & Hdb & Hr & _).
  rewrite Hs in Hset. inversion Hset; subst w1'.
  destruct Hok as (Hred & _ & (v & Hv & He) & _).
  destruct (get_spec key w1) as (w2 & Hg & _).
  rewrite Hr, Hred, Hconn, Hdb, lookup_insert_eq in Hg. simpl in Hg.
  exists v, text, w2. repeat split; auto.
  - intros s ->. simpl in Hv. inversion Hv; subst v. simpl in He. congruence.
  - intros d ->. simpl in Hv. destruct (json_dumps (PDict d)) as [t|]; [| discriminate].
    inversion Hv; subst v. simpl in He. congruence.
Qed.

(** X2. Whatever [set] returns, it leaves every other key of the store as it
    was; and [get] changes no key at all. *)
Theorem set_get_other_keys (key key' : string) (value : pyval) (ttl : option Z) (w : World) :
  key <> key' ->
  w_db (snd (RedisService.set key value ttl w)) !! key' = w_db w !! key'
  /\ w_db (snd (RedisService.get key w)) = w_db w.
Proof.
  intros Hne. split.
  - destruct (write_fails_or_applied value ttl w) as [Hfail | (text & Hok)].
    + destruct (set_fails key value ttl w Hfail) as (w1 & Hs & Hdb & _).
      rewrite Hs. simpl. rewrite Hdb. reflexivity.
    + destruct (set_applied key value ttl w text Hok) as (w1 & Hs & Hdb & _).
      rewrite Hs. simpl. rewrite Hdb. apply lookup_insert_ne. exact Hne.
  - destruct (get_spec key w) as (w1 & Hg & Hdb & _). rewrite Hg. exact Hdb.
Qed.

(** X3. [set] returns True only when the time to live is not negative and
    not beyond what the server takes, and the key then holds the value as it
    was serialised (a str as it is, an int in decimal, a dict or a list as
    its JSON text) with that time to live; a time to live of 0, like none at
    all, stores the key without expiry. A time to live that is negative, or
    whose milliseconds do not fit 64 bits, makes [set] return False and
    stores nothing. *)
Theorem set_time_to_live (key : string) (value : pyval) (ttl : option Z) (w : World) :
  (forall w1, @RedisService.set _ key value ttl w = (Return true, w1) ->
     exists (v : pyval) (text : string),
       RedisService.stored_value value = Some v
       /\ redis_encode v = Some text
       /\ (forall s, value = PStr s -> text = s)
       /\ (forall d, value = PDict d -> json_dumps value = Some text)
       /\ w_db w1 !! key
          = Some (text, match ttl with
                        | Some seconds => if (seconds =? 0)%Z then None else Some seconds
                        | None => None
                        end)
       /\ match ttl with
          | Some seconds => (0 <= seconds <= 9223372036854775)%Z
          | None => True
          end)
  /\ (forall seconds, ttl = Some seconds ->
        (seconds < 0 \/ 9223372036854775 < seconds)%Z ->
        exists w1, RedisService.set key value ttl w = (Return false, w1)
                   /\ w_db w1 = w_db w).
Proof.
  split.
  - intros w1 Hset.
    destruct (set_true_inv key value ttl w w1 Hset) as (text & Hok).
    destruct (set_applied key value ttl w text Hok) as (w1' & Hs & Hdb & _).
    assert (w1' = w1) as -> by congruence.
    destruct Hok as (_ & _ & (v & Hv & He) & Httl).
    exists v, text. split; [exact Hv |]. split; [exact He |].
    split; [| split; [| split]].
    + intros s ->. simpl in Hv. inversion Hv; subst v. simpl in He. congruence.
    + intros d ->. simpl in Hv. destruct (json_dumps (PDict d)) as [t|]; [| discriminate].
      inversion Hv; subst v. simpl in He. congruence.
    + rewrite Hdb, lookup_insert_eq. reflexivity.
    + exact Httl.
  - intros seconds -> Hbad.
    destruct (set_fails key value (Some seconds) w) as (w1 & Hs & Hdb & _).
    + do 4 right. exact Hbad.
    + exists w1. split; assumption.
Qed.

End StoreMore.

(** X1, witness: a dict written to the empty store of the example deployment
    and read back. *)
Lemma set_then_get_witness :
  let w1 := snd (@RedisService.set python_json "k" (PDict [("a", PInt 1)]) (Some 60%Z)
                   Demo.world) in
  exists (v : pyval) (text : string) (w2 : World),
    @RedisService.stored_value python_json (PDict [("a", PInt 1)]) = Some v
    /\ redis_encode v = Some text
    /\ RedisService.get "k" w1 = (Return (Some text), w2)
    /\ (forall s, PDict [("a", PInt 1)] = PStr s -> text = s)
    /\ (forall d, PDict [("a", PInt 1)] = PDict d
                  -> @json_dumps python_json (PDict [("a", PInt 1)]) = Some text).
Proof.
  intros w1.
  apply (@set_then_get python_json "k" (PDict [("a", PInt 1)]) (Some 60%Z) Demo.world w1).
  - subst w1. run.
  - subst w1. vm_compute. reflexivity.
Defined.

(** X2, witness: a write under one key of a store that holds another. *)
Lemma set_get_other_keys_witness :
  let w := Demo.with_entry "session:a" "{}" Demo.world in
  w_db (snd (@RedisService.set python_json "session:b" (PStr "x") None w)) !! "session:a"
  = w_db w !! "session:a"
  /\ w_db (snd (RedisService.get "session:b" w)) = w_db w.
Proof.
  intros w.
  apply (@set_get_other_keys python_json "session:b" "session:a" (PStr "x") None w).
  discriminate.
Defined.


(** ** Deleting and looking for a key *)

(** [delete] in every world: it returns, True exactly when the client is
    connected, the connection holds and the key was there; the key is then
    gone; nothing else changes but the connection's script. *)
Lemma delete_spec (key : string) (w : World) :
  exists w',
    RedisServiceKeys.delete key w
    = (Return (healthy w && bool_decide (is_Some (w_db w !! key))), w')
    /\ w_db w' = (if healthy w then base.delete key (w_db w) else w_db w)
    /\ w_redis w' = w_redis w /\ w_now w' = w_now w
    /\ w_later w' = w_later w /\ w_uuid w' = w_uuid w /\ w_sent w' = w_sent w
    /\ w_http w' = w_http w.
Proof.
  unfold RedisServiceKeys.delete, RedisService.require_client, redis_DEL, redis_command,
    healthy, connection_fails.
  unfold_monad.
  destruct (w_redis w) eqn:Hr; simpl.
  - destruct (w_faults w) as [|[] r] eqn:Hf; simpl.
    + destruct (w_db w !! key) as [e|] eqn:Hk; simpl; eexists; repeat split; auto.
      simpl. symmetry. apply delete_id. exact Hk.
    + eexists; repeat split; auto.
    + destruct (w_db w !! key) as [e|] eqn:Hk; simpl; eexists; repeat split; auto.
      simpl. symmetry. apply delete_id. exact Hk.
  - eexists; repeat split; auto.
Qed.

(** [exists] in every world: it returns, True exactly when the client is
    connected, the connection holds and the key is there; the store is as it
    was. *)
Lemma exists_spec (key : string) (w : World) :
  exists w',
    RedisServiceKeys.exists_ key w
    = (Return (healthy w && bool_decide (is_Some (w_db w !! key))), w')
    /\ w_db w' = w_db w
    /\ w_redis w' = w_redis w /\ w_now w' = w_now w
    /\ w_later w' = w_later w /\ w_uuid w' = w_uuid w /\ w_sent w' = w_sent w
    /\ w_http w' = w_http w.
Proof.
  unfold RedisServiceKeys.exists_, RedisService.require_client, redis_EXISTS, redis_command,
    healthy, connection_fails.
  unfold_monad.
  destruct (w_redis w) eqn:Hr; simpl.
  - destruct (w_faults w) as [|[] r] eqn:Hf; simpl;
      try (destruct (w_db w !! key) as [e|] eqn:Hk; simpl); eexists; repeat split; auto.
  - eexists; repeat split; auto.
Qed.



(** X5. [exists] never raises and never changes the store, and it agrees with
    [get]: it returns True exactly when [get], in the same world, returns a
    value. A key the store does not have, a client that is not connected and
    a broken connection all give False. *)
Theorem exists_agrees_with_get (key : string) (w : World) :
  exists (b : bool) (w1 : World),
    RedisServiceKeys.exists_ key w = (Return b, w1)
    /\ w_db w1 = w_db w
    /\ (b = true <-> exists text, fst (RedisService.get key w) = Return (Some text))
    /\ (w_db w !! key = None \/ w_redis w = false \/ connection_fails w = true -> b = false).
Proof.
  destruct (exists_spec key w) as (w1 & He & Hdb & _).
  destruct (get_spec key w) as (w2 & Hg & _).
  eexists. exists w1. split; [exact He |]. split; [exact Hdb |].
  rewrite Hg. unfold healthy. simpl.
  destruct (w_redis w); simpl.
  - destruct (connection_fails w); simpl.
    + split; [| intros _; reflexivity]. split; [discriminate | intros (t & Ht); discriminate].
    + destruct (w_db w !! key) as [[t e]|] eqn:Hk; simpl.
      * split.
        -- split; [intros _; exists t; reflexivity | reflexivity].
        -- intros [Hx | [Hx | Hx]]; discriminate.
      * split.
        -- split; [discriminate | intros (t & Ht); discriminate].
        -- reflexivity.
  - split; [| intros _; reflexivity]. split; [discriminate | intros (t & Ht); discriminate].
Qed.

(** X6. A key that [set] reports written is found by [exists] and removed by
    [delete], over a connection that holds; the store is then what it was
    before the write, less that key. *)
Theorem set_then_delete `{!Json} (key : string) (value : pyval) (ttl : option Z)
    (w w1 : World) :
  RedisService.set key value ttl w = (Return true, w1) ->
  connection_fails w1 = false ->
  fst (RedisServiceKeys.exists_ key w1) = Return true
  /\ exists w2, RedisServiceKeys.delete key w1 = (Return true, w2)
                /\ w_db w2 = base.delete key (w_db w).
Proof.
  intros Hset Hconn.
  destruct (set_true_inv key value ttl w w1 Hset) as (text & Hok).
  destruct (set_applied key value ttl w text Hok) as (w1' & Hs & Hdb & Hr & _).
  assert (w1' = w1) as -> by congruence.
  destruct Hok as (Hred & _).
  assert (Hh : healthy w1 = true) by (unfold healthy; rewrite Hr, Hred, Hconn; reflexivity).
  assert (Hk : w_db w1 !! key = Some (text, expiry ttl))
    by (rewrite Hdb; apply lookup_insert_eq).
  split.
  - destruct (exists_spec key w1) as (w2 & He & _). rewrite He, Hh, Hk. reflexivity.
  - destruct (delete_spec key w1) as (w2 & Hd & Hdb2 & _).
    exists w2. rewrite Hd, Hh, Hk. split; [reflexivity |].
    rewrite Hdb2, Hh, Hdb. apply delete_insert_eq.
Qed.

(** X6, witness: a session record written to the example store, found and
    deleted. *)
Lemma set_then_delete_witness :
  let w1 := snd (@RedisService.set python_json "k" (PDict [("a", PInt 1)]) (Some 60%Z)
                   Demo.world) in
  fst (RedisServiceKeys.exists_ "k" w1) = Return true
  /\ exists w2, RedisServiceKeys.delete "k" w1 = (Return true, w2)
                /\ w_db w2 = base.delete "k" (w_db Demo.world).
Proof.
  intros w1.
  apply (@set_then_delete python_json "k" (PDict [("a", PInt 1)]) (Some 60%Z) Demo.world w1).
  - subst w1. run.
  - subst w1. vm_compute. reflexivity.
Defined.

(** ** The verifier: configuration, what it sends, what it leaves alone *)

Lemma env_value_undefined (v : option string) :
  TokenVerificationService.env_value v = None <-> undefined v.
Proof.
  unfold undefined, TokenVerificationService.env_value.
  destruct v as [s|]; [| tauto].
  destruct (String.eqb_spec s ""); subst; split; try tauto; try discriminate.
  - intros [Hx | Hx]; [discriminate | congruence].
Qed.

Lemma env_value_defined (s : string) :
  s <> "" -> TokenVerificationService.env_value (Some s) = Some s.
Proof.
  intros Hs. unfold TokenVerificationService.env_value.
  destruct (String.eqb_spec s ""); [contradiction | reflexivity].
Qed.

Lemma env_value_Some (v : option string) (s : string) :
  TokenVerificationService.env_value v = Some s -> v = Some s /\ s <> "".
Proof.
  unfold TokenVerificationService.env_value. destruct v as [t|]; [| discriminate].
  destruct (String.eqb_spec t ""); [discriminate |].
  intros Heq. inversion Heq; subst. split; [reflexivity | assumption].
Qed.

(** [rstrip('/')] takes no notice of one more slash at the end. *)
Lemma rstrip_slash_app_slash (s : string) : rstrip_slash (s +:+ "/") = rstrip_slash s.
Proof.
  induction s as [|c r IH]; [reflexivity |].
  simpl. rewrite IH. reflexivity.
Qed.

(** What [rstrip('/')] returns does not end in a slash. *)
Lemma rstrip_slash_no_slash (s : string) (t : string) :
  rstrip_slash s <> t +:+ "/".
Proof.
  revert t. induction s as [|c r IH]; intros t.
  - destruct t; discriminate.
  - simpl. destruct (rstrip_slash r) as [|c' r'] eqn:Hr.
    + destruct (Ascii.eqb_spec c "/") as [->|Hc].
      * destruct t; discriminate.
      * destruct t as [|d t']; simpl; intros Heq; inversion Heq; subst.
        -- apply Hc. reflexivity.
        -- destruct t'; discriminate.
    + destruct t as [|d t']; simpl; intros Heq; inversion Heq; subst.
      eapply IH. eassumption.
Qed.

Section VerifierMore.
Context `{!Json} `{!Settings}.

(** Without a base URL, and with a base URL but without an API key, the
    verification stops at the configuration. *)
Lemma verify_token_undefined (token_key user_id request_id : pyval) (w : World) :
  truthy user_id = true ->
  (undefined SME_VERIFY_BASE_URL ->
   TokenVerificationService.verify_token (PStr "SME") token_key user_id request_id w
   = (Raise (HTTPException 500 "SME_VERIFY_BASE_URL is not defined"), w))
  /\ (~ undefined SME_VERIFY_BASE_URL -> undefined SME_VERIFY_TOKEN_KEY ->
      TokenVerificationService.verify_token (PStr "SME") token_key user_id request_id w
      = (Raise (HTTPException 500 "SME_VERIFY_TOKEN_KEY is not defined"), w)).
Proof.
  intros Hu. unfold TokenVerificationService.verify_token.
  change (py_eq_str (PStr "SME") "SME") with true. cbv iota. rewrite Hu. cbn [negb].
  unfold TokenVerificationService.verify_sme_token. split.
  - intros Hb. apply env_value_undefined in Hb. rewrite Hb. reflexivity.
  - intros Hb Hk. apply env_value_undefined in Hk.
    destruct (TokenVerificationService.env_value SME_VERIFY_BASE_URL) eqn:He.
    + rewrite Hk. reflexivity.
    + exfalso. apply Hb. apply env_value_undefined. exact He.
Qed.

(** X7. A verifier without configuration refuses every verification with the
    internal error that names the variable: the base URL is looked at first,
    the API key second, and a variable set to the empty text counts as not
    set. Nothing is sent and the world is as it was. *)
Theorem verify_token_unconfigured (token_key user_id request_id : pyval) (w : World) :
  truthy user_id = true ->
  (undefined SME_VERIFY_BASE_URL ->
   TokenVerificationService.verify_token (PStr "SME") token_key user_id request_id w
   = (Raise (HTTPException 500 "SME_VERIFY_BASE_URL is not defined"), w))
  /\ (~ undefined SME_VERIFY_BASE_URL -> undefined SME_VERIFY_TOKEN_KEY ->
      TokenVerificationService.verify_token (PStr "SME") token_key user_id request_id w
      = (Raise (HTTPException 500 "SME_VERIFY_TOKEN_KEY is not defined"), w)).
Proof. exact (verify_token_undefined token_key user_id request_id w). Qed.

(** X8. Whatever [verify_token] is given and whatever it returns or raises,
    it leaves the store, the client, the connection and the clock as they
    were, generates no id, and sends at most one request, which goes to the
    validate-session path under the configured base URL. *)
Theorem verify_token_effects (bu token_key user_id request_id : pyval) (w : World) :
  let w' := snd (TokenVerificationService.verify_token bu token_key user_id request_id w) in
  w_db w' = w_db w /\ w_redis w' = w_redis w /\ w_faults w' = w_faults w
  /\ w_now w' = w_now w /\ w_later w' = w_later w /\ w_http w' = w_http w
  /\ w_uuid w' = w_uuid w
  /\ (w_sent w' = w_sent w
      \/ exists (req : http_request) (base_url : string),
           w_sent w' = req :: w_sent w
           /\ SME_VERIFY_BASE_URL = Some base_url
           /\ url req = rstrip_slash base_url
                        +:+ "/corporate/relationship-management/marketing/v1/customer/validate-session").
Proof.
  intros w'. subst w'.
  destruct (py_eq_str bu "SME") eqn:Hbu.
  2:{ rewrite verify_token_other_bu by exact Hbu. simpl. repeat split; auto. }
  assert (bu = PStr "SME") as ->.
  { destruct bu; try discriminate. simpl in Hbu. apply String.eqb_eq in Hbu. congruence. }
  destruct (truthy user_id) eqn:Hu.
  2:{ rewrite verify_token_requires_user by exact Hu. simpl. repeat split; auto. }
  destruct (TokenVerificationService.env_value SME_VERIFY_BASE_URL) as [base_url|] eqn:Hb.
  2:{ apply env_value_undefined in Hb.
      rewrite (proj1 (verify_token_undefined token_key user_id request_id w Hu) Hb).
      simpl. repeat split; auto. }
  destruct (TokenVerificationService.env_value SME_VERIFY_TOKEN_KEY) as [api_key|] eqn:Hk.
  2:{ apply env_value_undefined in Hk.
      assert (Hnb : ~ undefined SME_VERIFY_BASE_URL)
        by (intros Hx; apply env_value_undefined in Hx; congruence).
      rewrite (proj2 (verify_token_undefined token_key user_id request_id w Hu) Hnb Hk).
      simpl. repeat split; auto. }
  rewrite (verify_token_sme base_url api_key token_key user_id request_id w Hb Hk Hu).
  cbn [snd]. unfold outbound.
  destruct (TokenVerificationService.str_headers _) as [hs|]; cbn [sent];
    [| repeat (split; [reflexivity |]); left; reflexivity].
  destruct (w_http w _) eqn:Hh; simpl; repeat (split; [reflexivity |]);
    try (left; reflexivity);
    right; eexists; exists base_url; (split; [reflexivity |]);
    (split; [apply env_value_Some in Hb; tauto | reflexivity]).
Qed.

End VerifierMore.

(** X7, witness: the example deployment without a base URL, and with a base
    URL but an empty API key. *)
Lemma verify_token_unconfigured_witness :
  fst (@TokenVerificationService.verify_token python_json
         (with_verifier None (Some "test-api-key") Demo.settings)
         (PStr "SME") (PStr "valid_token_key_123") (PStr "1234567890") (PStr "") Demo.world)
  = Raise (HTTPException 500 "SME_VERIFY_BASE_URL is not defined")
  /\ fst (@TokenVerificationService.verify_token python_json
            (with_verifier (Some "http://localhost:8000") (Some "") Demo.settings)
            (PStr "SME") (PStr "valid_token_key_123") (PStr "1234567890") (PStr "") Demo.world)
     = Raise (HTTPException 500 "SME_VERIFY_TOKEN_KEY is not defined").
Proof.
  split.
  - rewrite (proj1 (@verify_token_unconfigured python_json
                      (with_verifier None (Some "test-api-key") Demo.settings)
                      (PStr "valid_token_key_123") (PStr "1234567890") (PStr "") Demo.world
                      eq_refl)).
    + reflexivity.
    + left. reflexivity.
  - rewrite (proj2 (@verify_token_unconfigured python_json
                      (with_verifier (Some "http://localhost:8000") (Some "") Demo.settings)
                      (PStr "valid_token_key_123") (PStr "1234567890") (PStr "") Demo.world
                      eq_refl)).
    + reflexivity.
    + intros [Hx | Hx]; discriminate.
    + right. reflexivity.
Defined.

(** X9. A slash more at the end of the configured base URL changes nothing:
    the verifier sends the same request and gives the same answer. (An empty
    base URL is not one with a slash less: it counts as not set.) *)
Theorem verify_token_trailing_slash `{!Json} (s : Settings) (base_url : string)
    (bu token_key user_id request_id : pyval) (w : World) :
  base_url <> "" ->
  @TokenVerificationService.verify_token _
    (with_verifier (Some (base_url +:+ "/")) (@SME_VERIFY_TOKEN_KEY s) s)
    bu token_key user_id request_id w
  = @TokenVerificationService.verify_token _
      (with_verifier (Some base_url) (@SME_VERIFY_TOKEN_KEY s) s)
      bu token_key user_id request_id w.
Proof.
  intros Hb.
  unfold TokenVerificationService.verify_token, TokenVerificationService.verify_sme_token.
  cbn [SME_VERIFY_BASE_URL SME_VERIFY_TOKEN_KEY with_verifier].
  rewrite (env_value_defined base_url Hb).
  rewrite env_value_defined by (destruct base_url; discriminate).
  rewrite rstrip_slash_app_slash. reflexivity.
Qed.

(** X9, witness: the base URL of the example deployment, which ends in a
    slash, and the same with two. *)
Lemma verify_token_trailing_slash_witness :
  @TokenVerificationService.verify_token python_json
    (with_verifier (Some ("http://localhost:8000/api/v1/" +:+ "/"))
       (@SME_VERIFY_TOKEN_KEY Demo.settings) Demo.settings)
    (PStr "SME") (PStr "valid_token_key_123") (PStr "1234567890") (PStr "") Demo.world
  = @TokenVerificationService.verify_token python_json
      (with_verifier (Some "http://localhost:8000/api/v1/")
         (@SME_VERIFY_TOKEN_KEY Demo.settings) Demo.settings)
      (PStr "SME") (PStr "valid_token_key_123") (PStr "1234567890") (PStr "") Demo.world.
Proof.
  apply (@verify_token_trailing_slash python_json Demo.settings
           "http://localhost:8000/api/v1/").
  discriminate.
Defined.

(** X10. The request of a verification, for a credential, a user id and a
    request id that are texts. Whatever is sent is one POST to the
    validate-session URL with the API key in Apikey, the credential in
    x-session-token, the user id in x-user-id, and in x-request-id the
    request id, or the user id when there is none: it is sent when the four
    values are ASCII and the client does not refuse the request. When one of
    the values is not ASCII, or the client refuses the request, nothing is
    sent and the verification is false. *)
Theorem verify_token_request `{!Json} `{!Settings} (base_url api_key t u r : string)
    (w : World) :
  TokenVerificationService.env_value SME_VERIFY_BASE_URL = Some base_url ->
  TokenVerificationService.env_value SME_VERIFY_TOKEN_KEY = Some api_key ->
  u <> "" ->
  let run := TokenVerificationService.verify_token (PStr "SME") (PStr t) (PStr u) (PStr r) w in
  let req :=
    {| url := rstrip_slash base_url
              +:+ "/corporate/relationship-management/marketing/v1/customer/validate-session";
       headers := [ ("Apikey", api_key);
                    ("Content-Type", "application/json");
                    ("x-request-id", if String.eqb r "" then u else r);
                    ("x-session-token", t);
                    ("x-user-id", u) ] |} in
  let ascii := TokenVerificationService.is_ascii api_key
               && TokenVerificationService.is_ascii (if String.eqb r "" then u else r)
               && TokenVerificationService.is_ascii t
               && TokenVerificationService.is_ascii u in
  (ascii = true -> w_http w req <> Refused -> w_sent (snd run) = req :: w_sent w)
  /\ (ascii = false \/ w_http w req = Refused -> run = (Return (PBool false), w))
  /\ (w_sent (snd run) = w_sent w \/ w_sent (snd run) = req :: w_sent w).
Proof.
  intros Hb Hk Hu run req ascii.
  assert (Htu : truthy (PStr u) = true) by (apply truthy_PStr; exact Hu).
  assert (Hout : outbound base_url api_key
                   (if truthy (PStr r) then PStr r else PStr u)
                   (sme_payload_of (PStr t) (PStr u) (PStr r))
                 = if ascii then Some req else None).
  { subst ascii req.
    unfold outbound, sme_payload_of, TokenVerificationService.sme_headers, dict_get_or.
    cbn [dict_lookup String.eqb Ascii.eqb Bool.eqb].
    change (truthy (PStr r)) with (negb (String.eqb r "")).
    change (TokenVerificationService.is_ascii "application/json") with true.
    destruct (String.eqb r ""); cbn [negb TokenVerificationService.str_headers];
      destruct (TokenVerificationService.is_ascii api_key);
      destruct (TokenVerificationService.is_ascii t);
      destruct (TokenVerificationService.is_ascii u);
      try destruct (TokenVerificationService.is_ascii r);
      reflexivity. }
  assert (Hrun : run = (Return (PBool (verdict w (if ascii then Some req else None))),
                        sent (if ascii then Some req else None) w)).
  { subst run. rewrite <- Hout.
    apply (verify_token_sme base_url api_key (PStr t) (PStr u) (PStr r) w Hb Hk Htu). }
  rewrite Hrun. clear Hrun Hout.
  destruct ascii; cbn [verdict sent snd].
  - destruct (w_http w req) as [|st body|] eqn:Hh; cbn [w_sent with_sent].
    + split; [reflexivity |]. split; [intros [Hx | Hx]; discriminate | right; reflexivity].
    + split; [reflexivity |]. split; [intros [Hx | Hx]; discriminate | right; reflexivity].
    + split; [intros _ Hx; contradiction |]. split; [reflexivity | left; reflexivity].
  - split; [discriminate |]. split; [reflexivity | left; reflexivity].
Qed.

(** X10, witness: the request of a verification in the example deployment,
    and a credential that starts with a space, which the client refuses. *)
Lemma verify_token_request_witness :
  w_sent (snd (Demo.verify "valid_token_key_123" "1234567890" "" Demo.world))
  = [ {| url := "http://localhost:8000/api/v1/corporate/relationship-management/marketing/v1/customer/validate-session";
         headers := [ ("Apikey", "test-api-key");
                      ("Content-Type", "application/json");
                      ("x-request-id", "1234567890");
                      ("x-session-token", "valid_token_key_123");
                      ("x-user-id", "1234567890") ] |} ]
  /\ Demo.verify " expired_token_key" "1234567890" "" Demo.world
     = (Return (PBool false), Demo.world).
Proof.
  split.
  - apply (proj1 (@verify_token_request python_json Demo.settings
                    "http://localhost:8000/api/v1/" "test-api-key"
                    "valid_token_key_123" "1234567890" "" Demo.world
                    eq_refl eq_refl ltac:(discriminate))).
    + reflexivity.
    + vm_compute. discriminate.
  - apply (proj1 (proj2 (@verify_token_request python_json Demo.settings
                           "http://localhost:8000/api/v1/" "test-api-key"
                           " expired_token_key" "1234567890" "" Demo.world
                           eq_refl eq_refl ltac:(discriminate)))).
    right. vm_compute. reflexivity.
Defined.

(** ** Dicts *)

Lemma dict_lookup_set_eq (d : dict) (k : string) (v : pyval) :
  dict_lookup (dict_set d k v) k = Some v.
Proof.
  induction d as [|[k' v'] r IH]; simpl.
  - rewrite String.eqb_refl. reflexivity.
  - destruct (String.eqb k' k) eqn:He; simpl; rewrite He; [reflexivity | exact IH].
Qed.

Lemma dict_lookup_set_ne (d : dict) (k k' : string) (v : pyval) :
  k <> k' -> dict_lookup (dict_set d k v) k' = dict_lookup d k'.
Proof.
  intros Hne. induction d as [|[k0 v0] r IH]; simpl.
  - destruct (String.eqb_spec k k'); [contradiction | reflexivity].
  - destruct (String.eqb_spec k0 k) as [->|Hk0]; simpl.
    + destruct (String.eqb_spec k k'); [contradiction | reflexivity].
    + destruct (String.eqb k0 k'); [reflexivity | exact IH].
Qed.

(** ** Renewal: where it stops, what it writes, what its tokens carry *)

Section RenewalMore.
Context `{!Json} `{!Settings}.

(** A renewal either stops before the verifier is called, with one of the
    errors of its first steps and the store and the requests sent as they
    were, or it loads its record. *)
Lemma renew_cases (rt : Token) (w : World) :
  (exists e wk, PostloginService.renew_postlogin_user_token rt w = (Raise e, wk)
                /\ w_db wk = w_db w /\ w_sent wk = w_sent w
                /\ (token_truthy rt = false
                     /\ e = HTTPException 400 "Refresh token is required"
                    \/ token_truthy rt = true /\ In e errors_before_verifier))
  \/ (exists bu key record w1, renewal_loads rt w bu key record w1).
Proof.
  destruct (token_truthy rt) eqn:Htok.
  2:{ left. exists (HTTPException 400 "Refresh token is required"), w.
      split; [| split; [reflexivity | split; [reflexivity | left; split; reflexivity]]].
      unfold PostloginService.renew_postlogin_user_token. rewrite Htok. reflexivity. }
  assert (Hcat : forall e, In e errors_before_verifier ->
            true = false /\ e = HTTPException 400 "Refresh token is required"
            \/ true = true /\ In e errors_before_verifier) by (intros e He; right; auto).
  destruct (decode_cases rt w) as (w0 & Hc & [(claims & Hd) | (code & detail & Hd)]).
  2:{ left. exists (HTTPException 400 "Invalid refresh token"), w0.
      split; [apply (renew_undecodable rt w w0 _ Htok Hd) |].
      split; [apply Hc |]. split; [apply Hc |]. apply Hcat. simpl. tauto. }
  assert (Hdb0 : w_db w0 = w_db w) by apply Hc.
  assert (Hs0 : w_sent w0 = w_sent w) by apply Hc.
  set (key := "session:" +:+ py_str (dict_get claims "chatUsername")).
  pose proof (renew_claims_incomplete rt w w0 claims Htok Hd) as Hlack.
  destruct (truthy (dict_get claims "chatUsername")) eqn:Hcu;
    [| left; do 2 eexists; split; [exact (Hlack (or_introl eq_refl)) |];
       split; [assumption |]; split; [assumption |]; apply Hcat; simpl; tauto].
  destruct (truthy (dict_get claims "bu")) eqn:Hbu;
    [| left; do 2 eexists; split; [exact (Hlack (or_intror eq_refl)) |];
       split; [assumption |]; split; [assumption |]; apply Hcat; simpl; tauto].
  clear Hlack.
  destruct (get_spec key w0) as (w1 & Hg & Hdb1 & _ & _ & _ & _ & Hs1 & _).
  assert (Hdb : w_db w1 = w_db w) by congruence.
  assert (Hs : w_sent w1 = w_sent w) by congruence.
  destruct (if w_redis w0 && negb (connection_fails w0) then fst <$> w_db w0 !! key else None)
    as [text|] eqn:Hread.
  2:{ left. exists (HTTPException 404 "Session not found"), w1.
      split; [| split; [assumption |]; split; [assumption |]; apply Hcat; simpl; tauto].
      renew_decoded Htok Hd. rewrite Hcu, Hbu. cbn [negb orb]. fold key.
      unfold bind at 1. rewrite Hg. reflexivity. }
  destruct (String.eqb_spec text "") as [Hempty | Hne].
  { left. exists (HTTPException 404 "Session not found"), w1.
    split; [| split; [assumption |]; split; [assumption |]; apply Hcat; simpl; tauto].
    renew_decoded Htok Hd. rewrite Hcu, Hbu. cbn [negb orb]. fold key.
    unfold bind at 1. rewrite Hg. subst text. reflexivity. }
  destruct (json_loads text) as [parsed|] eqn:Hparse.
  2:{ left. exists (HTTPException 500 "Invalid session data"), w1.
      split; [| split; [assumption |]; split; [assumption |]; apply Hcat; simpl; tauto].
      renew_decoded Htok Hd. rewrite Hcu, Hbu. cbn [negb orb]. fold key.
      unfold bind at 1. rewrite Hg.
      destruct (String.eqb_spec text "") as [Heq|_]; [contradiction |].
      unfold bind at 1. rewrite Hparse. reflexivity. }
  assert (Hnodict : (forall d, parsed <> PDict d) ->
            PostloginService.renew_postlogin_user_token rt w
            = (Raise (Exception "AttributeError"), w1)).
  { intros Hnd.
    renew_decoded Htok Hd. rewrite Hcu, Hbu. cbn [negb orb]. fold key.
    unfold bind at 1. rewrite Hg.
    destruct (String.eqb_spec text "") as [Heq|_]; [contradiction |].
    unfold bind at 1. rewrite Hparse. unfold ret at 1.
    destruct parsed; try reflexivity. exfalso. eapply Hnd. reflexivity. }
  destruct parsed as [| | | | |record];
    try (left; do 2 eexists; split; [apply Hnodict; discriminate |];
         split; [assumption |]; split; [assumption |]; apply Hcat; simpl; tauto).
  clear Hnodict.
  destruct (truthy (dict_get record "tokenKey")) eqn:Htk.
  2:{ left. exists (HTTPException 400 "Invalid tokenKey"), w1.
      split; [| split; [assumption |]; split; [assumption |]; apply Hcat; simpl; tauto].
      renew_decoded Htok Hd. rewrite Hcu, Hbu. cbn [negb orb]. fold key.
      unfold bind at 1. rewrite Hg.
      destruct (String.eqb_spec text "") as [Heq|_]; [contradiction |].
      unfold bind at 1. rewrite Hparse. unfold ret at 1. rewrite Htk. reflexivity. }
  right. exists (dict_get claims "bu"), key, record, w1.
  exists claims, w0, text. repeat split; auto.
Qed.

(** The claims and the key of a loaded record are those of the token: two
    loadings of the same renewal agree. *)
Lemma renewal_loads_unique (rt : Token) (w : World) (bu bu' : pyval) (key key' : string)
    (record record' : dict) (w1 w1' : World) :
  renewal_loads rt w bu key record w1 ->
  renewal_loads rt w bu' key' record' w1' ->
  bu' = bu /\ key' = key /\ record' = record /\ w1' = w1.
Proof.
  intros (c & w0 & t & _ & Hd & _ & Hbu & _ & Hk & Hg & _ & Hp & _)
         (c' & w0' & t' & _ & Hd' & _ & Hbu' & _ & Hk' & Hg' & _ & Hp' & _).
  rewrite Hd in Hd'. inversion Hd'; subst c' w0'.
  subst bu bu' key key'. rewrite Hg in Hg'. inversion Hg'; subst t' w1'.
  rewrite Hp in Hp'. inversion Hp'; subst record'. repeat split.
Qed.


(** X11. A renewal does not turn the exceptions of the verifier into a
    rejection: once the record is loaded, a business unit other than SME in
    the claims gives 400 Missing BU, a record without a cif gives 400 Missing
    userId, and a verifier without base URL gives its internal error. In each
    case no request has been sent and the store is as it was. *)
Theorem renew_verifier_errors (rt : Token) (w : World) (bu : pyval) (key : string)
    (record : dict) (w1 : World) :
  renewal_loads rt w bu key record w1 ->
  (py_eq_str bu "SME" = false ->
   PostloginService.renew_postlogin_user_token rt w
   = (Raise (HTTPException 400 "Missing BU"), w1))
  /\ (bu = PStr "SME" -> truthy (dict_get record "cif") = false ->
      PostloginService.renew_postlogin_user_token rt w
      = (Raise (HTTPException 400 "Missing userId"), w1))
  /\ (bu = PStr "SME" -> truthy (dict_get record "cif") = true ->
      undefined SME_VERIFY_BASE_URL ->
      PostloginService.renew_postlogin_user_token rt w
      = (Raise (HTTPException 500 "SME_VERIFY_BASE_URL is not defined"), w1))
  /\ w_db w1 = w_db w /\ w_sent w1 = w_sent w.
Proof.
  intros Hload.
  rewrite (renew_after_load rt w bu key record w1 Hload).
  unfold PostloginService.verification, bind.
  split; [| split; [| split]].
  - intros Hbu. rewrite verify_token_other_bu by exact Hbu. reflexivity.
  - intros -> Hcif. rewrite verify_token_requires_user by exact Hcif. reflexivity.
  - intros -> Hcif Hb.
    rewrite (proj1 (verify_token_undefined _ _ _ w1 Hcif) Hb). reflexivity.
  - apply renewal_loads_frame in Hload. tauto.
Qed.

(** X12. A renewal changes no key of the store but the one of its session:
    if a key holds something else after the renewal, whatever the renewal
    returned or raised, then the key is session:<principal of the claims>,
    the record had been loaded and the verifier had returned a true value. *)
Theorem renew_changes_only_its_key (rt : Token) (w : World) (k : string) :
  w_db (snd (PostloginService.renew_postlogin_user_token rt w)) !! k <> w_db w !! k ->
  exists (bu : pyval) (record : dict) (w1 w2 : World) (v : pyval),
    renewal_loads rt w bu k record w1
    /\ PostloginService.verification bu record w1 = (Return v, w2)
    /\ truthy v = true.
Proof.
  intros Hdiff.
  destruct (PostloginService.renew_postlogin_user_token rt w) as [out w'] eqn:Hrun.
  cbn [snd] in Hdiff.
  assert (Hne : w_db w' <> w_db w) by (intros Heq; apply Hdiff; rewrite Heq; reflexivity).
  destruct (renew_writes_only_after_verification rt w w' out Hrun Hne)
    as (bu & key & record & w1 & w2 & v & Hload & Hver & Hv).
  destruct (String.eqb_spec key k) as [<-|Hk]; [exists bu, record, w1, w2, v; auto |].
  exfalso. apply Hdiff.
  rewrite (renew_after_load rt w bu key record w1 Hload) in Hrun.
  unfold bind in Hrun. rewrite Hver, Hv in Hrun. cbn [negb] in Hrun.
  destruct (renew_try_block_spec bu key record w2)
    as (w3 & w'' & stored & e1 & e2 & Hc & Hset & Hblock).
  rewrite Hblock in Hrun. inversion Hrun; subst out w''. clear Hrun.
  assert (Hdb3 : w_db w3 = w_db w).
  { apply verify_token_frame in Hver. destruct Hver as (Hdb2 & _).
    apply renewal_loads_frame in Hload. destruct Hload as (Hdb1 & _).
    destruct Hc as (_ & Hdbc & _). congruence. }
  rewrite <- Hdb3.
  destruct (write_fails_or_applied (PDict (renewed_record record (w_now w2)))
              (Some SME_SESSION_TTL) w3) as [Hfail | (text & Hok)].
  - destruct (set_fails key _ _ w3 Hfail) as (wx & Hs & Hdbx & _).
    rewrite Hset in Hs. inversion Hs; subst. rewrite Hdbx. reflexivity.
  - destruct (set_applied key _ _ w3 text Hok) as (wx & Hs & Hdbx & _).
    rewrite Hset in Hs. inversion Hs; subst. rewrite Hdbx.
    apply lookup_insert_ne. exact Hk.
Qed.

(** X13. A renewal returns tokens only after it has loaded the record and the
    verifier has returned a true value. Both tokens are signed for claims
    read from the record, not from the old token: chatUsername, cif and
    tokenKey are the values of the keys chat_username, cif and token_key of
    the record (None for a key the record does not have); only bu is the one
    of the old claims. *)
Theorem renew_returns_inv (rt : Token) (w w' : World) (res : TokenResult) :
  PostloginService.renew_postlogin_user_token rt w = (Return res, w') ->
  exists (bu : pyval) (key : string) (record : dict) (w1 w2 : World) (v : pyval)
         (e1 e2 : Z),
    renewal_loads rt w bu key record w1
    /\ PostloginService.verification bu record w1 = (Return v, w2)
    /\ truthy v = true
    /\ (let claims := [ ("chatUsername", dict_get record "chat_username");
                        ("bu", bu);
                        ("cif", dict_get record "cif");
                        ("tokenKey", dict_get record "token_key") ] in
        token res = Signed SECRET_KEY claims e1
        /\ refreshToken res = Signed SECRET_KEY claims e2)
    /\ message res = py_str bu +:+ " token renewed successfully".
Proof.
  intros Hrun.
  destruct (renew_cases rt w) as [(e & wk & Hstop & _) | (bu & key & record & w1 & Hload)];
    [congruence |].
  pose proof Hrun as Hrun'.
  rewrite (renew_after_load rt w bu key record w1 Hload) in Hrun'.
  unfold bind in Hrun'.
  destruct (PostloginService.verification bu record w1) as [[v|e] w2] eqn:Hver;
    [| discriminate].
  destruct (truthy v) eqn:Hv; cbn [negb] in Hrun'; [| discriminate].
  destruct (renew_try_block_spec bu key record w2)
    as (w3 & w'' & stored & e1 & e2 & Hc & Hset & Hblock).
  rewrite Hblock in Hrun'. inversion Hrun'; subst res w''. clear Hrun'.
  exists bu, key, record, w1, w2, v, e1, e2.
  split; [exact Hload |]. split; [exact Hver |]. split; [exact Hv |].
  cbn [token refreshToken message]. split; [| reflexivity].
  unfold PostloginService.token_data, renewed_record, dict_get.
  rewrite !dict_lookup_set_ne by discriminate. split; reflexivity.
Qed.

(** X14. The refresh token that a renewal returns for a record without the
    key chat_username names no principal: the next renewal with it, in any
    world, is refused with 400 Invalid refresh token. *)
Theorem renewed_token_needs_chat_username (rt : Token) (w w' : World) (res : TokenResult)
    (bu : pyval) (key : string) (record : dict) (w1 : World) :
  renewal_loads rt w bu key record w1 ->
  PostloginService.renew_postlogin_user_token rt w = (Return res, w') ->
  dict_lookup record "chat_username" = None ->
  forall w'' : World,
    fst (PostloginService.renew_postlogin_user_token (refreshToken res) w'')
    = Raise (HTTPException 400 "Invalid refresh token").
Proof.
  intros Hload Hrun Hnone w''.
  rewrite (renew_after_load rt w bu key record w1 Hload) in Hrun.
  unfold bind in Hrun.
  destruct (PostloginService.verification bu record w1) as [[v|e] w2] eqn:Hver;
    [| discriminate].
  destruct (truthy v) eqn:Hv; cbn [negb] in Hrun; [| discriminate].
  destruct (renew_try_block_spec bu key record w2)
    as (w3 & wx & stored & e1 & e2 & Hc & Hset & Hblock).
  rewrite Hblock in Hrun. inversion Hrun; subst res wx. clear Hrun.
  cbn [refreshToken].
  set (claims := PostloginService.token_data bu (renewed_record record (w_now w2))).
  assert (Hcu : truthy (dict_get claims "chatUsername") = false).
  { unfold claims, PostloginService.token_data, renewed_record, dict_get at 1.
    cbn [dict_lookup String.eqb Ascii.eqb Bool.eqb]. unfold dict_get.
    rewrite dict_lookup_set_ne by discriminate. rewrite Hnone. reflexivity. }
  destruct (decode_cases (Signed SECRET_KEY claims e2) w'')
    as (w0 & _ & [(c & Hd) | (code & detail & Hd)]).
  - assert (c = claims) as ->.
    { unfold auth_handler._decode_access_token in Hd. unfold_monad.
      rewrite String.eqb_refl in Hd. cbn [negb] in Hd.
      destruct (time_ms w'') as [[now|ex] wn]; [| discriminate].
      destruct (e2 <=? now)%Z; [discriminate |]. inversion Hd. reflexivity. }
    rewrite (renew_claims_incomplete (Signed SECRET_KEY claims e2) w'' w0 claims eq_refl Hd
               (or_introl Hcu)).
    reflexivity.
  - rewrite (renew_undecodable (Signed SECRET_KEY claims e2) w'' w0 _ eq_refl Hd).
    reflexivity.
Qed.

(** X15. What an accepted renewal writes back is the record it read with the
    key updated_at set to the time of the renewal: every other key keeps its
    value, so a creation time in the record is never changed. The text stored
    is the JSON of that record, with the full time to live. *)
Theorem renew_keeps_record (rt : Token) (w : World) (bu : pyval) (key : string)
    (record : dict) (w1 w2 : World) (v : pyval) (text : string) :
  renewal_loads rt w bu key record w1 ->
  PostloginService.verification bu record w1 = (Return v, w2) ->
  truthy v = true ->
  write_succeeds (PDict (renewed_record record (w_now w2))) (Some SME_SESSION_TTL) w2 text ->
  exists (written : dict),
    w_db (snd (PostloginService.renew_postlogin_user_token rt w)) !! key
    = Some (text, expiry (Some SME_SESSION_TTL))
    /\ json_dumps (PDict written) = Some text
    /\ dict_lookup written "updated_at" = Some (PInt (w_now w2))
    /\ (forall k, k <> "updated_at" -> dict_lookup written k = dict_lookup record k).
Proof.
  intros Hload Hver Hv Hwrite.
  destruct (renew_accepted_persists rt w bu key record w1 w2 v text Hload Hver Hv Hwrite)
    as (res & w' & Hrun & _ & _ & _ & Hdb).
  exists (renewed_record record (w_now w2)).
  rewrite Hrun. cbn [snd]. rewrite Hdb, lookup_insert_eq.
  split; [reflexivity |]. split.
  - destruct Hwrite as (_ & _ & (sv & Hsv & Henc) & _).
    unfold RedisService.stored_value in Hsv.
    destruct (json_dumps (PDict (renewed_record record (w_now w2)))) as [t|];
      [| discriminate].
    inversion Hsv; subst sv. simpl in Henc. congruence.
  - split; [apply dict_lookup_set_eq |].
    intros k Hk. apply dict_lookup_set_ne. congruence.
Qed.

End RenewalMore.

(** The renewal of the example on a record that has the key tokenKey has
    loaded its record. *)
Lemma demo_renewal_loads (rt : Token) (claims : dict) (bu : string) :
  rt = Signed "demo-signing-key" claims 1700001800000 ->
  dict_get claims "chatUsername" = PStr "VPB-SME-1234567890" ->
  dict_get claims "bu" = PStr bu ->
  bu <> "" ->
  let w := Demo.with_camel_record "valid_token_key_123" in
  let w0 := snd (@auth_handler._decode_access_token Demo.settings rt w) in
  let w1 := snd (RedisService.get "session:VPB-SME-1234567890" w0) in
  @renewal_loads python_json Demo.settings rt w (PStr bu) "session:VPB-SME-1234567890"
    (Demo.camel_record "valid_token_key_123") w1.
Proof.
  intros -> Hcu Hbu Hne w w0 w1.
  exists claims, w0, (PyJson.dumps (PDict (Demo.camel_record "valid_token_key_123"))).
  split; [reflexivity |].
  split; [subst w0 w; apply run_eta; reflexivity |].
  split; [rewrite Hcu; reflexivity |].
  split; [symmetry; exact Hbu |].
  split; [apply truthy_PStr; exact Hne |].
  split; [rewrite Hcu; reflexivity |].
  split.
  { assert (Hw0 : w_redis w0 && negb (connection_fails w0) = true
                  /\ w_db w0 = w_db w).
    { destruct (@decode_cases Demo.settings (Signed "demo-signing-key" claims 1700001800000) w)
        as (w0' & Hc & _).
      subst w0. split; reflexivity. }
    destruct Hw0 as (Hh & Hdb).
    destruct (get_spec "session:VPB-SME-1234567890" w0) as (wx & Hg & _).
    subst w1. rewrite Hg. cbn [snd]. rewrite Hh, Hdb. f_equal. }
  split; [discriminate |].
  split; vm_compute; reflexivity.
Qed.

(** X11, witness: a refresh token for the business unit RETAIL, with the
    record in the store: 400 Missing BU. *)
Lemma renew_verifier_errors_witness :
  fst (Demo.renew Cases.retail_refresh_token (Demo.with_camel_record "valid_token_key_123"))
  = Raise (HTTPException 400 "Missing BU").
Proof.
  pose proof (demo_renewal_loads Cases.retail_refresh_token _ "RETAIL" eq_refl eq_refl eq_refl
                ltac:(discriminate)) as Hload.
  cbv zeta in Hload.
  unfold Demo.renew.
  rewrite (proj1 (@renew_verifier_errors python_json Demo.settings _ _ _ _ _ _ Hload) eq_refl).
  reflexivity.
Defined.

(** X12, witness: the accepted renewal of the example changes the key of its
    session. *)
Lemma renew_changes_only_its_key_witness :
  exists (bu : pyval) (record : dict) (w1 w2 : World) (v : pyval),
    @renewal_loads python_json Demo.settings Demo.refresh_token
      (Demo.with_camel_record "valid_token_key_123") bu "session:VPB-SME-1234567890"
      record w1
    /\ @PostloginService.verification python_json Demo.settings bu record w1 = (Return v, w2)
    /\ truthy v = true.
Proof.
  apply (@renew_changes_only_its_key python_json Demo.settings Demo.refresh_token
           (Demo.with_camel_record "valid_token_key_123") "session:VPB-SME-1234567890").
  vm_compute. discriminate.
Defined.

(** X13, witness: the tokens of the accepted renewal of the example. *)
Lemma renew_returns_inv_witness :
  exists (bu : pyval) (key : string) (record : dict) (w1 w2 : World) (v : pyval)
         (e1 e2 : Z),
    @renewal_loads python_json Demo.settings Demo.refresh_token
      (Demo.with_camel_record "valid_token_key_123") bu key record w1
    /\ @PostloginService.verification python_json Demo.settings bu record w1 = (Return v, w2)
    /\ truthy v = true
    /\ (let claims := [ ("chatUsername", dict_get record "chat_username");
                        ("bu", bu);
                        ("cif", dict_get record "cif");
                        ("tokenKey", dict_get record "token_key") ] in
        token Cases.renewed = Signed "demo-signing-key" claims e1
        /\ refreshToken Cases.renewed = Signed "demo-signing-key" claims e2)
    /\ message Cases.renewed = py_str bu +:+ " token renewed successfully".
Proof.
  apply (@renew_returns_inv python_json Demo.settings Demo.refresh_token
           (Demo.with_camel_record "valid_token_key_123") Cases.after_renewal Cases.renewed).
  unfold Cases.after_renewal, Demo.renew. run.
Defined.

(** X14, witness: the refresh token of that renewal, used in the world the
    renewal left. *)
Lemma renewed_token_needs_chat_username_witness :
  fst (Demo.renew (refreshToken Cases.renewed) Cases.after_renewal)
  = Raise (HTTPException 400 "Invalid refresh token").
Proof.
  pose proof (demo_renewal_loads Demo.refresh_token _ "SME" eq_refl eq_refl eq_refl
                ltac:(discriminate)) as Hload.
  cbv zeta in Hload.
  apply (@renewed_token_needs_chat_username python_json Demo.settings Demo.refresh_token
           (Demo.with_camel_record "valid_token_key_123") Cases.after_renewal Cases.renewed
           _ _ _ _ Hload).
  - unfold Cases.after_renewal, Demo.renew. run.
  - reflexivity.
Defined.

(** X15, witness: the record that the accepted renewal of the example writes
    back. *)
Lemma renew_keeps_record_witness :
  exists (written : dict),
    w_db Cases.after_renewal !! "session:VPB-SME-1234567890"
    = Some (PyJson.dumps
              (PDict (Demo.camel_record "valid_token_key_123"
                        ++ [("updated_at", PInt 1700000000001)])),
            Some 3600%Z)
    /\ @json_dumps python_json (PDict written)
       = Some (PyJson.dumps
                 (PDict (Demo.camel_record "valid_token_key_123"
                           ++ [("updated_at", PInt 1700000000001)])))
    /\ dict_lookup written "updated_at" = Some (PInt 1700000000001)
    /\ (forall k, k <> "updated_at" ->
        dict_lookup written k = dict_lookup (Demo.camel_record "valid_token_key_123") k).
Proof.
  pose proof (demo_renewal_loads Demo.refresh_token _ "SME" eq_refl eq_refl eq_refl
                ltac:(discriminate)) as Hload.
  cbv zeta in Hload.
  set (w := Demo.with_camel_record "valid_token_key_123") in *.
  set (w1 := snd (RedisService.get "session:VPB-SME-1234567890"
                    (snd (@auth_handler._decode_access_token Demo.settings
                            Demo.refresh_token w)))) in *.
  set (w2 := snd (@PostloginService.verification python_json Demo.settings (PStr "SME")
                    (Demo.camel_record "valid_token_key_123") w1)).
  assert (Hver : @PostloginService.verification python_json Demo.settings (PStr "SME")
                   (Demo.camel_record "valid_token_key_123") w1 = (Return (PBool true), w2)).
  { subst w2 w1 w. run. }
  assert (Hnow : w_now w2 = 1700000000001%Z) by (subst w2 w1 w; vm_compute; reflexivity).
  assert (Hwrite : @write_succeeds python_json
                     (PDict (renewed_record (Demo.camel_record "valid_token_key_123")
                               (w_now w2)))
                     (Some (@SME_SESSION_TTL Demo.settings)) w2
                     (PyJson.dumps
                        (PDict (Demo.camel_record "valid_token_key_123"
                                  ++ [("updated_at", PInt 1700000000001)])))).
  { rewrite Hnow.
    split; [subst w2 w1 w; vm_compute; reflexivity |].
    split; [subst w2 w1 w; vm_compute; reflexivity |].
    split; [eexists; split; vm_compute; reflexivity | vm_compute; split; discriminate]. }
  destruct (@renew_keeps_record python_json Demo.settings Demo.refresh_token w (PStr "SME")
              "session:VPB-SME-1234567890" (Demo.camel_record "valid_token_key_123")
              w1 w2 (PBool true)
              (PyJson.dumps
                 (PDict (Demo.camel_record "valid_token_key_123"
                           ++ [("updated_at", PInt 1700000000001)])))
              Hload Hver eq_refl Hwrite)
    as (written & Hdb & Hjson & Hup & Hkeep).
  exists written. split; [exact Hdb |].
  split; [exact Hjson |].
  split; [rewrite Hup, Hnow; reflexivity | exact Hkeep].
Defined.

(** ** Initialisation: when it returns, what it touches, channel ids that are
    not texts *)

Section InitialisationMore.
Context `{!Json} `{!Settings}.

(** [set] touches its key only, sends nothing and generates no id. *)
Lemma set_frame (key : string) (value : pyval) (ttl : option Z) (w : World) :
  exists b w', RedisService.set key value ttl w = (Return b, w')
    /\ (forall k, k <> key -> w_db w' !! k = w_db w !! k)
    /\ w_sent w' = w_sent w /\ w_uuid w' = w_uuid w.
Proof.
  destruct (write_fails_or_applied value ttl w) as [Hfail | (text & Hok)].
  - destruct (set_fails key value ttl w Hfail) as (w' & Hs & Hdb & _ & _ & _ & Hu & Hse & _).
    exists false, w'. split; [exact Hs |]. split; [intros k _; rewrite Hdb; reflexivity |].
    split; assumption.
  - destruct (set_applied key value ttl w text Hok)
      as (w' & Hs & Hdb & _ & _ & _ & Hu & Hse & _).
    exists true, w'. split; [exact Hs |].
    split; [intros k Hk; rewrite Hdb; apply lookup_insert_ne; congruence |].
    split; assumption.
Qed.

(** X16. An initialisation returns tokens only when the channel id of the
    payload is a text that resolves to a channel with a business unit and the
    client of the store is connected. It then has changed no key of the store
    but session:VPB-<business unit>-<cif>, has sent nothing and has generated
    no id. *)
Theorem init_returns_inv (cif : string) (bci : BasicCustomerInfo) (credential : string)
    (payload : dict) (rid : string) (w w' : World) (res : TokenResult) :
  PostloginService.init_postlogin_user_session cif bci credential payload rid w
  = (Return res, w') ->
  exists (channel_id post_login_bu : string),
    channel_resolves payload channel_id post_login_bu
    /\ w_redis w = true
    /\ message res = upper post_login_bu +:+ " session initialized successfully"
    /\ (forall k, k <> "session:" +:+ "VPB-" +:+ upper post_login_bu +:+ "-" +:+ cif ->
        w_db w' !! k = w_db w !! k)
    /\ w_sent w' = w_sent w /\ w_uuid w' = w_uuid w.
Proof.
  intros Hrun. pose proof Hrun as Hrun0.
  unfold PostloginService.init_postlogin_user_session in Hrun.
  destruct (truthy (dict_get payload "channelId")) eqn:Hch; cbn [negb] in Hrun;
    [| discriminate].
  unfold bind at 1 in Hrun. unfold PostloginService._get_channel_setting in Hrun.
  destruct (dict_get payload "channelId") as [| | |channel_id| |] eqn:Hid;
    try discriminate.
  unfold ret at 1 in Hrun.
  destruct (channel_table !! channel_id) as [[|item rest]|] eqn:Htab; try discriminate.
  destruct (truthy (dict_get (item :: rest) "postLoginBu")) eqn:Hbu; cbn [negb] in Hrun;
    [| discriminate].
  unfold bind at 1 in Hrun. unfold py_upper in Hrun.
  destruct (dict_get (item :: rest) "postLoginBu") as [| | |post_login_bu| |] eqn:Hpl;
    try discriminate.
  unfold ret at 1 in Hrun.
  destruct (w_redis w) eqn:Hr.
  2:{ unfold bind, RedisService.is_connected in Hrun. rewrite Hr in Hrun. discriminate. }
  assert (Hres : channel_resolves payload channel_id post_login_bu).
  { split; [exact Hid |]. split.
    - intros ->. discriminate.
    - exists (item :: rest). split; [exact Htab |]. split; [exact Hpl |].
      intros ->. discriminate. }
  exists channel_id, post_login_bu. split; [exact Hres |]. split; [reflexivity |].
  rewrite (init_resolved cif bci credential payload rid channel_id post_login_bu w Hres Hr)
    in Hrun0.
  destruct (init_try_block_spec cif bci credential payload rid (upper post_login_bu) w)
    as (w3 & wx & stored & e1 & e2 & Hc & Hset & Hblock).
  rewrite Hblock in Hrun0. inversion Hrun0; subst res wx. clear Hrun0.
  cbn [message]. split; [reflexivity |].
  match type of Hset with
  | RedisService.set ?k ?v ?t _ = _ =>
      destruct (set_frame k v t w3) as (b & wy & Hset' & Hkeys & Hsent & Huuid)
  end.
  rewrite Hset in Hset'. inversion Hset'; subst b wy.
  destruct Hc as (_ & Hdb & _ & Hu & _ & Hs).
  split; [intros k Hk; rewrite (Hkeys k Hk), Hdb; reflexivity |].
  split; congruence.
Qed.

(** X17. With a channel that resolves but a client that is not connected, the
    initialisation raises 500 Internal Server Error before it reads the clock
    or mints a token: the world is as it was. *)
Theorem init_not_connected (cif : string) (bci : BasicCustomerInfo) (credential : string)
    (payload : dict) (rid : string) (channel_id post_login_bu : string) (w : World) :
  channel_resolves payload channel_id post_login_bu ->
  w_redis w = false ->
  PostloginService.init_postlogin_user_session cif bci credential payload rid w
  = (Raise (HTTPException 500 "Internal Server Error"), w).
Proof.
  intros (Hc & Hne & setting & Ht & Hbu & Hbne) Hr.
  unfold PostloginService.init_postlogin_user_session.
  rewrite Hc. rewrite (truthy_PStr _ Hne). cbn [negb].
  unfold PostloginService._get_channel_setting, bind, ret. rewrite Ht.
  destruct setting as [|item rest]; [discriminate |].
  rewrite Hbu. rewrite (truthy_PStr _ Hbne). cbn [negb].
  unfold py_upper, ret, RedisService.is_connected. cbn beta iota. rewrite Hr. reflexivity.
Qed.

(** X18. A channel id that is not a text. A number other than 0 and the
    boolean True are looked up and not found, whatever the table holds, since
    its keys are texts: 404 Cannot find channel with id <the value as Python
    prints it>. The number 0, False, None, an empty list and an empty dict
    are refused like an absent id: 400 Invalid channel id. A non-empty list
    or dict cannot be looked up: the TypeError leaves the function as it is,
    not as an HTTP error. In every case the world is as it was. *)
Theorem init_channel_id_not_text (cif : string) (bci : BasicCustomerInfo) (credential : string)
    (payload : dict) (rid : string) (w : World) :
  let run := PostloginService.init_postlogin_user_session cif bci credential payload rid w in
  (forall n, dict_get payload "channelId" = PInt n -> n <> 0%Z ->
     run = (Raise (HTTPException 404 ("Cannot find channel with id " +:+ Z_to_string n)), w))
  /\ (dict_get payload "channelId" = PBool true ->
      run = (Raise (HTTPException 404 "Cannot find channel with id True"), w))
  /\ (dict_get payload "channelId" = PInt 0 \/ dict_get payload "channelId" = PBool false
      \/ dict_get payload "channelId" = PNone \/ dict_get payload "channelId" = PList []
      \/ dict_get payload "channelId" = PDict [] ->
      run = (Raise (HTTPException 400 "Invalid channel id"), w))
  /\ (forall x l, dict_get payload "channelId" = PList (x :: l) ->
      run = (Raise (Exception "TypeError"), w))
  /\ (forall x d, dict_get payload "channelId" = PDict (x :: d) ->
      run = (Raise (Exception "TypeError"), w)).
Proof.
  intros run. subst run. unfold PostloginService.init_postlogin_user_session.
  split; [| split; [| split; [| split]]].
  - intros n -> Hn. simpl. destruct (Z.eqb_spec n 0); [contradiction | reflexivity].
  - intros ->. reflexivity.
  - intros [-> | [-> | [-> | [-> | ->]]]]; reflexivity.
  - intros x l ->. reflexivity.
  - intros x d ->. reflexivity.
Qed.

End InitialisationMore.

(** X16, witness: the initialisation of the example. *)
Lemma init_returns_inv_witness :
  exists (channel_id post_login_bu : string),
    @channel_resolves Demo.settings [("channelId", PStr "sme")] channel_id post_login_bu
    /\ w_redis Demo.world = true
    /\ message Cases.initialised
       = upper post_login_bu +:+ " session initialized successfully"
    /\ (forall k, k <> "session:" +:+ "VPB-" +:+ upper post_login_bu +:+ "-" +:+ "1234567890" ->
        w_db Demo.after_init !! k = w_db Demo.world !! k)
    /\ w_sent Demo.after_init = w_sent Demo.world
    /\ w_uuid Demo.after_init = w_uuid Demo.world.
Proof.
  apply (@init_returns_inv python_json Demo.settings "1234567890" Demo.customer
           "valid_token_key_123" [("channelId", PStr "sme")] "test-request-123"
           Demo.world Demo.after_init Cases.initialised).
  unfold Demo.after_init, Demo.init. run.
Defined.

(** X17, witness: the initialisation of the example before the store is
    connected. *)
Lemma init_not_connected_witness :
  @PostloginService.init_postlogin_user_session python_json Demo.settings
    "1234567890" Demo.customer "valid_token_key_123" [("channelId", PStr "sme")]
    "test-request-123" Cases.not_connected
  = (Raise (HTTPException 500 "Internal Server Error"), Cases.not_connected).
Proof.
  apply (@init_not_connected python_json Demo.settings "1234567890" Demo.customer
           "valid_token_key_123" [("channelId", PStr "sme")] "test-request-123"
           "sme" "SME" Cases.not_connected).
  - split; [reflexivity |]. split; [discriminate |].
    eexists. split; [vm_compute; reflexivity |]. split; [reflexivity | discriminate].
  - reflexivity.
Defined.

(** ** The errors of a renewal *)

Section Errors.
Context `{!Json} `{!Settings}.

(** [verify_token] raises nothing but its four errors. *)
Lemma verify_token_raises (bu token_key user_id request_id : pyval) (w w' : World) (e : exn) :
  TokenVerificationService.verify_token bu token_key user_id request_id w = (Raise e, w') ->
  In e verify_token_errors.
Proof.
  destruct (py_eq_str bu "SME") eqn:Hbu.
  2:{ rewrite verify_token_other_bu by exact Hbu. intros Heq; inversion Heq. simpl. tauto. }
  assert (bu = PStr "SME") as ->.
  { destruct bu; try discriminate. simpl in Hbu. apply String.eqb_eq in Hbu. congruence. }
  destruct (truthy user_id) eqn:Hu.
  2:{ rewrite verify_token_requires_user by exact Hu. intros Heq; inversion Heq.
      simpl. tauto. }
  destruct (TokenVerificationService.env_value SME_VERIFY_BASE_URL) as [base_url|] eqn:Hb.
  2:{ apply env_value_undefined in Hb.
      rewrite (proj1 (verify_token_undefined token_key user_id request_id w Hu) Hb).
      intros Heq; inversion Heq. simpl. tauto. }
  destruct (TokenVerificationService.env_value SME_VERIFY_TOKEN_KEY) as [api_key|] eqn:Hk.
  2:{ apply env_value_undefined in Hk.
      assert (Hnb : ~ undefined SME_VERIFY_BASE_URL)
        by (intros Hx; apply env_value_undefined in Hx; congruence).
      rewrite (proj2 (verify_token_undefined token_key user_id request_id w Hu) Hnb Hk).
      intros Heq; inversion Heq. simpl. tauto. }
  rewrite (verify_token_sme base_url api_key token_key user_id request_id w Hb Hk Hu).
  discriminate.
Qed.

(** What a renewal of a non-empty token raises. *)
Lemma renew_raises (rt : Token) (w w' : World) (e : exn) :
  token_truthy rt = true ->
  PostloginService.renew_postlogin_user_token rt w = (Raise e, w') ->
  In e errors_before_verifier \/ In e verify_token_errors
  \/ exists claims w0,
       auth_handler._decode_access_token rt w = (Return (PDict claims), w0)
       /\ e = HTTPException 401 ("Verify " +:+ py_str (dict_get claims "bu") +:+ " token failed").
Proof.
  intros Htok Hrun.
  destruct (renew_cases rt w)
    as [(e0 & wk & Hstop & _ & _ & [(Hf & _) | (_ & Hin)]) | (bu & key & record & w1 & Hload)].
  - congruence.
  - rewrite Hstop in Hrun. inversion Hrun; subst. left. exact Hin.
  - rewrite (renew_after_load rt w bu key record w1 Hload) in Hrun.
    unfold bind in Hrun.
    destruct (PostloginService.verification bu record w1) as [[v|ev] w2] eqn:Hver.
    + destruct (truthy v); cbn [negb] in Hrun.
      * destruct (renew_try_block_spec bu key record w2)
          as (w3 & wx & stored & e1 & e2 & _ & _ & Hblock).
        rewrite Hblock in Hrun. discriminate.
      * unfold raise in Hrun. inversion Hrun; subst. right. right.
        destruct Hload as (claims & w0 & text & _ & Hd & _ & Hbu & _).
        exists claims, w0. split; [exact Hd |]. rewrite Hbu. reflexivity.
    + inversion Hrun; subst. right. left.
      unfold PostloginService.verification in Hver.
      eapply verify_token_raises. exact Hver.
Qed.

(** X19. The HTTP errors of a renewal. An empty refresh token is answered 400
    Refresh token is required, and no other token is. Every [HTTPException]
    that a renewal of a non-empty token raises is one of: 400 Invalid refresh
    token, 404 Session not found, 500 Invalid session data, 400 Invalid
    tokenKey, the errors of the verifier (400 Missing BU, 400 Missing userId,
    500 for a variable that is not defined), 500 Internal Server Error, or
    401 Verify <bu> token failed with the business unit of the claims. *)
Theorem renew_error_catalogue (rt : Token) (w : World) :
  (token_truthy rt = false ->
   PostloginService.renew_postlogin_user_token rt w
   = (Raise (HTTPException 400 "Refresh token is required"), w))
  /\ (token_truthy rt = true ->
      forall status_code detail w',
        PostloginService.renew_postlogin_user_token rt w
        = (Raise (HTTPException status_code detail), w') ->
        In (status_code, detail)
           [ (400%Z, "Invalid refresh token");
             (404%Z, "Session not found");
             (500%Z, "Invalid session data");
             (400%Z, "Invalid tokenKey");
             (400%Z, "Missing BU");
             (400%Z, "Missing userId");
             (500%Z, "SME_VERIFY_BASE_URL is not defined");
             (500%Z, "SME_VERIFY_TOKEN_KEY is not defined");
             (500%Z, "Internal Server Error") ]
        \/ exists claims w0,
             auth_handler._decode_access_token rt w = (Return (PDict claims), w0)
             /\ status_code = 401%Z
             /\ detail = "Verify " +:+ py_str (dict_get claims "bu") +:+ " token failed").
Proof.
  split.
  - intros Htok. unfold PostloginService.renew_postlogin_user_token.
    rewrite Htok. reflexivity.
  - intros Htok status_code detail w' Hrun.
    destruct (renew_raises rt w w' _ Htok Hrun) as [Hin | [Hin | (claims & w0 & Hd & Heq)]].
    + left. simpl in Hin. simpl.
      repeat destruct Hin as [Hin | Hin]; try discriminate; try contradiction;
        inversion Hin; subst; tauto.
    + left. simpl in Hin. simpl.
      repeat destruct Hin as [Hin | Hin]; try discriminate; try contradiction;
        inversion Hin; subst; tauto.
    + right. inversion Heq; subst. exists claims, w0. auto.
Qed.

End Errors.

(** ** The routes *)

Section Routes.
Context `{!Json} `{!Settings}.

(** X20. The init-session route never gets to a channel: it hands the
    service the dict of its payload model, whose only key is channel_id,
    while the service reads the key channelId. For every validated request,
    in every world, the route raises 400 Invalid channel id and the world is
    as it was: no session is stored and no token is minted. *)
Theorem init_route_invalid_channel (data : postlogin_dto.InitPostloginSessionData)
    (x_request_id : string) (w : World) :
  postlogin_api.init_postlogin_user_session data x_request_id w
  = (Raise (HTTPException 400 "Invalid channel id"), w).
Proof. reflexivity. Qed.

(** X21. The renew-token route answers as the service does: the tokens and
    the message of the service's result, or the exception that the service
    raises, in the same world. A request that has passed the validation of
    its model is never answered 400 Refresh token is required. *)
Theorem renew_route (refresh_token data : Token) (w : World) :
  postlogin_dto.RenewTokenData refresh_token = Some data ->
  data = refresh_token
  /\ (forall res w',
        PostloginService.renew_postlogin_user_token data w = (Return res, w') ->
        postlogin_api.renew_postlogin_user_token data w
        = (Return {| postlogin_dto.token := token res;
                     postlogin_dto.refresh_token := refreshToken res;
                     postlogin_dto.message := message res |}, w'))
  /\ (forall e w',
        PostloginService.renew_postlogin_user_token data w = (Raise e, w') ->
        postlogin_api.renew_postlogin_user_token data w = (Raise e, w'))
  /\ fst (postlogin_api.renew_postlogin_user_token data w)
     <> Raise (HTTPException 400 "Refresh token is required").
Proof.
  unfold postlogin_dto.RenewTokenData.
  destruct (token_truthy refresh_token) eqn:Htok; [| discriminate].
  intros Heq. inversion Heq; subst data. clear Heq.
  split; [reflexivity |].
  unfold postlogin_api.renew_postlogin_user_token, bind.
  split; [intros res w' ->; reflexivity |].
  split; [intros e w' ->; reflexivity |].
  destruct (PostloginService.renew_postlogin_user_token refresh_token w) as [[res|e] w']
    eqn:Hrun; [discriminate |].
  cbn [fst]. intros Heq. inversion Heq; subst e.
  destruct (renew_raises refresh_token w w' _ Htok Hrun)
    as [Hin | [Hin | (claims & w0 & _ & Hx)]].
  - simpl in Hin. repeat destruct Hin as [Hin | Hin]; try discriminate; auto.
  - simpl in Hin. repeat destruct Hin as [Hin | Hin]; try discriminate; auto.
  - discriminate.
Qed.

End Routes.

(** X21, witness: the renewal of the example through the route. *)
Lemma renew_route_witness :
  fst (@postlogin_api.renew_postlogin_user_token python_json Demo.settings
         Demo.refresh_token (Demo.with_camel_record "valid_token_key_123"))
  <> Raise (HTTPException 400 "Refresh token is required")
  /\ fst (@postlogin_api.renew_postlogin_user_token python_json Demo.settings
            Demo.refresh_token (Demo.with_camel_record "valid_token_key_123"))
     = Return (postlogin_api.token_response Cases.renewed).
Proof.
  destruct (@renew_route python_json Demo.settings Demo.refresh_token Demo.refresh_token
              (Demo.with_camel_record "valid_token_key_123") eq_refl)
    as (_ & Hret & _ & Hne).
  split; [exact Hne |].
  rewrite (Hret Cases.renewed Cases.after_renewal).
  - reflexivity.
  - unfold Cases.after_renewal, Demo.renew. run.
Defined.

(** ** The validators of the request model *)

Section Strip.
Import postlogin_dto.

Lemma append_cons (c : ascii) (s t : string) : String c s +:+ t = String c (s +:+ t).
Proof. reflexivity. Qed.

Lemma blank_app (s t : string) : blank (s +:+ t) = blank s && blank t.
Proof.
  induction s as [|c r IH]; [reflexivity |].
  rewrite append_cons. simpl. rewrite IH. apply andb_assoc.
Qed.

Lemma lstrip_decomp (s : string) : exists l, s = l +:+ lstrip s /\ blank l = true.
Proof.
  induction s as [|c r (l & Hl & Hb)]; [exists ""; split; reflexivity |].
  simpl. destruct (isspace c) eqn:Hc.
  - exists (String c l). rewrite append_cons, <- Hl. simpl. rewrite Hc, Hb.
    split; reflexivity.
  - exists "". split; reflexivity.
Qed.

Lemma lstrip_head (s : string) (a : ascii) (t : string) :
  lstrip s = String a t -> isspace a = false.
Proof.
  induction s as [|c r IH]; [discriminate |].
  simpl. destruct (isspace c) eqn:Hc; [exact IH |].
  intros Heq. inversion Heq; subst. exact Hc.
Qed.

Lemma rstrip_decomp (s : string) : exists r, s = rstrip s +:+ r /\ blank r = true.
Proof.
  induction s as [|c s' (r & Hr & Hb)]; [exists ""; split; reflexivity |].
  simpl. destruct (rstrip s') as [|c' r'] eqn:Hs.
  - change ("" +:+ r) with r in Hr. subst s'. destruct (isspace c) eqn:Hc.
    + exists (String c r). simpl. rewrite Hc, Hb. split; reflexivity.
    + exists r. split; [reflexivity | exact Hb].
  - exists r. rewrite append_cons, <- Hr. split; [reflexivity | exact Hb].
Qed.

Lemma rstrip_last (s t : string) (a : ascii) :
  rstrip s = t +:+ String a "" -> isspace a = false.
Proof.
  revert t. induction s as [|c r IH]; intros t.
  - destruct t; discriminate.
  - simpl. destruct (rstrip r) as [|c' r'] eqn:Hr.
    + destruct (isspace c) eqn:Hc.
      * destruct t; discriminate.
      * destruct t as [|d t']; simpl; intros Heq; inversion Heq; subst.
        -- exact Hc.
        -- destruct t'; discriminate.
    + destruct t as [|d t']; simpl; intros Heq; inversion Heq; subst.
      eapply IH. eassumption.
Qed.

Lemma rstrip_blank (s : string) : rstrip s = "" <-> blank s = true.
Proof.
  induction s as [|c r IH]; [split; reflexivity |].
  simpl. destruct (rstrip r) as [|c' r'] eqn:Hr.
  - destruct (isspace c); simpl.
    + split; [intros _; apply IH; reflexivity | reflexivity].
    + split; discriminate.
  - split; [discriminate |]. intros Hb. apply andb_true_iff in Hb.
    destruct Hb as (_ & Hb). apply IH in Hb. discriminate.
Qed.

Lemma rstrip_head (a : ascii) (t : string) :
  isspace a = false -> exists t', rstrip (String a t) = String a t'.
Proof.
  intros Ha. simpl. destruct (rstrip t); [rewrite Ha |]; eauto.
Qed.

Lemma rstrip_idem (s : string) : rstrip (rstrip s) = rstrip s.
Proof.
  induction s as [|c r IH]; [reflexivity |].
  simpl. destruct (rstrip r) as [|c' r'] eqn:Hr.
  - destruct (isspace c) eqn:Hc; [reflexivity |]. simpl. rewrite Hc. reflexivity.
  - change (rstrip (String c (String c' r')))
      with (match rstrip (String c' r') with
            | EmptyString => if isspace c then EmptyString else String c EmptyString
            | r0 => String c r0
            end).
    rewrite IH. reflexivity.
Qed.

Lemma strip_blank (s : string) : strip s = "" <-> blank s = true.
Proof.
  unfold strip. rewrite rstrip_blank.
  destruct (lstrip_decomp s) as (l & Hl & Hb).
  rewrite Hl at 2. rewrite blank_app, Hb. reflexivity.
Qed.

Lemma strip_idem (s : string) : strip (strip s) = strip s.
Proof.
  unfold strip. destruct (lstrip s) as [|a t] eqn:Hl; [reflexivity |].
  pose proof (lstrip_head s a t Hl) as Ha.
  destruct (rstrip_head a t Ha) as (t' & Ht). rewrite Ht.
  simpl lstrip. rewrite Ha. rewrite <- Ht. apply rstrip_idem.
Qed.

(** X22. The validators of cif and token_key. A value made of white space
    only, the empty one among them, is refused with the ValueError of the
    field. Any other value is accepted and replaced by itself without the
    white space around it: the result is not empty, neither starts nor ends
    with white space, is what stands in the value between a blank prefix and
    a blank suffix, and passes the validator unchanged. *)
Theorem validators_strip (v : string) :
  (blank v = true ->
   validate_cif v = ValueError "CIF cannot be empty"
   /\ validate_token_key v = ValueError "Token key cannot be empty")
  /\ (blank v = false ->
      exists (c l r : string),
        validate_cif v = Valid c /\ validate_token_key v = Valid c
        /\ v = l +:+ c +:+ r /\ blank l = true /\ blank r = true
        /\ c <> ""
        /\ (forall a t, c = String a t -> isspace a = false)
        /\ (forall t a, c = t +:+ String a "" -> isspace a = false)
        /\ validate_cif c = Valid c /\ validate_token_key c = Valid c).
Proof.
  unfold validate_cif, validate_token_key. split.
  - intros Hb. apply strip_blank in Hb. rewrite Hb. rewrite orb_true_r. split; reflexivity.
  - intros Hb.
    assert (Hs : strip v <> "").
    { intros Hx. apply strip_blank in Hx. congruence. }
    assert (Hv : v <> "") by (intros ->; discriminate).
    destruct (lstrip_decomp v) as (l & Hl & Hbl).
    destruct (rstrip_decomp (lstrip v)) as (r & Hr & Hbr).
    exists (strip v), l, r.
    destruct (String.eqb_spec v ""); [contradiction |].
    destruct (String.eqb_spec (strip v) ""); [contradiction |].
    rewrite strip_idem.
    destruct (String.eqb_spec (strip v) ""); [contradiction |].
    cbn [orb].
    repeat (split; [reflexivity |]).
    split; [unfold strip; rewrite <- Hr; exact Hl |].
    split; [exact Hbl |]. split; [exact Hbr |]. split; [exact Hs |].
    split; [| split; [| split; reflexivity]].
    + intros a t Hc. unfold strip in Hc.
      destruct (lstrip v) as [|a' t'] eqn:Hlv; [discriminate |].
      pose proof (lstrip_head v a' t' Hlv) as Ha.
      destruct (rstrip_head a' t' Ha) as (t'' & Ht). rewrite Ht in Hc.
      inversion Hc; subst. exact Ha.
    + intros t a Hc. unfold strip in Hc. eapply rstrip_last. exact Hc.
Qed.

End Strip.

(** ** The verifier against the mock endpoint *)

(** What the mock endpoint answers to a request of the verifier. *)
Lemma mock_answers (u api_key rid t uid : string) :
  api_key <> "" -> uid <> "" ->
  mock_api.validate_session
    {| url := u;
       headers := [ ("Apikey", api_key); ("Content-Type", "application/json");
                    ("x-request-id", rid); ("x-session-token", t); ("x-user-id", uid) ] |}
  = if String.eqb t "" then mock_api.http_error 400 "Missing x-session-token header"
    else if negb (startswith t "expired") && startswith t "invalid"
         then mock_api.http_error 401 "Invalid session token"
         else mock_api.JSONResponse (mock_reply (startswith t "expired") uid t) 200.
Proof.
  intros Hk Hu. unfold mock_api.validate_session. cbn [headers].
  change (header "Apikey" _) with (Some api_key).
  change (header "x-request-id" _) with (Some rid).
  change (header "x-session-token" _) with (Some t).
  change (header "x-user-id" _) with (Some uid).
  cbv iota.
  destruct (String.eqb_spec api_key ""); [contradiction |].
  destruct (String.eqb t ""); [reflexivity |].
  destruct (String.eqb_spec uid ""); [contradiction |].
  reflexivity.
Qed.

(** X23. The verifier against the mock endpoint of the repository, for ASCII
    texts and a JSON library that reads back the answer of the endpoint. When
    the request reaches the endpoint, the verification is true exactly when
    the credential is not empty and starts neither with expired nor with
    invalid: an empty credential is answered 400, one that starts with
    invalid 401, one that starts with expired 200 with isExpire true, and all
    three give false. When the client refuses to send the request, nothing
    reaches the endpoint and the verification is false. *)
Theorem verify_token_against_mock `{!Json} `{!Settings} (base_url api_key t u r : string)
    (w : World) :
  TokenVerificationService.env_value SME_VERIFY_BASE_URL = Some base_url ->
  TokenVerificationService.env_value SME_VERIFY_TOKEN_KEY = Some api_key ->
  u <> "" ->
  TokenVerificationService.is_ascii api_key = true ->
  TokenVerificationService.is_ascii t = true ->
  TokenVerificationService.is_ascii u = true ->
  TokenVerificationService.is_ascii r = true ->
  let run := TokenVerificationService.verify_token (PStr "SME") (PStr t) (PStr u) (PStr r) w in
  let req :=
    {| url := rstrip_slash base_url
              +:+ "/corporate/relationship-management/marketing/v1/customer/validate-session";
       headers := [ ("Apikey", api_key);
                    ("Content-Type", "application/json");
                    ("x-request-id", if String.eqb r "" then u else r);
                    ("x-session-token", t);
                    ("x-user-id", u) ] |} in
  (w_http w req = mock_api.validate_session req ->
   (forall b, json_loads (PyJson.dumps (mock_reply b u t)) = Some (mock_reply b u t)) ->
   run = (Return (PBool (negb (String.eqb t "") && negb (startswith t "expired")
                         && negb (startswith t "invalid"))),
          with_sent (req :: w_sent w) w))
  /\ (w_http w req = Refused -> run = (Return (PBool false), w)).
Proof.
  intros Hb Hk Hu Ha1 Ha2 Ha3 Ha4 run req.
  assert (Htu : truthy (PStr u) = true) by (apply truthy_PStr; exact Hu).
  assert (Hkne : api_key <> "") by (apply env_value_Some in Hk; tauto).
  assert (Hout : outbound base_url api_key
                   (if truthy (PStr r) then PStr r else PStr u)
                   (sme_payload_of (PStr t) (PStr u) (PStr r))
                 = Some req).
  { subst req.
    unfold outbound, sme_payload_of, TokenVerificationService.sme_headers, dict_get_or.
    cbn [dict_lookup String.eqb Ascii.eqb Bool.eqb].
    change (truthy (PStr r)) with (negb (String.eqb r "")).
    change (TokenVerificationService.is_ascii "application/json") with true.
    destruct (String.eqb r ""); cbn [negb TokenVerificationService.str_headers];
      rewrite ?Ha1, ?Ha2, ?Ha3, ?Ha4; reflexivity. }
  assert (Hrun : run = (Return (PBool (verdict w (Some req))), sent (Some req) w)).
  { subst run. rewrite <- Hout.
    apply (verify_token_sme base_url api_key (PStr t) (PStr u) (PStr r) w Hb Hk Htu). }
  rewrite Hrun. clear Hrun Hout. unfold verdict, sent. split.
  - intros Hhttp Hjson. rewrite Hhttp. subst req.
    rewrite (mock_answers _ api_key _ t u Hkne Hu).
    destruct (String.eqb t ""); [reflexivity |]. cbn [negb andb].
    destruct (startswith t "expired") eqn:He; cbn [negb andb].
    + unfold mock_api.JSONResponse.
      change (200 =? 200)%Z with true. cbn [andb].
      unfold reply_valid. rewrite Hjson. reflexivity.
    + destruct (startswith t "invalid") eqn:Hi; [reflexivity |].
      unfold mock_api.JSONResponse.
      change (200 =? 200)%Z with true. cbn [andb negb].
      unfold reply_valid. rewrite Hjson. reflexivity.
  - intros Href. rewrite Href. reflexivity.
Qed.

(** X23, witness: the credential of the example, one that has expired, and
    the latter after a space, which the client of the example refuses. *)
Lemma verify_token_against_mock_witness :
  fst (Demo.verify "valid_token_key_123" "1234567890" "" Demo.world) = Return (PBool true)
  /\ fst (Demo.verify "expired_token_key" "1234567890" "" Demo.world) = Return (PBool false)
  /\ Demo.verify " expired_token_key" "1234567890" "" Demo.world
     = (Return (PBool false), Demo.world).
Proof.
  split; [| split].
  - unfold Demo.verify.
    rewrite (proj1 (@verify_token_against_mock python_json Demo.settings
                      "http://localhost:8000/api/v1/" "test-api-key"
                      "valid_token_key_123" "1234567890" "" Demo.world
                      eq_refl eq_refl ltac:(discriminate) eq_refl eq_refl eq_refl eq_refl)).
    + reflexivity.
    + vm_compute. reflexivity.
    + intros []; vm_compute; reflexivity.
  - unfold Demo.verify.
    rewrite (proj1 (@verify_token_against_mock python_json Demo.settings
                      "http://localhost:8000/api/v1/" "test-api-key"
                      "expired_token_key" "1234567890" "" Demo.world
                      eq_refl eq_refl ltac:(discriminate) eq_refl eq_refl eq_refl eq_refl)).
    + reflexivity.
    + vm_compute. reflexivity.
    + intros []; vm_compute; reflexivity.
  - apply (proj2 (@verify_token_against_mock python_json Demo.settings
                    "http://localhost:8000/api/v1/" "test-api-key"
                    " expired_token_key" "1234567890" "" Demo.world
                    eq_refl eq_refl ltac:(discriminate) eq_refl eq_refl eq_refl eq_refl)).
    vm_compute. reflexivity.
Defined.

(** * Sanity checks of the value model and of the codec *)

Example py_values :
  py_str (PInt (-1203)) = "-1203" /\ py_str (PInt 0) = "0" /\ upper "sme-x1" = "SME-X1"
  /\ rstrip_slash "http://a/b//" = "http://a/b" /\ rstrip_slash "///" = ""
  /\ py_str (PDict [("a", PList [PInt 1; PStr "x"]); ("b", PNone)]) = "{'a': [1, 'x'], 'b': None}".
Proof. repeat split; vm_compute; reflexivity. Qed.

Example codec_round_trip :
  PyJson.loads (PyJson.dumps (PDict (SessionData_dict Demo.record)))
  = Some (PDict (SessionData_dict Demo.record))
  /\ PyJson.loads "not json" = None /\ PyJson.loads "" = None
  /\ PyJson.loads " [1 , 2 ] " = Some (PList [PInt 1; PInt 2])
  /\ PyJson.loads "1.5" = None /\ PyJson.loads "01" = None /\ PyJson.loads "{} x" = None.
Proof. repeat split; vm_compute; reflexivity. Qed.
